(** * bankpoke: import reconciliation, match-update and transfer pairing

    A shallow embedding of the two import engines of the repository,

    - [backend/app/main.py]: the HTTP backend (cleaned-CSV and native-TSV
      normalizers, fingerprint, fallback cascade, batch import, summary,
      single-row create and update);
    - [src/bankpoke/mvp.py]: the ledger variant ([LedgerService]) with
      [row_hash] uniqueness and internal-transfer pairing;

    followed by the properties of the specification, proved or refuted on
    these definitions.

    Conventions.  A Python [str] is held as its UTF-8 bytes (a Rocq [string]),
    so [s.encode("utf-8")] is the identity.  A SQLite table is the list of its
    rows in rowid order.  Library calls whose result the properties do not
    depend on ([Decimal], [int], [strptime], [md5]) are fields of the class
    [Runtime]; SHA-256 is written out, because the import code relies on the
    shape of its hex digest. *)

From stdpp Require Import gmap strings list fin_maps sorting.
From Stdlib Require Import ZArith Ascii DecimalString DecimalZ.

Local Open Scope Z_scope.

(** ** Python string primitives *)

Module Py.

Definition byte (a : ascii) : Z := Z.of_N (N_of_ascii a).

(** [str.isspace] on the code points U+0009..U+000D, U+001C..U+0020. *)
Definition is_space1 (a : ascii) : bool :=
  let n := byte a in
  ((9 <=? n) && (n <=? 13)) || ((28 <=? n) && (n <=? 32)).

(** U+0085 and U+00A0. *)
Definition is_space2 (a b : ascii) : bool :=
  (byte a =? 0xC2) && ((byte b =? 0x85) || (byte b =? 0xA0)).

(** U+1680, U+2000..U+200A, U+2028, U+2029, U+202F, U+205F, U+3000. *)
Definition is_space3 (a b c : ascii) : bool :=
  let x := byte a in let y := byte b in let z := byte c in
  ((x =? 0xE1) && (y =? 0x9A) && (z =? 0x80))
  || ((x =? 0xE2) && (y =? 0x80)
        && (((0x80 <=? z) && (z <=? 0x8A)) || (z =? 0xA8) || (z =? 0xA9) || (z =? 0xAF)))
  || ((x =? 0xE2) && (y =? 0x81) && (z =? 0x9F))
  || ((x =? 0xE3) && (y =? 0x80) && (z =? 0x80)).

Fixpoint strip_front (p2 : ascii -> ascii -> bool) (p3 : ascii -> ascii -> ascii -> bool)
    (l : list ascii) : list ascii :=
  match l with
  | [] => []
  | a :: l1 =>
      if is_space1 a then strip_front p2 p3 l1 else
      match l1 with
      | b :: l2 =>
          if p2 a b then strip_front p2 p3 l2 else
          match l2 with
          | c :: l3 => if p3 a b c then strip_front p2 p3 l3 else l
          | [] => l
          end
      | [] => l
      end
  end.

Definition lstrip (l : list ascii) : list ascii := strip_front is_space2 is_space3 l.

Definition rstrip (l : list ascii) : list ascii :=
  rev (strip_front (fun a b => is_space2 b a) (fun a b c => is_space3 c b a) (rev l)).

(** [s.strip()] *)
Definition strip (s : string) : string :=
  String.string_of_list_ascii (rstrip (lstrip (String.list_ascii_of_string s))).

Definition lower_ascii (a : ascii) : ascii :=
  let n := byte a in
  if (65 <=? n) && (n <=? 90) then ascii_of_N (Z.to_N (n + 32)) else a.

(** [s.lower()] on the ASCII letters.  The source only compares the result
    with ["income"] and ["expense"] or tests it for the endings [".tsv"] and
    [".csv"]; no other code point lowers to one of their letters, so the
    tests are the same. *)
Definition lower (s : string) : string :=
  String.string_of_list_ascii (map lower_ascii (String.list_ascii_of_string s)).

(** [str(n)] for an [int]. *)
Definition str_of_int (z : Z) : string := NilZero.string_of_int (Z.to_int z).

(** [str(v)] for [v : str | None]. *)
Definition str (v : option string) : string := default "None"%string v.

(** [v or d] for [v : str | None]. *)
Definition or_else (v : option string) (d : string) : string :=
  match v with
  | Some s => if decide (s = ""%string) then d else s
  | None => d
  end.

(** [sep.join(l)] *)
Fixpoint join (sep : string) (l : list string) : string :=
  match l with
  | [] => ""
  | [s] => s
  | s :: rest => s +:+ sep +:+ join sep rest
  end.

(** [s.replace(",", "")] *)
Fixpoint remove_commas (s : string) : string :=
  match s with
  | EmptyString => EmptyString
  | String a s' => if Ascii.eqb a "," then remove_commas s' else String a (remove_commas s')
  end.

(** A UTF-8 continuation byte does not start a code point. *)
Definition is_continuation (a : ascii) : bool := (0x80 <=? byte a) && (byte a <? 0xC0).

(** [len(s)]: the number of code points. *)
Fixpoint len (s : string) : nat :=
  match s with
  | EmptyString => O
  | String a s' => if is_continuation a then len s' else S (len s')
  end.

Fixpoint skip_continuation (s : string) : string :=
  match s with
  | String a s' => if is_continuation a then skip_continuation s' else s
  | EmptyString => EmptyString
  end.

Fixpoint take_continuation (s : string) : string :=
  match s with
  | String a s' => if is_continuation a then String a (take_continuation s') else EmptyString
  | EmptyString => EmptyString
  end.

(** [s[:n]] *)
Fixpoint take (n : nat) (s : string) : string :=
  match n, s with
  | S n', String a s' => String a (take_continuation s' +:+ take n' (skip_continuation s'))
  | _, _ => EmptyString
  end.

(** [s[n:]] *)
Fixpoint drop (n : nat) (s : string) : string :=
  match n, s with
  | S n', String a s' => drop n' (skip_continuation s')
  | _, _ => s
  end.

(** [s[a:b]] for [0 <= a <= b] *)
Definition slice (a b : nat) (s : string) : string := take (b - a) (drop a s).

(** [s.startswith(p)] *)
Fixpoint startswith (s p : string) : bool :=
  match p, s with
  | EmptyString, _ => true
  | String a p', String b s' => Ascii.eqb a b && startswith s' p'
  | String _ _, EmptyString => false
  end.

(** [k in s] *)
Fixpoint contains (s k : string) : bool :=
  startswith s k ||
  match s with
  | EmptyString => false
  | String _ s' => contains s' k
  end.

(** [f"{n:0{w}d}"]: the sign counts in the width. *)
Definition format_0d (w : nat) (n : Z) : string :=
  let digits := str_of_int (Z.abs n) in
  let sign := if n <? 0 then "-"%string else ""%string in
  let fill := (w - String.length sign - String.length digits)%nat in
  sign +:+ String.string_of_list_ascii (repeat "0"%char fill) +:+ digits.

(** [s.endswith(p)] *)
Definition endswith (s p : string) : bool :=
  startswith (String.string_of_list_ascii (rev (String.list_ascii_of_string s)))
    (String.string_of_list_ascii (rev (String.list_ascii_of_string p))).

(** [s.count(c)] for a [c] of one byte. *)
Fixpoint count (c : ascii) (s : string) : nat :=
  match s with
  | EmptyString => O
  | String a s' => if Ascii.eqb a c then S (count c s') else count c s'
  end.

(** [s.split(sep, 1)[0]] for a [sep] of one byte: the text before the first
    [sep], or all of [s]. *)
Fixpoint before (sep : ascii) (s : string) : string :=
  match s with
  | EmptyString => EmptyString
  | String a s' => if Ascii.eqb a sep then EmptyString else String a (before sep s')
  end.

(** The tab character. *)
Definition tab : ascii := "009"%char.

(** [l[:n]] on a list: a negative [n] counts from the end. *)
Definition list_prefix {A} (n : Z) (l : list A) : list A :=
  if 0 <=? n then List.firstn (Z.to_nat n) l
  else List.firstn (length l - Z.to_nat (- n)) l.

(** [d[k] = d.get(k, 0) + v] on a dict, which keeps its keys in the order of
    their first insertion. *)
Fixpoint dict_add (k : string) (v : Z) (d : list (string * Z)) : list (string * Z) :=
  match d with
  | [] => [(k, v)]
  | (k', v') :: rest =>
      if decide (k' = k) then (k', v' + v) :: rest else (k', v') :: dict_add k v rest
  end.

(** [d.setdefault(k, []).append(x)] on such a dict. *)
Fixpoint dict_append {A} (k : string) (x : A) (d : list (string * list A))
    : list (string * list A) :=
  match d with
  | [] => [(k, [x])]
  | (k', l) :: rest =>
      if decide (k' = k) then (k', l ++ [x]) :: rest else (k', l) :: dict_append k x rest
  end.

(** [sorted(l, key=key, reverse=True)] and [l.sort(key=key, reverse=True)]:
    descending, and stable (equal keys stay in their order). *)
Fixpoint insert_desc {A} (key : A -> Z) (x : A) (l : list A) : list A :=
  match l with
  | [] => [x]
  | y :: rest => if key y <=? key x then x :: l else y :: insert_desc key x rest
  end.

Definition sorted_desc {A} (key : A -> Z) (l : list A) : list A :=
  foldr (insert_desc key) [] l.

(** [sum(l)] *)
Definition sum (l : list Z) : Z := foldr Z.add 0 l.

End Py.

(** ** SHA-256 (FIPS 180-4), as [hashlib.sha256(b).hexdigest()] *)

Module Sha256.

Definition mask32 : Z := 0xFFFFFFFF.
Definition add32 (a b : Z) : Z := Z.land (a + b) mask32.
Definition rotr (n x : Z) : Z :=
  Z.lor (Z.shiftr x n) (Z.land (Z.shiftl x (32 - n)) mask32).
Definition not32 (x : Z) : Z := Z.lxor x mask32.

Definition Ch (x y z : Z) : Z := Z.lxor (Z.land x y) (Z.land (not32 x) z).
Definition Maj (x y z : Z) : Z := Z.lxor (Z.lxor (Z.land x y) (Z.land x z)) (Z.land y z).
Definition Sigma0 (x : Z) : Z := Z.lxor (Z.lxor (rotr 2 x) (rotr 13 x)) (rotr 22 x).
Definition Sigma1 (x : Z) : Z := Z.lxor (Z.lxor (rotr 6 x) (rotr 11 x)) (rotr 25 x).
Definition sigma0 (x : Z) : Z := Z.lxor (Z.lxor (rotr 7 x) (rotr 18 x)) (Z.shiftr x 3).
Definition sigma1 (x : Z) : Z := Z.lxor (Z.lxor (rotr 17 x) (rotr 19 x)) (Z.shiftr x 10).

(** The round constants: the first 32 bits of the fractional parts of the
    cube roots of the first 64 primes. *)
Definition K : list Z :=
  [1116352408; 1899447441; 3049323471; 3921009573; 961987163; 1508970993;
   2453635748; 2870763221; 3624381080; 310598401; 607225278; 1426881987;
   1925078388; 2162078206; 2614888103; 3248222580; 3835390401; 4022224774;
   264347078; 604807628; 770255983; 1249150122; 1555081692; 1996064986;
   2554220882; 2821834349; 2952996808; 3210313671; 3336571891; 3584528711;
   113926993; 338241895; 666307205; 773529912; 1294757372; 1396182291;
   1695183700; 1986661051; 2177026350; 2456956037; 2730485921; 2820302411;
   3259730800; 3345764771; 3516065817; 3600352804; 4094571909; 275423344;
   430227734; 506948616; 659060556; 883997877; 958139571; 1322822218;
   1537002063; 1747873779; 1955562222; 2024104815; 2227730452; 2361852424;
   2428436474; 2756734187; 3204031479; 3329325298].

Record state := State { ha : Z; hb : Z; hc : Z; hd : Z; he : Z; hf : Z; hg : Z; hh : Z }.

(** The initial value: the fractional parts of the square roots of the first
    8 primes. *)
Definition H0 : state :=
  State 1779033703 3144134277 1013904242 2773480762 1359893119 2600822924 528734635 1541459225.

(** One round; [kw] is [K[t] + W[t]]. *)
Definition round (s : state) (kw : Z) : state :=
  let t1 := add32 (add32 (add32 (hh s) (Sigma1 (he s))) (Ch (he s) (hf s) (hg s))) kw in
  let t2 := add32 (Sigma0 (ha s)) (Maj (ha s) (hb s) (hc s)) in
  State (add32 t1 t2) (ha s) (hb s) (hc s) (add32 (hd s) t1) (he s) (hf s) (hg s).

(** Message schedule, newest word first. *)
Fixpoint schedule (n : nat) (ws : list Z) : list Z :=
  match n with
  | O => ws
  | S n' =>
      let w := add32 (add32 (sigma1 (nth 1 ws 0)) (nth 6 ws 0))
                     (add32 (sigma0 (nth 14 ws 0)) (nth 15 ws 0)) in
      schedule n' (w :: ws)
  end.

Definition compress (s : state) (block : list Z) : state :=
  let w := rev (schedule 48 (rev block)) in
  let s' := fold_left round (zip_with add32 K w) s in
  State (add32 (ha s) (ha s')) (add32 (hb s) (hb s')) (add32 (hc s) (hc s')) (add32 (hd s) (hd s'))
        (add32 (he s) (he s')) (add32 (hf s) (hf s')) (add32 (hg s) (hg s')) (add32 (hh s) (hh s')).

Fixpoint be_bytes (n : nat) (x : Z) : list Z :=
  match n with
  | O => []
  | S n' => Z.land (Z.shiftr x (8 * Z.of_nat n')) 0xFF :: be_bytes n' x
  end.

Definition pad (msg : list Z) : list Z :=
  let n := Z.of_nat (length msg) in
  msg ++ [0x80] ++ repeat 0 (Z.to_nat ((55 - n) mod 64)) ++ be_bytes 8 (8 * n).

Fixpoint words (fuel : nat) (bs : list Z) : list Z :=
  match fuel, bs with
  | S f, b0 :: b1 :: b2 :: b3 :: rest =>
      Z.lor (Z.shiftl b0 24) (Z.lor (Z.shiftl b1 16) (Z.lor (Z.shiftl b2 8) b3)) :: words f rest
  | _, _ => []
  end.

Fixpoint blocks (fuel : nat) (s : state) (ws : list Z) : state :=
  match fuel, ws with
  | S f, _ :: _ => blocks f (compress s (take 16 ws)) (drop 16 ws)
  | _, _ => s
  end.

Definition digest (msg : list Z) : state :=
  let bs := pad msg in
  blocks (length bs) H0 (words (length bs) bs).

Definition hex_digit (n : Z) : ascii :=
  ascii_of_N (Z.to_N (if n <? 10 then 48 + n else 87 + n)).

Definition hex32 (x : Z) : list ascii :=
  map (fun i => hex_digit (Z.land (Z.shiftr x (4 * i)) 0xF)) [7; 6; 5; 4; 3; 2; 1; 0].

Definition hexdigest (s : string) : string :=
  let d := digest (map Py.byte (String.list_ascii_of_string s)) in
  String.string_of_list_ascii
    (hex32 (ha d) ++ hex32 (hb d) ++ hex32 (hc d) ++ hex32 (hd d)
     ++ hex32 (he d) ++ hex32 (hf d) ++ hex32 (hg d) ++ hex32 (hh d)).

End Sha256.

(** ** Library calls left open, and exceptions *)

(** The outcome of [int(Decimal(s))]: a value, [InvalidOperation] or
    [ValueError] (which the amount parsers catch), or [OverflowError]
    (raised by [int] on an infinity, which they do not catch). *)
Inductive conversion := Converted (z : Z) | Invalid | Overflow.

Class Runtime := {
  (** [int(Decimal(s))] *)
  decimal_to_int : string -> conversion;
  (** [int(s)]; [None] is [ValueError] *)
  int_of_str : string -> option Z;
  (** [datetime.strptime(s, "%Y-%m-%d %H:%M")] as seconds; [None] is [ValueError] *)
  strptime : string -> option Z;
  (** [hashlib.md5(s.encode("utf-8")).hexdigest()] *)
  md5_hexdigest : string -> string;
}.

Inductive exn :=
  | HTTPException (status : Z)
  | IntegrityError
  | ValueError
  | OverflowError.

Inductive outcome (A : Type) :=
  | Return (a : A)
  | Raise (e : exn).
Arguments Return {A} a.
Arguments Raise {A} e.

#[global] Instance outcome_ret : MRet outcome := fun A a => Return a.
#[global] Instance outcome_bind : MBind outcome := fun A B k m =>
  match m with
  | Return a => k a
  | Raise e => Raise e
  end.

(** A row of [csv.DictReader]: a present key holds a string, or [None] when
    the line was short. *)
Definition get (row : gmap string (option string)) (k : string) : option string :=
  mjoin (row !! k).

(** ** Backend data ([backend/app/db.py], [backend/app/main.py]) *)

(** A normalized row, the [dict[str, str]] the normalizers return. *)
Module Row.
Record t := mk {
  id : string;
  date : string;
  amount : string;
  description : string;
  merchant : string;
  method : string;
  direction : string;
  raw_category : string;
  memo : string;
}.
End Row.

(** A row of the table [transactions]; the nullable columns are options. *)
Module Tx.
Record t := mk {
  id : string;
  date : string;
  amount : string;
  description : string;
  merchant : string;
  method : string;
  direction : option string;
  raw_category : option string;
  memo : option string;
  is_excluded : Z;
  import_fingerprint : option string;
}.
End Tx.

(** [Literal["income", "expense"]] *)
Inductive Direction := Income | Expense.

Definition direction_str (d : Direction) : string :=
  match d with
  | Income => "income"
  | Expense => "expense"
  end.

(** [ExpenseTransactionUpdateRequest] and [IncomeTransactionUpdateRequest] *)
Record TransactionUpdateRequest := {
  upd_date : option string;
  upd_category : option string;
  upd_description : option string;
  upd_amount : option Z;
  upd_method : option string;
  upd_excluded : option bool;
}.

(** [ExpenseTransactionMatchRequest] and [IncomeTransactionMatchRequest] *)
Record TransactionMatchRequest := {
  orig_date : string;
  orig_category : string;
  orig_description : string;
  orig_amount : Z;
  orig_method : string;
  orig_excluded : bool;
}.

Record TransactionUpdateByMatchRequest := {
  original : TransactionMatchRequest;
  updated : TransactionUpdateRequest;
}.

Record CreateTransactionRequest := {
  new_date : string;
  new_direction : Direction;
  new_category : string;
  new_description : string;
  new_amount : Z;
  new_method : string;
  new_memo : string;
  new_excluded : bool;
}.

Record MonthlySummary := {
  sum_year : Z;
  sum_month : Z;
  sum_income : Z;
  sum_expense : Z;
  net_cashflow : Z;
  transaction_count : Z;
}.

(** The response of the import endpoint. *)
Record ImportResponse := {
  imported : Z;
  skipped : Z;
  deleted : Z;
}.

(** The state of one import batch: the open connection and the in-memory
    structures of the loop. *)
Record batch := {
  conn : list Tx.t;
  seen_fingerprints : gset string;
  fallback_with_method_map : gmap (string * string * string * string) (list string);
  fallback_map : gmap (string * string * string) (list string);
  fallback_without_amount_map : gmap (string * string * string * string) (list string);
  skipped_duplicates : Z;
}.

Definition TYPE_TO_DIRECTION : gmap string string :=
  list_to_map [("수입", "income"); ("지출", "expense")]%string.

Definition AUTO_EXCLUDED_CATEGORIES : list string :=
  ["이체"; "내부이체"; "transfer"; "internal transfer"]%string.

Definition is_income_or_expense (d : string) : bool :=
  bool_decide (d = "income"%string) || bool_decide (d = "expense"%string).

Definition _month_prefix (year month : Z) : string :=
  Py.format_0d 4 year +:+ "-" +:+ Py.format_0d 2 month.

Definition _transaction_dedup_key (row : Row.t) : list string :=
  [Py.strip (Row.date row); Py.strip (Row.amount row); Py.strip (Row.description row);
   Py.strip (Row.method row); Py.strip (Row.direction row); Py.strip (Row.raw_category row)].

Definition _transaction_fingerprint (row : Row.t) : string :=
  Sha256.hexdigest (Py.join "|" (_transaction_dedup_key row)).

Definition _transaction_fallback_key_with_method (row : Row.t) : string * string * string * string :=
  (Py.strip (Row.date row), Py.strip (Row.amount row), Py.strip (Row.direction row),
   Py.strip (Row.method row)).

Definition _transaction_fallback_key (row : Row.t) : string * string * string :=
  (Py.strip (Row.date row), Py.strip (Row.amount row), Py.strip (Row.direction row)).

Definition _transaction_fallback_key_without_amount (row : Row.t)
    : string * string * string * string :=
  (Py.strip (Row.date row), Py.strip (Row.description row), Py.strip (Row.direction row),
   Py.strip (Row.method row)).

(** The dict built for the fingerprint in the create and update endpoints:
    only the six fingerprinted keys are read. *)
Definition fingerprint_input (date amount description method direction raw_category : string)
    : Row.t :=
  Row.mk "" date amount description "" method direction raw_category "".

(** [existing_model] of the import loop: every column through [str]. *)
Definition existing_model (t : Tx.t) : Row.t :=
  fingerprint_input (Tx.date t) (Tx.amount t) (Tx.description t) (Tx.method t)
    (Py.str (Tx.direction t)) (Py.str (Tx.raw_category t)).

(** [d.setdefault(k, []).append(v)] *)
Definition setdefault_append `{Countable K} (k : K) (v : string) (m : gmap K (list string))
    : gmap K (list string) :=
  <[k := default [] (m !! k) ++ [v]]> m.

(** [d.get(k, [])] *)
Definition get_list `{Countable K} (m : gmap K (list string)) (k : K) : list string :=
  default [] (m !! k).

(** [INSERT INTO transactions]: the primary key [id] is unique. *)
Definition insert_transaction (t : Tx.t) (db : list Tx.t) : outcome (list Tx.t) :=
  if decide (Tx.id t ∈ map Tx.id db) then Raise IntegrityError else Return (db ++ [t]).

(** [UPDATE transactions SET import_fingerprint = ? WHERE id = ?] *)
Definition set_fingerprint (fp id : string) (db : list Tx.t) : list Tx.t :=
  map (fun t =>
         if decide (Tx.id t = id)
         then Tx.mk (Tx.id t) (Tx.date t) (Tx.amount t) (Tx.description t) (Tx.merchant t)
                (Tx.method t) (Tx.direction t) (Tx.raw_category t) (Tx.memo t)
                (Tx.is_excluded t) (Some fp)
         else t) db.

(** The row that the import loop inserts for a normalized row. *)
Definition inserted_row (row : Row.t) (fingerprint : string) : Tx.t :=
  let is_excluded :=
    if decide (Py.strip (Row.raw_category row) ∈ AUTO_EXCLUDED_CATEGORIES) then 1 else 0 in
  Tx.mk (Row.id row) (Row.date row) (Row.amount row) (Row.description row) (Row.merchant row)
    (Row.method row) (Some (Row.direction row)) (Some (Row.raw_category row))
    (Some (Row.memo row)) is_excluded (Some fingerprint).

(** The three-level lookup of the import loop: [matched_existing_id]. *)
Definition matched_existing_id (st : batch) (row : Row.t) : option string :=
  let candidates_with_method :=
    get_list (fallback_with_method_map st) (_transaction_fallback_key_with_method row) in
  match candidates_with_method with
  | [i] => Some i
  | _ =>
      let candidates := get_list (fallback_map st) (_transaction_fallback_key row) in
      match candidates with
      | [i] => Some i
      | _ =>
          let candidates_without_amount :=
            get_list (fallback_without_amount_map st)
              (_transaction_fallback_key_without_amount row) in
          match candidates_without_amount with
          | [i] => Some i
          | _ => None
          end
      end
  end.

(** The in-memory structures built from the stored rows before the loop. *)
Definition seen_of (db : list Tx.t) : gset string :=
  list_to_set
    (omap (fun t =>
             match Tx.import_fingerprint t with
             | Some fp => if decide (Py.strip fp = ""%string) then None else Some (Py.strip fp)
             | None => None
             end) db).

Definition register_keys (row : Row.t) (id : string) (st : batch) : batch :=
  {| conn := conn st;
     seen_fingerprints := seen_fingerprints st;
     fallback_with_method_map :=
       setdefault_append (_transaction_fallback_key_with_method row) id
         (fallback_with_method_map st);
     fallback_map := setdefault_append (_transaction_fallback_key row) id (fallback_map st);
     fallback_without_amount_map :=
       setdefault_append (_transaction_fallback_key_without_amount row) id
         (fallback_without_amount_map st);
     skipped_duplicates := skipped_duplicates st |}.

Definition open_batch (db : list Tx.t) : batch :=
  fold_left (fun st t => register_keys (existing_model t) (Tx.id t) st) db
    {| conn := db;
       seen_fingerprints := seen_of db;
       fallback_with_method_map := ∅;
       fallback_map := ∅;
       fallback_without_amount_map := ∅;
       skipped_duplicates := 0 |}.

(** One iteration of [for row in normalized_rows]. *)
Definition import_row (st : batch) (row : Row.t) : outcome batch :=
  let fingerprint := _transaction_fingerprint row in
  if decide (fingerprint ∈ seen_fingerprints st) then
    Return {| conn := conn st;
              seen_fingerprints := seen_fingerprints st;
              fallback_with_method_map := fallback_with_method_map st;
              fallback_map := fallback_map st;
              fallback_without_amount_map := fallback_without_amount_map st;
              skipped_duplicates := skipped_duplicates st + 1 |}
  else
    match matched_existing_id st row with
    | Some existing_id =>
        Return {| conn := set_fingerprint fingerprint existing_id (conn st);
                  seen_fingerprints := {[fingerprint]} ∪ seen_fingerprints st;
                  fallback_with_method_map := fallback_with_method_map st;
                  fallback_map := fallback_map st;
                  fallback_without_amount_map := fallback_without_amount_map st;
                  skipped_duplicates := skipped_duplicates st + 1 |}
    | None =>
        db ← insert_transaction (inserted_row row fingerprint) (conn st);
        Return (register_keys row (Row.id row)
                  {| conn := db;
                     seen_fingerprints := {[fingerprint]} ∪ seen_fingerprints st;
                     fallback_with_method_map := fallback_with_method_map st;
                     fallback_map := fallback_map st;
                     fallback_without_amount_map := fallback_without_amount_map st;
                     skipped_duplicates := skipped_duplicates st |})
    end.

Fixpoint import_rows (st : batch) (rows : list Row.t) : outcome batch :=
  match rows with
  | [] => Return st
  | row :: rest => st' ← import_row st row; import_rows st' rest
  end.

(** [DELETE FROM transactions WHERE date LIKE prefix%]; the pattern holds
    digits and a dash only, so [LIKE] is a prefix test. *)
Definition delete_month (prefix : string) (db : list Tx.t) : list Tx.t :=
  List.filter (fun t => negb (Py.startswith (Tx.date t) prefix)) db.

(** ** Backend operations *)

Section Backend.
Context `{Runtime}.

Definition _parse_amount_to_abs_int (value : string) : outcome (option Z) :=
  match decimal_to_int value with
  | Converted z => Return (Some (Z.abs z))
  | Invalid => Return None
  | Overflow => Raise OverflowError
  end.

Definition _parse_amount_to_signed_int (value : string) : outcome (option Z) :=
  match decimal_to_int value with
  | Converted z => Return (Some z)
  | Invalid => Return None
  | Overflow => Raise OverflowError
  end.

(** [uuid4] stands for the value of [str(uuid.uuid4())], were it called;
    [Return None] is a rejected row. *)
Definition _normalize_cleaned_row (uuid4 : string) (row : gmap string (option string))
    : outcome (option Row.t) :=
  let date := Py.strip (Py.or_else (get row "date") "") in
  if decide (date = ""%string) then Return None else
  amount ← _parse_amount_to_signed_int (Py.str (get row "amount"));
  match amount with
  | None => Return None
  | Some amount =>
      let direction := Py.lower (Py.strip (Py.or_else (get row "direction") "")) in
      let direction :=
        if is_income_or_expense direction then direction
        else if 0 <=? amount then "income"%string else "expense"%string in
      let signed_amount :=
        if decide (direction = "income"%string) then Z.abs amount else - Z.abs amount in
      let description := Py.strip (Py.or_else (get row "description") "") in
      if decide (description = ""%string) then Return None else
      Return (Some
        {| Row.id := Py.or_else (Some (Py.strip (Py.or_else (get row "id") ""))) uuid4;
           Row.date := date;
           Row.amount := Py.str_of_int signed_amount;
           Row.description := description;
           Row.merchant :=
             Py.or_else (Some (Py.strip (Py.or_else (get row "merchant") ""))) description;
           Row.method := Py.strip (Py.or_else (get row "method") "");
           Row.direction := direction;
           Row.raw_category :=
             Py.or_else (Some (Py.strip (Py.or_else (get row "raw_category") ""))) "미분류";
           Row.memo := Py.strip (Py.or_else (get row "memo") "") |})
  end.

Definition _normalize_tsv_row (uuid4 : string) (row : gmap string (option string))
    : outcome (option Row.t) :=
  let date := Py.strip (Py.or_else (get row "날짜") "") in
  if decide (date = ""%string) then Return None else
  amount ← _parse_amount_to_signed_int (Py.remove_commas (Py.or_else (get row "금액") ""));
  match amount with
  | None => Return None
  | Some amount =>
      let tx_type := Py.strip (Py.or_else (get row "타입") "") in
      let direction :=
        match TYPE_TO_DIRECTION !! tx_type with
        | Some d => if is_income_or_expense d then d
                    else if 0 <=? amount then "income"%string else "expense"%string
        | None => if 0 <=? amount then "income"%string else "expense"%string
        end in
      let signed_amount :=
        if decide (direction = "income"%string) then Z.abs amount else - Z.abs amount in
      let description := Py.strip (Py.or_else (get row "내용") "") in
      if decide (description = ""%string) then Return None else
      let main_category := Py.strip (Py.or_else (get row "대분류") "") in
      let sub_category := Py.strip (Py.or_else (get row "소분류") "") in
      let raw_category :=
        if bool_decide (main_category ≠ ""%string) && bool_decide (sub_category ≠ ""%string)
        then main_category +:+ ">" +:+ sub_category else "미분류"%string in
      Return (Some
        {| Row.id := uuid4;
           Row.date := date;
           Row.amount := Py.str_of_int signed_amount;
           Row.description := description;
           Row.merchant := description;
           Row.method := Py.strip (Py.or_else (get row "결제수단") "");
           Row.direction := direction;
           Row.raw_category := raw_category;
           Row.memo := Py.strip (Py.or_else (get row "메모") "") |})
  end.

(** [for row in reader: ... normalized_rows.append(normalized)]; the [i]-th
    line draws the identifier [uuid4 i]. *)
Fixpoint normalize_rows (uuid4 : nat -> string) (is_cleaned_schema : bool) (i : nat)
    (rows : list (gmap string (option string))) : outcome (list Row.t) :=
  match rows with
  | [] => Return []
  | row :: rest =>
      normalized ← (if is_cleaned_schema then _normalize_cleaned_row (uuid4 i) row
                    else _normalize_tsv_row (uuid4 i) row);
      others ← normalize_rows uuid4 is_cleaned_schema (S i) rest;
      Return (match normalized with
              | Some r => r :: others
              | None => others
              end)
  end.

(** The target of a month replacement: the explicit parameters, or the single
    month of the file. *)
Definition target_month (year month : option Z) (normalized_rows : list Row.t)
    : outcome (Z * Z) :=
  ym ← match year, month with
       | Some y, Some m => Return (y, m)
       | _, _ =>
           let month_keys : gset string :=
             list_to_set
               (map (fun row => Py.take 7 (Row.date row))
                  (List.filter (fun row => bool_decide (7 ≤ Py.len (Row.date row))%nat)
                     normalized_rows)) in
           match elements month_keys with
           | [key] =>
               match int_of_str (Py.take 4 key), int_of_str (Py.slice 5 7 key) with
               | Some y, Some m => Return (y, m)
               | _, _ => Raise ValueError
               end
           | _ => Raise (HTTPException 400)
           end
       end;
  let '(target_year, target_month) := ym in
  if (target_year <? 2000) || (2100 <? target_year) || (target_month <? 1) || (12 <? target_month)
  then Raise (HTTPException 400)
  else Return (target_year, target_month).

(** The body of [with get_connection(DB_PATH) as conn] of the import. *)
Definition reconcile (normalized_rows : list Row.t) (db : list Tx.t) : outcome batch :=
  import_rows (open_batch db) normalized_rows.

(** [POST /api/transactions/import], from the parsed lines on.  The second
    component is the committed table when the request ends: the deletion of a
    month is committed on its own connection, and the block of the loop
    commits at its end or is rolled back by an exception. *)
Definition import_transactions (uuid4 : nat -> string) (is_cleaned_schema : bool)
    (rows : list (gmap string (option string))) (replace_month : bool)
    (year month : option Z) (db : list Tx.t) : outcome ImportResponse * list Tx.t :=
  match normalize_rows uuid4 is_cleaned_schema 0 rows with
  | Raise e => (Raise e, db)
  | Return [] => (Raise (HTTPException 400), db)
  | Return normalized_rows =>
      let after_delete :=
        if replace_month then
          ym ← target_month year month normalized_rows;
          let db1 := delete_month (_month_prefix ym.1 ym.2) db in
          Return (Z.of_nat (length db) - Z.of_nat (length db1), db1)
        else Return (0, db) in
      match after_delete with
      | Raise e => (Raise e, db)
      | Return (deleted, db1) =>
          match reconcile normalized_rows db1 with
          | Raise e => (Raise e, db1)
          | Return st =>
              (Return {| imported := Z.of_nat (length normalized_rows) - skipped_duplicates st;
                         skipped := skipped_duplicates st;
                         deleted := deleted |},
               conn st)
          end
      end
  end.

(** [GET /api/summary] *)
Definition summary_step (acc : Z * Z * Z) (t : Tx.t) : outcome (Z * Z * Z) :=
  let '(income, expense, transaction_count) := acc in
  amount ← _parse_amount_to_abs_int (Tx.amount t);
  match amount with
  | None => Return acc
  | Some amount =>
      let direction := Py.lower (Py.strip (Py.or_else (Tx.direction t) "")) in
      let is_excluded := bool_decide (Tx.is_excluded t ≠ 0) in
      let transaction_count := transaction_count + 1 in
      if is_excluded && is_income_or_expense direction
      then Return (income, expense, transaction_count)
      else if decide (direction = "income"%string)
           then Return (income + amount, expense, transaction_count)
           else if decide (direction = "expense"%string)
                then Return (income, expense + amount, transaction_count)
                else Return (income, expense, transaction_count)
  end.

Fixpoint summary_loop (acc : Z * Z * Z) (rows : list Tx.t) : outcome (Z * Z * Z) :=
  match rows with
  | [] => Return acc
  | t :: rest => acc' ← summary_step acc t; summary_loop acc' rest
  end.

Definition summary (year month : Z) (db : list Tx.t) : outcome MonthlySummary :=
  let prefix := _month_prefix year month in
  let rows := List.filter (fun t => Py.startswith (Tx.date t) prefix) db in
  acc ← summary_loop (0, 0, 0) rows;
  let '(income, expense, transaction_count) := acc in
  Return {| sum_year := year; sum_month := month; sum_income := income;
            sum_expense := expense; net_cashflow := income - expense;
            transaction_count := transaction_count |}.

(** [_build_transaction_updates]: column name to new value. *)
Definition _build_transaction_updates (payload : TransactionUpdateRequest) (direction : Direction)
    : outcome (gmap string string) :=
  let updates : gmap string string := ∅ in
  updates ← match upd_date payload with
            | Some d =>
                let cleaned_date := Py.strip d in
                if decide (cleaned_date = ""%string) then Raise (HTTPException 400)
                else Return (<["date"%string := cleaned_date]> updates)
            | None => Return updates
            end;
  let updates :=
    match upd_category payload with
    | Some c => <["raw_category"%string := Py.or_else (Some (Py.strip c)) "미분류"]> updates
    | None => updates
    end in
  let updates :=
    match upd_description payload with
    | Some d => <["merchant"%string := Py.strip d]> (<["description"%string := Py.strip d]> updates)
    | None => updates
    end in
  let updates :=
    match upd_method payload with
    | Some m => <["method"%string := Py.strip m]> updates
    | None => updates
    end in
  updates ← match upd_amount payload with
            | Some a =>
                if a <=? 0 then Raise (HTTPException 400)
                else
                  let signed_amount :=
                    match direction with
                    | Expense => - Z.abs a
                    | Income => Z.abs a
                    end in
                  Return (<["amount"%string := Py.str_of_int signed_amount]> updates)
            | None => Return updates
            end;
  Return match upd_excluded payload with
         | Some e => <["is_excluded"%string := if e then "1"%string else "0"%string]> updates
         | None => updates
         end.

(** The effect of [UPDATE transactions SET col = ?, ...] on one row.  The
    column [is_excluded] has integer affinity and receives ["1"] or ["0"]. *)
Definition apply_columns (updates : gmap string string) (t : Tx.t) : Tx.t :=
  {| Tx.id := Tx.id t;
     Tx.date := default (Tx.date t) (updates !! "date"%string);
     Tx.amount := default (Tx.amount t) (updates !! "amount"%string);
     Tx.description := default (Tx.description t) (updates !! "description"%string);
     Tx.merchant := default (Tx.merchant t) (updates !! "merchant"%string);
     Tx.method := default (Tx.method t) (updates !! "method"%string);
     Tx.direction := Tx.direction t;
     Tx.raw_category :=
       match updates !! "raw_category"%string with
       | Some c => Some c
       | None => Tx.raw_category t
       end;
     Tx.memo := Tx.memo t;
     Tx.is_excluded :=
       match updates !! "is_excluded"%string with
       | Some v => if decide (v = "1"%string) then 1 else 0
       | None => Tx.is_excluded t
       end;
     Tx.import_fingerprint :=
       match updates !! "import_fingerprint"%string with
       | Some fp => Some fp
       | None => Tx.import_fingerprint t
       end |}.

Definition update_target (transaction_id : string) (direction : Direction) (t : Tx.t) : bool :=
  bool_decide (Tx.id t = transaction_id)
  && bool_decide (Tx.direction t = Some (direction_str direction)).

(** [_apply_transaction_update]: the row count and the committed table. *)
Definition _apply_transaction_update (transaction_id : string) (updates : gmap string string)
    (direction : Direction) (db : list Tx.t) : Z * list Tx.t :=
  (Z.of_nat (length (List.filter (update_target transaction_id direction) db)),
   map (fun t => if update_target transaction_id direction t then apply_columns updates t else t)
     db).

(** [PATCH /api/expense-transactions/{id}] and [/api/income-transactions/{id}],
    which differ in the direction only. *)
Definition update_transaction (direction : Direction) (transaction_id : string)
    (payload : TransactionUpdateRequest) (db : list Tx.t) : outcome unit * list Tx.t :=
  match _build_transaction_updates payload direction with
  | Raise e => (Raise e, db)
  | Return updates =>
      if decide (updates = ∅) then (Raise (HTTPException 400), db) else
      match List.find (update_target transaction_id direction) db with
      | None => (Raise (HTTPException 404), db)
      | Some row =>
          let updated_date := default (Tx.date row) (updates !! "date"%string) in
          let updated_amount := default (Tx.amount row) (updates !! "amount"%string) in
          let updated_description :=
            default (Tx.description row) (updates !! "description"%string) in
          let updated_method := default (Tx.method row) (updates !! "method"%string) in
          let updated_category :=
            default (Py.str (Tx.raw_category row)) (updates !! "raw_category"%string) in
          let new_fingerprint :=
            _transaction_fingerprint
              (fingerprint_input updated_date updated_amount updated_description updated_method
                 (direction_str direction) updated_category) in
          let updates := <["import_fingerprint"%string := new_fingerprint]> updates in
          let '(rowcount, db') :=
            _apply_transaction_update transaction_id updates direction db in
          if rowcount =? 0 then (Raise (HTTPException 404), db') else (Return (), db')
      end
  end.

Definition update_expense_transaction := update_transaction Expense.
Definition update_income_transaction := update_transaction Income.

(** The [SELECT] of the by-match endpoints. *)
Definition snapshot_row (direction : Direction) (o : TransactionMatchRequest) (t : Tx.t) : bool :=
  bool_decide (Tx.direction t = Some (direction_str direction))
  && bool_decide (Tx.date t = Py.strip (orig_date o))
  && bool_decide (default ""%string (Tx.raw_category t) = Py.strip (orig_category o))
  && bool_decide (Tx.description t = Py.strip (orig_description o))
  && bool_decide (Tx.method t = Py.strip (orig_method o))
  && bool_decide (Tx.is_excluded t = if orig_excluded o then 1 else 0).

Fixpoint matched_ids (o : TransactionMatchRequest) (rows : list Tx.t) : outcome (list string) :=
  match rows with
  | [] => Return []
  | row :: rest =>
      amount ← _parse_amount_to_abs_int (Tx.amount row);
      others ← matched_ids o rest;
      Return (if decide (amount = Some (orig_amount o)) then Tx.id row :: others else others)
  end.

(** [PATCH /api/expense-transactions] and [/api/income-transactions]. *)
Definition update_transaction_by_match (direction : Direction)
    (payload : TransactionUpdateByMatchRequest) (db : list Tx.t) : outcome unit * list Tx.t :=
  match _build_transaction_updates (updated payload) direction with
  | Raise e => (Raise e, db)
  | Return updates =>
      if decide (updates = ∅) then (Raise (HTTPException 400), db) else
      if orig_amount (original payload) <=? 0 then (Raise (HTTPException 400), db) else
      match matched_ids (original payload)
              (List.filter (snapshot_row direction (original payload)) db) with
      | Raise e => (Raise e, db)
      | Return [] => (Raise (HTTPException 404), db)
      | Return [matched] =>
          let '(rowcount, db') := _apply_transaction_update matched updates direction db in
          if rowcount =? 0 then (Raise (HTTPException 404), db') else (Return (), db')
      | Return _ => (Raise (HTTPException 409), db)
      end
  end.

Definition update_expense_transaction_by_match := update_transaction_by_match Expense.
Definition update_income_transaction_by_match := update_transaction_by_match Income.

(** [POST /api/transactions]; [transaction_id] is the drawn [uuid4]. *)
Definition create_transaction (transaction_id : string) (payload : CreateTransactionRequest)
    (db : list Tx.t) : outcome string * list Tx.t :=
  if new_amount payload <=? 0 then (Raise (HTTPException 400), db) else
  let cleaned_date := Py.strip (new_date payload) in
  if decide (cleaned_date = ""%string) then (Raise (HTTPException 400), db) else
  let cleaned_category := Py.or_else (Some (Py.strip (new_category payload))) "미분류" in
  let cleaned_description := Py.strip (new_description payload) in
  if decide (cleaned_description = ""%string) then (Raise (HTTPException 400), db) else
  let signed_amount :=
    match new_direction payload with
    | Income => Z.abs (new_amount payload)
    | Expense => - Z.abs (new_amount payload)
    end in
  let fingerprint :=
    _transaction_fingerprint
      (fingerprint_input cleaned_date (Py.str_of_int signed_amount) cleaned_description
         (Py.strip (new_method payload)) (direction_str (new_direction payload))
         cleaned_category) in
  match insert_transaction
          (Tx.mk transaction_id cleaned_date (Py.str_of_int signed_amount) cleaned_description
             cleaned_description (Py.strip (new_method payload))
             (Some (direction_str (new_direction payload))) (Some cleaned_category)
             (Some (Py.strip (new_memo payload))) (if new_excluded payload then 1 else 0)
             (Some fingerprint)) db with
  | Raise e => (Raise e, db)
  | Return db' => (Return transaction_id, db')
  end.

End Backend.

(** ** Backend reports and upload helpers *)

Definition _major_category (raw_category : string) : string :=
  Py.or_else (Some (Py.strip (Py.before ">" raw_category))) "미분류".

Definition _detect_delimiter (file_name header_line : string) : string :=
  if Py.endswith (Py.lower file_name) ".tsv" then String Py.tab EmptyString
  else if Py.endswith (Py.lower file_name) ".csv" then ","%string
  else if (Py.count "," header_line <? Py.count Py.tab header_line)%nat
       then String Py.tab EmptyString else ","%string.

(** [CategoryBreakdownItem] *)
Record CategoryBreakdownItem := {
  breakdown_category : string;
  breakdown_amount : Z;
}.

(** [CategoryMonthlyTrendRow]; [values] is a dict in the order of the
    categories. *)
Record CategoryMonthlyTrendRow := {
  trend_month : Z;
  trend_values : list (string * Z);
}.

Record CategoryMonthlyTrendResponse := {
  trend_year : Z;
  trend_categories : list string;
  trend_rows : list CategoryMonthlyTrendRow;
}.

(** [ExpenseTransactionItem] and [IncomeTransactionItem] *)
Record TransactionItem := {
  item_id : string;
  item_date : string;
  item_category : string;
  item_description : string;
  item_amount : Z;
  item_method : string;
  item_excluded : bool;
}.

(** [ExpenseCategoryTransactions] and [IncomeCategoryTransactions] *)
Record CategoryTransactions := {
  group_category : string;
  group_total_amount : Z;
  group_count : Z;
  group_items : list TransactionItem;
}.

(** [(row["raw_category"] or "").strip() or "미분류"] *)
Definition stored_category (row : Tx.t) : string :=
  Py.or_else (Some (Py.strip (Py.or_else (Tx.raw_category row) ""))) "미분류".

(** [category = _major_category(raw_category) if group_level == "major" else
    raw_category] *)
Definition grouping_category (group_level raw_category : string) : string :=
  if decide (group_level = "major"%string) then _major_category raw_category else raw_category.

(** [WHERE date LIKE prefix% AND direction = 'expense'
    AND COALESCE(is_excluded, 0) = 0] *)
Definition spending_row (prefix : string) (t : Tx.t) : bool :=
  Py.startswith (Tx.date t) prefix
  && bool_decide (Tx.direction t = Some "expense"%string)
  && bool_decide (Tx.is_excluded t = 0).

(** [WHERE date LIKE prefix% AND direction = ?
    AND (? = 1 OR COALESCE(is_excluded, 0) = 0)] *)
Definition listed_row (direction : Direction) (prefix : string) (include_excluded : bool)
    (t : Tx.t) : bool :=
  Py.startswith (Tx.date t) prefix
  && bool_decide (Tx.direction t = Some (direction_str direction))
  && (include_excluded || bool_decide (Tx.is_excluded t = 0)).

(** [range(1, 13)] *)
Definition months : list Z := [1; 2; 3; 4; 5; 6; 7; 8; 9; 10; 11; 12].

Section Reports.
Context `{Runtime}.

(** [for row in rows] of [category_breakdown]. *)
Fixpoint breakdown_loop (totals : list (string * Z)) (rows : list Tx.t)
    : outcome (list (string * Z)) :=
  match rows with
  | [] => Return totals
  | row :: rest =>
      let category := stored_category row in
      amount ← _parse_amount_to_abs_int (Tx.amount row);
      match amount with
      | None => breakdown_loop totals rest
      | Some amount => breakdown_loop (Py.dict_add category amount totals) rest
      end
  end.

(** [GET /api/category-breakdown] *)
Definition category_breakdown (year month : Z) (db : list Tx.t)
    : outcome (list CategoryBreakdownItem) :=
  let prefix := _month_prefix year month in
  let rows := List.filter (spending_row prefix) db in
  totals ← breakdown_loop [] rows;
  let sorted_items := Py.sorted_desc snd totals in
  Return (map (fun item => {| breakdown_category := item.1; breakdown_amount := item.2 |})
            sorted_items).

(** [for row in rows] of [category_monthly_trend]. *)
Fixpoint trend_loop (group_level : string) (totals_by_category : list (string * Z))
    (totals_by_month_category : gmap (Z * string) Z) (rows : list Tx.t)
    : outcome (list (string * Z) * gmap (Z * string) Z) :=
  match rows with
  | [] => Return (totals_by_category, totals_by_month_category)
  | row :: rest =>
      let date_text := Tx.date row in
      let raw_category := stored_category row in
      let category := grouping_category group_level raw_category in
      amount ← _parse_amount_to_abs_int (Tx.amount row);
      match amount with
      | None => trend_loop group_level totals_by_category totals_by_month_category rest
      | Some amount =>
          match int_of_str (Py.slice 5 7 date_text) with
          | None => trend_loop group_level totals_by_category totals_by_month_category rest
          | Some month =>
              let key := (month, category) in
              trend_loop group_level (Py.dict_add category amount totals_by_category)
                (<[key := default 0 (totals_by_month_category !! key) + amount]>
                   totals_by_month_category)
                rest
          end
      end
  end.

(** The row of one month, or [None] when the month is left out. *)
Definition trend_row (include_empty_months : bool) (top_categories : list string)
    (totals_by_month_category : gmap (Z * string) Z) (month : Z)
    : option CategoryMonthlyTrendRow :=
  let values :=
    map (fun category => (category, default 0 (totals_by_month_category !! (month, category))))
      top_categories in
  if negb include_empty_months && forallb (fun value => value.2 =? 0) values then None
  else Some {| trend_month := month; trend_values := values |}.

(** [GET /api/category-monthly-trend] *)
Definition category_monthly_trend (year top : Z) (include_empty_months : bool)
    (group_level : string) (db : list Tx.t) : outcome CategoryMonthlyTrendResponse :=
  let prefix := Py.format_0d 4 year +:+ "-" in
  let rows := List.filter (spending_row prefix) db in
  totals ← trend_loop group_level [] ∅ rows;
  let top_categories := map fst (Py.list_prefix top (Py.sorted_desc snd totals.1)) in
  Return {| trend_year := year;
            trend_categories := top_categories;
            trend_rows := omap (trend_row include_empty_months top_categories totals.2) months |}.

(** [for row in rows] of [expense_transactions] and [income_transactions]. *)
Fixpoint listing_loop (group_level : string) (grouped : list (string * list TransactionItem))
    (rows : list Tx.t) : outcome (list (string * list TransactionItem)) :=
  match rows with
  | [] => Return grouped
  | row :: rest =>
      let raw_category := stored_category row in
      let category := grouping_category group_level raw_category in
      amount ← _parse_amount_to_abs_int (Tx.amount row);
      match amount with
      | None => listing_loop group_level grouped rest
      | Some amount =>
          let item :=
            {| item_id := Tx.id row;
               item_date := Tx.date row;
               item_category := raw_category;
               item_description := Py.strip (Py.or_else (Some (Tx.description row)) "");
               item_amount := amount;
               item_method := Py.strip (Py.or_else (Some (Tx.method row)) "");
               item_excluded := bool_decide (Tx.is_excluded row ≠ 0) |} in
          listing_loop group_level (Py.dict_append category item grouped) rest
      end
  end.

(** [for category, items in grouped.items()] *)
Definition category_transactions (entry : string * list TransactionItem)
    : CategoryTransactions :=
  {| group_category := entry.1;
     group_total_amount := Py.sum (map item_amount entry.2);
     group_count := Z.of_nat (length entry.2);
     group_items := entry.2 |}.

(** [GET /api/expense-transactions] and [/api/income-transactions], which
    differ in the direction only.  [order_by_date_desc] is the engine's
    [ORDER BY date DESC]: the order among rows of one date is its own. *)
Definition transactions_by_category (order_by_date_desc : list Tx.t -> list Tx.t)
    (direction : Direction) (year month : Z) (group_level : string) (include_excluded : bool)
    (db : list Tx.t) : outcome (list CategoryTransactions) :=
  let prefix := _month_prefix year month in
  let rows := order_by_date_desc (List.filter (listed_row direction prefix include_excluded) db) in
  grouped ← listing_loop group_level [] rows;
  Return (Py.sorted_desc group_total_amount (map category_transactions grouped)).

Definition expense_transactions (order_by_date_desc : list Tx.t -> list Tx.t) :=
  transactions_by_category order_by_date_desc Expense.
Definition income_transactions (order_by_date_desc : list Tx.t -> list Tx.t) :=
  transactions_by_category order_by_date_desc Income.

End Reports.

(** ** The ledger variant ([src/bankpoke/mvp.py])

    The column [occurred_at] holds the text ["%Y-%m-%d %H:%M:%S"] of an
    instant; the model keeps the instant itself, in seconds, which orders and
    subtracts as the text does once parsed back.  This is the behaviour for
    the years that [strftime] writes with four digits (from 1000 on with
    glibc) and for amounts within the 64 bits of an SQLite [INTEGER]; outside
    these the source raises where the model goes on. *)

Module Ledger.

Record transaction := {
  id : Z;
  occurred_at : Z;
  tx_type : string;
  amount : Z;
  signed_amount : Z;
  currency : string;
  major_category : option string;
  minor_category : option string;
  content : option string;
  payment_method : option string;
  note : option string;
  row_hash : string;
  transfer_group_id : option string;
  transfer_external : Z;
  review_required : Z;
}.

Record ImportResult := {
  imported : Z;
  skipped_duplicates : Z;
  review_required_count : Z;
}.

(** [self.conn]: the committed table and the view of the connection, which
    holds the statements of the open transaction as well. *)
Record LedgerService := {
  committed : list transaction;
  view : list transaction;
}.

Definition commit (svc : LedgerService) : LedgerService :=
  {| committed := view svc; view := view svc |}.

(** [close()] followed by a new [LedgerService] on the same file. *)
Definition reopen (svc : LedgerService) : LedgerService :=
  {| committed := committed svc; view := committed svc |}.

Definition TYPE_MAP : gmap string string :=
  list_to_map [("수입", "income"); ("지출", "expense"); ("이체", "transfer")]%string.

Definition _none_if_blank (value : option string) : option string :=
  match value with
  | None => None
  | Some v => let cleaned := Py.strip v in
              if decide (cleaned = ""%string) then None else Some cleaned
  end.

Definition keywords : list string :=
  ["세이프박스"; "내계좌로 이체"; "동전 모으기"; "저금통"; "카드잔액 자동충전"]%string.

Definition _is_internal_transfer (content : option string) : bool :=
  match content with
  | None => false
  | Some c => existsb (fun k => Py.contains c k) keywords
  end.

(** [INTEGER PRIMARY KEY AUTOINCREMENT] *)
Definition next_id (db : list transaction) : Z := 1 + foldr Z.max 0 (map id db).

(** [INSERT INTO transactions]; [None] is the [IntegrityError] of the
    [UNIQUE] constraint on [row_hash]. *)
Definition insert (normalized : transaction) (db : list transaction)
    : option (list transaction) :=
  if decide (row_hash normalized ∈ map row_hash db) then None
  else Some (db ++ [{| id := next_id db;
                       occurred_at := occurred_at normalized;
                       tx_type := tx_type normalized;
                       amount := amount normalized;
                       signed_amount := signed_amount normalized;
                       currency := currency normalized;
                       major_category := major_category normalized;
                       minor_category := minor_category normalized;
                       content := content normalized;
                       payment_method := payment_method normalized;
                       note := note normalized;
                       row_hash := row_hash normalized;
                       transfer_group_id := None;
                       transfer_external := transfer_external normalized;
                       review_required := review_required normalized |}]).

(** [ORDER BY occurred_at ASC]: a stable insertion sort of the table order. *)
Fixpoint insert_by_time (t : transaction) (l : list transaction) : list transaction :=
  match l with
  | [] => [t]
  | u :: rest => if occurred_at t <=? occurred_at u then t :: l else u :: insert_by_time t rest
  end.

Definition order_by_occurred_at (l : list transaction) : list transaction :=
  foldr insert_by_time [] l.

Definition ungrouped_transfer (t : transaction) : bool :=
  bool_decide (tx_type t = "transfer"%string) && bool_decide (transfer_group_id t = None).

(** [unmatched_transfers] *)
Definition unmatched_transfers (svc : LedgerService) : list transaction :=
  order_by_occurred_at (List.filter ungrouped_transfer (view svc)).

(** The tests of the inner loop that let [right] through ([left] and [right]
    of the source are [left_row] and [right_row]). *)
Definition counterpart (used : gset Z) (left_row right_row : transaction) : bool :=
  negb (bool_decide (id right_row ∈ used) || bool_decide (id right_row = id left_row))
  && bool_decide (currency right_row = currency left_row)
  && bool_decide (signed_amount right_row = - signed_amount left_row)
  && (Z.abs (occurred_at right_row - occurred_at left_row) <=? 300).

(** [UPDATE transactions SET transfer_group_id = ?, review_required = 0
    WHERE id IN (?, ?)] *)
Definition set_group (group_id : string) (a b : Z) (db : list transaction) : list transaction :=
  map (fun t =>
         if bool_decide (id t = a) || bool_decide (id t = b)
         then {| id := id t;
                 occurred_at := occurred_at t;
                 tx_type := tx_type t;
                 amount := amount t;
                 signed_amount := signed_amount t;
                 currency := currency t;
                 major_category := major_category t;
                 minor_category := minor_category t;
                 content := content t;
                 payment_method := payment_method t;
                 note := note t;
                 row_hash := row_hash t;
                 transfer_group_id := Some group_id;
                 transfer_external := transfer_external t;
                 review_required := 0 |}
         else t) db.

Section Service.
Context `{Runtime}.

(** The normalized row carries no identifier yet; the field is set on insert. *)
Definition _normalize_row (row : gmap string (option string)) : outcome (option transaction) :=
  let date_s := Py.strip (Py.or_else (get row "날짜") "") in
  let time_s := Py.strip (Py.or_else (get row "시간") "00:00") in
  if decide (date_s = ""%string) then Return None else
  match strptime (date_s +:+ " " +:+ time_s) with
  | None => Raise ValueError
  | Some occurred =>
      let raw_type := Py.strip (Py.or_else (get row "타입") "") in
      let tx_type := default "transfer"%string (TYPE_MAP !! raw_type) in
      let amount_text :=
        Py.strip (Py.remove_commas (match row !! "금액"%string with
                                    | Some v => Py.str v
                                    | None => "0"%string
                                    end)) in
      match int_of_str (if decide (amount_text = ""%string) then "0"%string else amount_text) with
      | None => Raise ValueError
      | Some signed_amount =>
          let currency :=
            Py.or_else (Some (Py.strip (Py.or_else (get row "화폐") "KRW"))) "KRW" in
          let content := _none_if_blank (get row "내용") in
          let payment_method := _none_if_blank (get row "결제수단") in
          let review_required :=
            if bool_decide (tx_type = "expense"%string) && (0 <? signed_amount) then 1
            else if bool_decide (tx_type = "income"%string) && (signed_amount <? 0) then 1
            else 0 in
          let transfer_external :=
            if bool_decide (tx_type = "transfer"%string) && negb (_is_internal_transfer content)
            then 1 else 0 in
          let hash_input :=
            Py.join "|" [date_s; time_s; raw_type; Py.str_of_int signed_amount; currency;
                         default ""%string payment_method; default ""%string content] in
          Return (Some
            {| id := 0;
               occurred_at := occurred;
               tx_type := tx_type;
               amount := Z.abs signed_amount;
               signed_amount := signed_amount;
               currency := currency;
               major_category := _none_if_blank (get row "대분류");
               minor_category := _none_if_blank (get row "소분류");
               content := content;
               payment_method := payment_method;
               note := _none_if_blank (get row "메모");
               row_hash := Sha256.hexdigest hash_input;
               transfer_group_id := None;
               transfer_external := transfer_external;
               review_required := review_required |})
      end
  end.

(** [for left in candidates], threading the set [used] and the table. *)
Fixpoint pair_loop (candidates lefts : list transaction) (used : gset Z)
    (db : list transaction) : list transaction :=
  match lefts with
  | [] => db
  | left_row :: rest =>
      if decide (id left_row ∈ used) then pair_loop candidates rest used db else
      if negb (_is_internal_transfer (content left_row))
      then pair_loop candidates rest used db else
      match List.find (counterpart used left_row) candidates with
      | Some right_row =>
          let group_id :=
            md5_hexdigest
              (Py.str_of_int (id left_row) +:+ ":" +:+ Py.str_of_int (id right_row)) in
          pair_loop candidates rest ({[id left_row]} ∪ {[id right_row]} ∪ used)
            (set_group group_id (id left_row) (id right_row) db)
      | None => pair_loop candidates rest used db
      end
  end.

Definition _pair_internal_transfers (svc : LedgerService) : LedgerService :=
  let candidates := order_by_occurred_at (List.filter ungrouped_transfer (view svc)) in
  commit {| committed := committed svc;
            view := pair_loop candidates candidates ∅ (view svc) |}.

(** [for row in reader] of [import_tsv]: an exception of the normalizer
    leaves the loop with the inserts made so far in the open transaction. *)
Fixpoint import_loop (rows : list (gmap string (option string))) (acc : ImportResult)
    (db : list transaction) : outcome ImportResult * list transaction :=
  match rows with
  | [] => (Return acc, db)
  | row :: rest =>
      match _normalize_row row with
      | Raise e => (Raise e, db)
      | Return None => import_loop rest acc db
      | Return (Some normalized) =>
          match insert normalized db with
          | Some db' =>
              import_loop rest
                {| imported := imported acc + 1;
                   skipped_duplicates := skipped_duplicates acc;
                   review_required_count :=
                     if decide (review_required normalized = 0)
                     then review_required_count acc else review_required_count acc + 1 |}
                db'
          | None =>
              import_loop rest
                {| imported := imported acc;
                   skipped_duplicates := skipped_duplicates acc + 1;
                   review_required_count := review_required_count acc |}
                db
          end
      end
  end.

Definition import_tsv (rows : list (gmap string (option string))) (svc : LedgerService)
    : outcome ImportResult * LedgerService :=
  match import_loop rows {| imported := 0; skipped_duplicates := 0; review_required_count := 0 |}
          (view svc) with
  | (Raise e, db) => (Raise e, {| committed := committed svc; view := db |})
  | (Return result, db) =>
      (Return result,
       _pair_internal_transfers (commit {| committed := committed svc; view := db |}))
  end.

End Service.
End Ledger.

(** ** A runtime for the closed examples

    It reads the plain literals used below as Python does: an optional minus
    sign and decimal digits for the numbers, ["Infinity"] for the overflow,
    and ["YYYY-MM-DD HH:MM"] for the instants. *)

Definition plain_int (s : string) : option Z :=
  Z.of_int <$> NilZero.int_of_string s.

(** Days from 1970-01-01 of a civil date. *)
Definition days_from_civil (y m d : Z) : Z :=
  let y' := if m <=? 2 then y - 1 else y in
  let era := y' / 400 in
  let yoe := y' - era * 400 in
  let doy := (153 * (if 2 <? m then m - 3 else m + 9) + 2) / 5 + d - 1 in
  let doe := yoe * 365 + yoe / 4 - yoe / 100 + doy in
  era * 146097 + doe - 719468.

Definition plain_strptime (s : string) : option Z :=
  if negb (bool_decide (String.length s = 16%nat)) then None else
  y ← plain_int (Py.slice 0 4 s);
  m ← plain_int (Py.slice 5 7 s);
  d ← plain_int (Py.slice 8 10 s);
  hh ← plain_int (Py.slice 11 13 s);
  mm ← plain_int (Py.slice 14 16 s);
  if (1 <=? m) && (m <=? 12) && (1 <=? d) && (d <=? 31) && (0 <=? hh) && (hh <? 24)
     && (0 <=? mm) && (mm <? 60)
  then Some ((days_from_civil y m d * 24 + hh) * 3600 + mm * 60)
  else None.

Definition plain_runtime : Runtime :=
  {| decimal_to_int s :=
       match plain_int s with
       | Some z => Converted z
       | None => if decide (s = "Infinity"%string) then Overflow else Invalid
       end;
     int_of_str := plain_int;
     strptime := plain_strptime;
     md5_hexdigest s := ("md5(" +:+ s +:+ ")")%string |}.

(** ** The monthly summary of the ledger

    The bounds of the month are instants in seconds since 1970-01-01, as
    [strptime] returns them; the column and the bounds are texts of one
    format in the source and compare as the instants do, for the years that
    [strftime] writes with four digits (from 1000 on with glibc, which does
    not pad an earlier year). *)

Module LedgerSummary.
Record t := {
  income : Z;
  expense : Z;
  transfer_unmatched : Z;
  net_cashflow : Z;
}.
End LedgerSummary.

(** The value fits the C [int] into which [datetime] reads each argument. *)
Definition fits_c_int (z : Z) : bool := (- 2 ^ 31 <=? z) && (z <? 2 ^ 31).

(** [datetime(year, month, 1)]: the arguments are read into C [int]s first,
    and one that does not fit is [OverflowError], whatever the others are;
    then a year outside 1..9999 or a month outside 1..12 is [ValueError]. *)
Definition first_of_month (year month : Z) : outcome Z :=
  if negb (fits_c_int year && fits_c_int month) then Raise OverflowError
  else if (1 <=? year) && (year <=? 9999) && (1 <=? month) && (month <=? 12)
       then Return (days_from_civil year month 1 * 86400)
       else Raise ValueError.

(** [for row in cur.fetchall()] of [monthly_summary]. *)
Definition monthly_summary_step (acc : Z * Z * Z) (row : Ledger.transaction) : Z * Z * Z :=
  let '(income, expense, transfer) := acc in
  let signed := Ledger.signed_amount row in
  if decide (Ledger.tx_type row = "income"%string)
  then (income + Z.max 0 signed, expense, transfer)
  else if decide (Ledger.tx_type row = "expense"%string)
       then (income, expense + Z.abs (Z.min 0 signed), transfer)
       else if decide (Ledger.transfer_group_id row = None)
            then (income, expense, transfer + Z.abs signed)
            else acc.

(** [LedgerService.monthly_summary] *)
Definition monthly_summary (year month : Z) (svc : Ledger.LedgerService)
    : outcome LedgerSummary.t :=
  start ← first_of_month year month;
  end_ ← (if month =? 12 then first_of_month (year + 1) 1 else first_of_month year (month + 1));
  let rows :=
    List.filter (fun t => (start <=? Ledger.occurred_at t) && (Ledger.occurred_at t <? end_))
      (Ledger.view svc) in
  let '(income, expense, transfer) := fold_left monthly_summary_step rows (0, 0, 0) in
  Return {| LedgerSummary.income := income;
            LedgerSummary.expense := expense;
            LedgerSummary.transfer_unmatched := transfer;
            LedgerSummary.net_cashflow := income - expense |}.

(** ** Data of the closed examples *)

Definition line (fields : list (string * string)) : gmap string (option string) :=
  list_to_map (map (fun p => (p.1, Some p.2)) fields).

Definition uuids (prefix : string) (n : nat) : string :=
  prefix +:+ Py.str_of_int (Z.of_nat n).

(** A February expense, and the same purchase marked excluded. *)
Definition lunch : Tx.t :=
  Tx.mk "a1" "2026-02-10" "-12000" "lunch" "lunch" "card" (Some "expense") (Some "food")
    (Some "") 0 None.

Definition excluded_lunch : Tx.t :=
  Tx.mk "a2" "2026-02-11" "-7000" "lunch" "lunch" "card" (Some "expense") (Some "food")
    (Some "") 1 None.

(** An excluded purchase of February whose amount text holds a thousands
    separator, as a file loaded into the table without normalization has
    it. *)
Definition excluded_with_separator : Tx.t :=
  Tx.mk "a3" "2026-02-12" "-1,000" "gift" "gift" "card" (Some "expense") (Some "food")
    (Some "") 1 None.

(** The direction the specification states for a native row: a three-way
    table, and the sign of the amount for any other type. *)
Definition stated_native_direction (tx_type : string) (amount : Z) : string :=
  if decide (tx_type = "수입"%string) then "income"%string
  else if decide (tx_type = "지출"%string) then "expense"%string
  else if decide (tx_type = "이체"%string) then "transfer"%string
  else if 0 <=? amount then "income"%string else "expense"%string.

(** Lines of a native export. *)
Definition transfer_line : gmap string (option string) :=
  line [("날짜", "2026-02-13"); ("시간", "10:24"); ("타입", "이체"); ("대분류", "내계좌이체");
        ("소분류", "미분류"); ("내용", "내계좌로 이체"); ("금액", "-1000"); ("화폐", "KRW");
        ("결제수단", "세이프박스"); ("메모", "")]%string.

Definition unknown_type_line : gmap string (option string) :=
  line [("날짜", "2026-02-13"); ("시간", "10:24"); ("타입", "기타"); ("내용", "refund");
        ("금액", "500"); ("화폐", "KRW"); ("결제수단", "card"); ("메모", "")]%string.

Definition blank_description_line : gmap string (option string) :=
  line [("날짜", "2026-02-13"); ("시간", "10:24"); ("타입", "지출"); ("내용", "  ");
        ("금액", "-500"); ("화폐", "KRW"); ("결제수단", "card"); ("메모", "")]%string.

Definition bad_amount_line : gmap string (option string) :=
  line [("날짜", "2026-02-13"); ("시간", "10:24"); ("타입", "지출"); ("내용", "snack");
        ("금액", "abc"); ("화폐", "KRW"); ("결제수단", "card"); ("메모", "")]%string.

Definition blank_date_line : gmap string (option string) :=
  line [("날짜", " "); ("date", ""); ("타입", "지출"); ("내용", "snack"); ("description", "snack");
        ("금액", "-500"); ("amount", "-500")]%string.

Definition empty_service : Ledger.LedgerService :=
  {| Ledger.committed := []; Ledger.view := [] |}.

(** The sign rule as the specification states it: the amount is at least
    zero exactly when the direction is income. *)
Definition stated_consistent (t : Tx.t) : Prop :=
  exists z, Tx.amount t = Py.str_of_int z /\ (0 <= z <-> Tx.direction t = Some "income"%string).

(** The sign rule the writers keep: an income is at least zero, an expense at
    most zero. *)
Definition sign_consistent (t : Tx.t) : Prop :=
  exists z, Tx.amount t = Py.str_of_int z
            /\ ((Tx.direction t = Some "income"%string /\ 0 <= z)
                \/ (Tx.direction t = Some "expense"%string /\ z <= 0)).

Definition zero_expense_line : gmap string (option string) :=
  line [("id", "z1"); ("date", "2026-02-15"); ("amount", "0"); ("description", "free sample");
        ("method", "card"); ("direction", "expense"); ("raw_category", "food")]%string.

(** A created expense and a by-snapshot edit of its description. *)
Definition new_lunch : CreateTransactionRequest :=
  {| new_date := "2026-02-10"; new_direction := Expense; new_category := "food";
     new_description := "lunch"; new_amount := 12000; new_method := "card"; new_memo := "";
     new_excluded := false |}.

Definition rename_lunch : TransactionUpdateRequest :=
  {| upd_date := None; upd_category := None; upd_description := Some "lunch special"%string;
     upd_amount := None; upd_method := None; upd_excluded := None |}.

Definition rename_lunch_by_match : TransactionUpdateByMatchRequest :=
  {| original := {| orig_date := "2026-02-10"; orig_category := "food";
                    orig_description := "lunch"; orig_amount := 12000; orig_method := "card";
                    orig_excluded := false |};
     updated := rename_lunch |}.

(** A table with a February and a March row, and a February file whose row
    carries the identifier of the March row. *)
Definition march_rent : Tx.t :=
  Tx.mk "b1" "2026-03-01" "-500000" "rent" "rent" "bank" (Some "expense") (Some "housing")
    (Some "") 0 None.

Definition clashing_line : gmap string (option string) :=
  line [("id", "b1"); ("date", "2026-02-20"); ("amount", "-7000"); ("description", "dinner");
        ("method", "card"); ("direction", "expense"); ("raw_category", "food")]%string.

Definition clashing_candidate : Row.t :=
  Row.mk "b1" "2026-02-20" "-7000" "dinner" "dinner" "card" "expense" "food" "".

Definition snack_line : gmap string (option string) :=
  line [("날짜", "2026-02-13"); ("시간", "10:24"); ("타입", "지출"); ("내용", "snack");
        ("금액", "-500"); ("화폐", "KRW"); ("결제수단", "card"); ("메모", "")]%string.

(** Two stored purchases of one day that share every fallback key, and a
    third purchase of the same day in a file. *)
Definition coffee_morning : Tx.t :=
  Tx.mk "c1" "2026-02-15" "-4500" "coffee" "coffee" "card" (Some "expense") (Some "food")
    (Some "") 0 (Some "f1").

Definition coffee_noon : Tx.t :=
  Tx.mk "c2" "2026-02-15" "-4500" "coffee" "coffee" "card" (Some "expense") (Some "cafe")
    (Some "") 0 (Some "f2").

(** A larger coffee of the same day: it has the date, description, method and
    direction of the others, not their amount. *)
Definition coffee_large : Tx.t :=
  Tx.mk "c4" "2026-02-15" "-5000" "coffee" "coffee" "card" (Some "expense") (Some "food")
    (Some "") 0 (Some "f4").

Definition coffee_evening : Row.t :=
  Row.mk "c3" "2026-02-15" "-4500" "coffee" "coffee" "card" "expense" "snack" "".

(** ** Notions used in the statements *)

(** The three fallback keys of a stored row, as the import loop computes them
    from [existing_model]. *)
Definition stored_key_with_method (t : Tx.t) : string * string * string * string :=
  _transaction_fallback_key_with_method (existing_model t).

Definition stored_key (t : Tx.t) : string * string * string :=
  _transaction_fallback_key (existing_model t).

Definition stored_key_without_amount (t : Tx.t) : string * string * string * string :=
  _transaction_fallback_key_without_amount (existing_model t).

(** The identifiers of the stored rows that have [key] under [k], in table
    order. *)
Definition ids_with {K} `{EqDecision K} (k : Tx.t -> K) (key : K) (db : list Tx.t)
    : list string :=
  map Tx.id (List.filter (fun t => bool_decide (k t = key)) db).

(** A stored row and a candidate agree on the fields of the fallback keys:
    date, amount, description, method and direction. *)
Definition same_keys (t : Tx.t) (c : Row.t) : Prop :=
  stored_key_with_method t = _transaction_fallback_key_with_method c
  /\ stored_key t = _transaction_fallback_key c
  /\ stored_key_without_amount t = _transaction_fallback_key_without_amount c.

(** A stored row without its fingerprint. *)
Definition forget_fingerprint (t : Tx.t) : Tx.t :=
  Tx.mk (Tx.id t) (Tx.date t) (Tx.amount t) (Tx.description t) (Tx.merchant t) (Tx.method t)
    (Tx.direction t) (Tx.raw_category t) (Tx.memo t) (Tx.is_excluded t) None.

(** Some level of the cascade has exactly one stored row for the candidate. *)
Definition unique_level (db : list Tx.t) (c : Row.t) : Prop :=
  length (ids_with stored_key_with_method (_transaction_fallback_key_with_method c) db) = 1%nat
  \/ length (ids_with stored_key (_transaction_fallback_key c) db) = 1%nat
  \/ length (ids_with stored_key_without_amount
               (_transaction_fallback_key_without_amount c) db) = 1%nat.

(** The candidate will be recognized in the table: by a level of the cascade,
    or by a row that carries its fingerprint and has its keys. *)
Definition covered (db : list Tx.t) (c : Row.t) : Prop :=
  unique_level db c
  \/ exists t f, t ∈ db /\ Tx.import_fingerprint t = Some f
                 /\ Py.strip f = _transaction_fingerprint c /\ same_keys t c.

(** The import still recognizes the stored row [t] as the candidate [c] in a
    table whose other rows are [others]: [t] carries the fingerprint of [c],
    or [t] has one of the three fallback keys of [c] and no other row has
    that key. *)
Definition recognizable (others : list Tx.t) (t : Tx.t) (c : Row.t) : Prop :=
  (exists f, Tx.import_fingerprint t = Some f /\ Py.strip f = _transaction_fingerprint c)
  \/ (stored_key_with_method t = _transaction_fallback_key_with_method c
      /\ forall u, u ∈ others ->
           stored_key_with_method u <> _transaction_fallback_key_with_method c)
  \/ (stored_key t = _transaction_fallback_key c
      /\ forall u, u ∈ others -> stored_key u <> _transaction_fallback_key c)
  \/ (stored_key_without_amount t = _transaction_fallback_key_without_amount c
      /\ forall u, u ∈ others ->
           stored_key_without_amount u <> _transaction_fallback_key_without_amount c).

(** A purchase of 50000 at the mart, as a line of a cleaned file and as the
    candidate it normalizes to, and a second purchase of the same day. *)
Definition mart_line : gmap string (option string) :=
  line [("date", "2026-02-15"); ("amount", "-50000"); ("description", "mart");
        ("method", "card"); ("direction", "expense"); ("raw_category", "food")]%string.

Definition snack_60000_line : gmap string (option string) :=
  line [("date", "2026-02-15"); ("amount", "-60000"); ("description", "snack");
        ("method", "card"); ("direction", "expense"); ("raw_category", "food")]%string.

Definition mart_candidate (id : string) : Row.t :=
  Row.mk id "2026-02-15" "-50000" "mart" "mart" "card" "expense" "food" "".

Definition snack_candidate (id : string) : Row.t :=
  Row.mk id "2026-02-15" "-60000" "snack" "snack" "card" "expense" "food" "".

Definition set_amount (a : Z) : TransactionUpdateRequest :=
  {| upd_date := None; upd_category := None; upd_description := None; upd_amount := Some a;
     upd_method := None; upd_excluded := None |}.

Definition set_date (d : string) : TransactionUpdateRequest :=
  {| upd_date := Some d; upd_category := None; upd_description := None; upd_amount := None;
     upd_method := None; upd_excluded := None |}.

Definition new_mart (a : Z) : CreateTransactionRequest :=
  {| new_date := "2026-02-15"; new_direction := Expense; new_category := "food";
     new_description := "mart"; new_amount := a; new_method := "card"; new_memo := "";
     new_excluded := false |}.

(** The table after: importing the mart purchase, raising its amount to 60000
    by identifier, importing the original file again (the cascade rewrites the
    fingerprint of the edited row), and creating a second mart purchase of the
    same day. *)
Definition edited_and_reimported : list Tx.t :=
  let s1 := (import_transactions (H := plain_runtime) (uuids "a") true [mart_line] false
               None None []).2 in
  let s2 := (update_expense_transaction "a0" (set_amount 60000) s1).2 in
  let s3 := (import_transactions (H := plain_runtime) (uuids "b") true [mart_line] false
               None None s2).2 in
  (create_transaction "q1" (new_mart 70000) s3).2.

(** Two other mart purchases of the same day. *)
Definition mart_70000 : Tx.t :=
  Tx.mk "q1" "2026-02-15" "-70000" "mart" "mart" "card" (Some "expense") (Some "food")
    (Some "") 0 None.

Definition mart_80000 : Tx.t :=
  Tx.mk "q2" "2026-02-15" "-80000" "mart" "mart" "card" (Some "expense") (Some "food")
    (Some "") 0 None.

(** ** The pairing pass, read off the loop *)

(** The pairs [(left, right)] the loop chooses, in the order it chooses them;
    the choices read the list of candidates and the set [used], never the
    table. *)
Fixpoint selected_pairs (candidates lefts : list Ledger.transaction) (used : gset Z)
    : list (Ledger.transaction * Ledger.transaction) :=
  match lefts with
  | [] => []
  | left_row :: rest =>
      if decide (Ledger.id left_row ∈ used) then selected_pairs candidates rest used else
      if negb (Ledger._is_internal_transfer (Ledger.content left_row))
      then selected_pairs candidates rest used else
      match List.find (Ledger.counterpart used left_row) candidates with
      | Some right_row =>
          (left_row, right_row)
          :: selected_pairs candidates rest
               ({[Ledger.id left_row]} ∪ {[Ledger.id right_row]} ∪ used)
      | None => selected_pairs candidates rest used
      end
  end.

(** The identifiers of the rows of a list of pairs. *)
Definition pair_ids (ps : list (Ledger.transaction * Ledger.transaction)) : list Z :=
  concat (map (fun p => [Ledger.id p.1; Ledger.id p.2]) ps).

(** [right_row] passes the tests of the inner loop for [left_row] when the
    rows of [taken] are used up: another row, same currency, opposite signed
    amount, at most five minutes apart. *)
Definition eligible (taken : list Z) (left_row right_row : Ledger.transaction) : Prop :=
  (Ledger.id right_row ∉ taken)
  /\ Ledger.id right_row <> Ledger.id left_row
  /\ Ledger.currency right_row = Ledger.currency left_row
  /\ Ledger.signed_amount right_row = - Ledger.signed_amount left_row
  /\ Z.abs (Ledger.occurred_at right_row - Ledger.occurred_at left_row) <= 300.

(** What the [UPDATE] of a pair makes of a row. *)
Definition grouped (group_id : string) (t : Ledger.transaction) : Ledger.transaction :=
  {| Ledger.id := Ledger.id t;
     Ledger.occurred_at := Ledger.occurred_at t;
     Ledger.tx_type := Ledger.tx_type t;
     Ledger.amount := Ledger.amount t;
     Ledger.signed_amount := Ledger.signed_amount t;
     Ledger.currency := Ledger.currency t;
     Ledger.major_category := Ledger.major_category t;
     Ledger.minor_category := Ledger.minor_category t;
     Ledger.content := Ledger.content t;
     Ledger.payment_method := Ledger.payment_method t;
     Ledger.note := Ledger.note t;
     Ledger.row_hash := Ledger.row_hash t;
     Ledger.transfer_group_id := Some group_id;
     Ledger.transfer_external := Ledger.transfer_external t;
     Ledger.review_required := 0 |}.

Definition in_pair (t : Ledger.transaction) (p : Ledger.transaction * Ledger.transaction)
    : bool :=
  bool_decide (Ledger.id t = Ledger.id p.1) || bool_decide (Ledger.id t = Ledger.id p.2).

Section Pairing.
Context `{Runtime}.

Definition group_of (p : Ledger.transaction * Ledger.transaction) : string :=
  md5_hexdigest (Py.str_of_int (Ledger.id p.1) +:+ ":" +:+ Py.str_of_int (Ledger.id p.2)).

(** A row after the pass that chose the pairs [ps]: the rows of a pair carry
    the group of the pair and are no longer flagged, the others are as they
    were. *)
Definition regroup (ps : list (Ledger.transaction * Ledger.transaction))
    (t : Ledger.transaction) : Ledger.transaction :=
  match List.find (in_pair t) ps with
  | Some p => grouped (group_of p) t
  | None => t
  end.

End Pairing.

(** Two legs of an internal transfer, a card payment of the same amount, and
    a lone transfer. *)
Definition leg (id occurred_at signed_amount : Z) (tx_type content : string)
    : Ledger.transaction :=
  {| Ledger.id := id;
     Ledger.occurred_at := occurred_at;
     Ledger.tx_type := tx_type;
     Ledger.amount := Z.abs signed_amount;
     Ledger.signed_amount := signed_amount;
     Ledger.currency := "KRW";
     Ledger.major_category := None;
     Ledger.minor_category := None;
     Ledger.content := Some content;
     Ledger.payment_method := None;
     Ledger.note := None;
     Ledger.row_hash := Py.str_of_int id;
     Ledger.transfer_group_id := None;
     Ledger.transfer_external := 0;
     Ledger.review_required := 0 |}.

Definition safebox_in : Ledger.transaction := leg 1 1770978240 1000 "transfer" "세이프박스".
Definition safebox_out : Ledger.transaction :=
  leg 2 1770978540 (-1000) "transfer" "내계좌로 이체".
Definition card_payment : Ledger.transaction := leg 3 1770978240 (-1000) "expense" "shop".
Definition lone_transfer : Ledger.transaction := leg 4 1770978240 7000 "transfer" "저금통".

Definition service_of (db : list Ledger.transaction) : Ledger.LedgerService :=
  {| Ledger.committed := db; Ledger.view := db |}.

(** Ascending time. *)
Definition not_later (a b : Ledger.transaction) : Prop :=
  Ledger.occurred_at a <= Ledger.occurred_at b.

(** The number of lines of a native file that the ledger normalizer keeps. *)
Definition kept_lines `{Runtime} (rows : list (gmap string (option string))) : Z :=
  Z.of_nat (length (List.filter
                      (fun row => match Ledger._normalize_row row with
                                  | Return (Some _) => true
                                  | _ => false
                                  end) rows)).

(** ** Notions used in the proofs *)

(** A byte that no whitespace code point starts or ends with. *)
Definition plain_byte (a : ascii) : Prop :=
  Py.is_space1 a = false /\ Py.byte a < 0x80.

(** The sign rule on a normalized row. *)
Definition row_sign_ok (r : Row.t) : Prop :=
  exists z, Row.amount r = Py.str_of_int z
            /\ ((Row.direction r = "income"%string /\ 0 <= z)
                \/ (Row.direction r = "expense"%string /\ z <= 0)).

(** The signed amount that [_build_transaction_updates] writes. *)
Definition signed_for (direction : Direction) (a : Z) : Z :=
  match direction with
  | Expense => - Z.abs a
  | Income => Z.abs a
  end.

(** The three maps of a batch list, per key, the rows of [l]. *)
Definition maps_track (st : batch) (l : list Tx.t) : Prop :=
  (forall key, get_list (fallback_with_method_map st) key = ids_with stored_key_with_method key l)
  /\ (forall key, get_list (fallback_map st) key = ids_with stored_key key l)
  /\ (forall key, get_list (fallback_without_amount_map st) key
                  = ids_with stored_key_without_amount key l).

Definition batch_wf (st : batch) : Prop := maps_track st (conn st).


(** The sample file of [tests/test_mvp.py]. *)
Definition native_line (date time tx_type major minor content amount method : string)
    : gmap string (option string) :=
  line [("날짜", date); ("시간", time); ("타입", tx_type); ("대분류", major); ("소분류", minor);
        ("내용", content); ("금액", amount); ("화폐", "KRW"); ("결제수단", method);
        ("메모", "")]%string.

Definition SAMPLE : list (gmap string (option string)) :=
  [native_line "2026-02-13" "10:24" "이체" "내계좌이체" "미분류" "세이프박스" "1000" "입출금통장";
   native_line "2026-02-13" "10:24" "이체" "내계좌이체" "미분류" "내계좌로 이체" "-1000"
     "세이프박스";
   native_line "2026-02-13" "00:52" "지출" "온라인쇼핑" "인터넷쇼핑" "(주)카카오" "-5800"
     "입출금통장";
   native_line "2026-02-10" "20:48" "지출" "온라인쇼핑" "인터넷쇼핑" "쿠팡" "7990"
     "나라사랑(체크)";
   native_line "2026-02-10" "11:30" "수입" "금융수입" "미분류" "프렌즈 체크카드 캐시백" "5006"
     "입출금통장"]%string.

(** ** Notions of the further properties: texts and imports *)

(** The first code point of [l] is no whitespace, as [Py.strip_front] tests
    it with the patterns [p2] and [p3]. *)
Definition starts_plain (p2 : ascii -> ascii -> bool) (p3 : ascii -> ascii -> ascii -> bool)
    (l : list ascii) : Prop :=
  match l with
  | [] => True
  | a :: l1 =>
      Py.is_space1 a = false
      /\ match l1 with
         | [] => True
         | b :: l2 =>
             p2 a b = false
             /\ match l2 with
                | [] => True
                | c :: _ => p3 a b c = false
                end
         end
  end.

(** A text with no whitespace at either end. *)
Definition stripped (s : string) : Prop :=
  starts_plain Py.is_space2 Py.is_space3 (String.list_ascii_of_string s)
  /\ starts_plain (fun a b => Py.is_space2 b a) (fun a b c => Py.is_space3 c b a)
       (rev (String.list_ascii_of_string s)).

(** The row the import loop stores for a candidate, without its fingerprint. *)
Definition stored_candidate (c : Row.t) : Tx.t :=
  forget_fingerprint (inserted_row c (_transaction_fingerprint c)).

(** ** Notions of the reports *)

(** The value of the key [k] in a dict of totals, zero when it is absent. *)
Definition value_of (k : string) (d : list (string * Z)) : Z :=
  Py.sum (map snd (List.filter (fun entry => bool_decide (entry.1 = k)) d)).

(** A realisation of [ORDER BY date DESC]: rows of one date in table order. *)
Fixpoint insert_by_date (t : Tx.t) (l : list Tx.t) : list Tx.t :=
  match l with
  | [] => [t]
  | u :: rest =>
      if String.leb (Tx.date u) (Tx.date t) then t :: l else u :: insert_by_date t rest
  end.

Definition order_by_date_desc (l : list Tx.t) : list Tx.t := foldr insert_by_date [] l.

Section ReportNotions.
Context `{Runtime}.

(** The amount of a stored row does not convert and [int] raises. *)
Definition overflows (t : Tx.t) : bool :=
  match decimal_to_int (Tx.amount t) with
  | Overflow => true
  | _ => false
  end.

(** The amount of a stored row as the reports read it. *)
Definition abs_amount (t : Tx.t) : option Z :=
  match decimal_to_int (Tx.amount t) with
  | Converted z => Some (Z.abs z)
  | _ => None
  end.

(** The sum of the amounts of the rows that have one. *)
Definition amounts (rows : list Tx.t) : Z := Py.sum (omap abs_amount rows).

(** The rows of a category. *)
Definition of_category (category : Tx.t -> string) (c : string) (rows : list Tx.t)
    : list Tx.t :=
  List.filter (fun t => bool_decide (category t = c)) rows.

(** The item that the transaction lists show for a row. *)
Definition item_of (row : Tx.t) (amount : Z) : TransactionItem :=
  {| item_id := Tx.id row;
     item_date := Tx.date row;
     item_category := stored_category row;
     item_description := Py.strip (Py.or_else (Some (Tx.description row)) "");
     item_amount := amount;
     item_method := Py.strip (Py.or_else (Some (Tx.method row)) "");
     item_excluded := bool_decide (Tx.is_excluded row ≠ 0) |}.

(** The items of the rows that have an amount. *)
Definition items_of (rows : list Tx.t) : list TransactionItem :=
  omap (fun row => item_of row <$> abs_amount row) rows.

End ReportNotions.

Section ReportNotions2.
Context `{Runtime}.

(** One iteration of a loop that adds the amount of a row to the total of
    its category. *)
Definition totals_step (category : Tx.t -> string) (totals : list (string * Z)) (t : Tx.t)
    : list (string * Z) :=
  match abs_amount t with
  | Some amount => Py.dict_add (category t) amount totals
  | None => totals
  end.

(** One iteration of the loop of the transaction lists. *)
Definition listing_step (group_level : string) (grouped : list (string * list TransactionItem))
    (t : Tx.t) : list (string * list TransactionItem) :=
  match abs_amount t with
  | Some amount =>
      Py.dict_append (grouping_category group_level (stored_category t)) (item_of t amount)
        grouped
  | None => grouped
  end.

(** The direction of a stored row as the summary reads it. *)
Definition summary_direction (t : Tx.t) : string :=
  Py.lower (Py.strip (Py.or_else (Tx.direction t) "")).

(** The summary adds the amount of the row to the total of [direction]. *)
Definition counted_as (direction : string) (t : Tx.t) : bool :=
  bool_decide (summary_direction t = direction) && bool_decide (Tx.is_excluded t = 0).

End ReportNotions2.

(** The total of each group of a transaction list. *)
Definition group_totals (grouped : list (string * list TransactionItem)) : list (string * Z) :=
  map (fun entry => (entry.1, Py.sum (map item_amount entry.2))) grouped.

(** Every stored direction is in the form the summary compares: lower case,
    no whitespace at the ends (["income"], ["expense"], ["transfer"], ...). *)
Definition directions_as_stored (db : list Tx.t) : Prop :=
  forall t d, t ∈ db -> Tx.direction t = Some d -> Py.lower (Py.strip d) = d.

(** ** Notions of the monthly trend *)

Section TrendNotions.
Context `{Runtime}.

(** The month of a stored row as the trend reads it: [int(date[5:7])]. *)
Definition month_of (t : Tx.t) : option Z := int_of_str (Py.slice 5 7 (Tx.date t)).

(** One iteration of the loop of the trend. *)
Definition trend_step (group_level : string)
    (totals : list (string * Z) * gmap (Z * string) Z) (t : Tx.t)
    : list (string * Z) * gmap (Z * string) Z :=
  match abs_amount t, month_of t with
  | Some amount, Some month =>
      let key := (month, grouping_category group_level (stored_category t)) in
      (Py.dict_add key.2 amount totals.1,
       <[key := default 0 (totals.2 !! key) + amount]> totals.2)
  | _, _ => totals
  end.

(** The rows of a month and a category, as the trend groups them. *)
Definition of_month_category (group_level : string) (month : Z) (c : string)
    (rows : list Tx.t) : list Tx.t :=
  List.filter (fun t => bool_decide (month_of t = Some month)
                        && bool_decide (grouping_category group_level (stored_category t) = c))
    rows.

(** The dates of the year [year] hold the month as the two digits that the
    month prefix has. *)
Definition dates_canonical (year : Z) (db : list Tx.t) : Prop :=
  forall t m, t ∈ db -> 1 <= m <= 12 ->
    Py.startswith (Tx.date t) (Py.format_0d 4 year +:+ "-") = true ->
    (month_of t = Some m <-> Py.startswith (Tx.date t) (_month_prefix year m) = true).

End TrendNotions.

Section TrendNotions2.
Context `{Runtime}.

(** The total of a category in the ranking of the trend: the rows that have
    an amount and a month, whatever the month. *)
Definition ranked_total (group_level : string) (c : string) (rows : list Tx.t) : Z :=
  amounts (of_category (fun t => grouping_category group_level (stored_category t)) c
             (List.filter (fun t => bool_decide (is_Some (month_of t))) rows)).

End TrendNotions2.

(** ** Notions of the updates *)

Section MatchNotions.
Context `{Runtime}.

(** A stored row matches the snapshot of an update request: the selected
    columns, and the amount without its sign. *)
Definition matches_snapshot (direction : Direction) (o : TransactionMatchRequest) (t : Tx.t)
    : bool :=
  snapshot_row direction o t && bool_decide (abs_amount t = Some (orig_amount o)).

End MatchNotions.

(** ** Notions of the ledger summary *)

(** What a row adds to the three sums of the ledger's monthly summary. *)
Definition income_part (t : Ledger.transaction) : Z :=
  if decide (Ledger.tx_type t = "income"%string) then Z.max 0 (Ledger.signed_amount t) else 0.

Definition expense_part (t : Ledger.transaction) : Z :=
  if decide (Ledger.tx_type t = "expense"%string) then Z.abs (Z.min 0 (Ledger.signed_amount t))
  else 0.

Definition unmatched_part (t : Ledger.transaction) : Z :=
  if decide (Ledger.tx_type t = "income"%string) then 0
  else if decide (Ledger.tx_type t = "expense"%string) then 0
       else if decide (Ledger.transfer_group_id t = None) then Z.abs (Ledger.signed_amount t)
            else 0.

(** The rows of the table whose time is in [start, end_). *)
Definition in_window (start end_ : Z) (db : list Ledger.transaction) : list Ledger.transaction :=
  List.filter (fun t => (start <=? Ledger.occurred_at t) && (Ledger.occurred_at t <? end_)) db.

(** The months that [datetime] can bound on both sides. *)
Definition month_in_calendar (year month : Z) : Prop :=
  1 <= year <= 9999 /\ 1 <= month <= 12 /\ ~ (year = 9999 /\ month = 12).

Definition with_view (svc : Ledger.LedgerService) (db : list Ledger.transaction)
    : Ledger.LedgerService :=
  {| Ledger.committed := Ledger.committed svc; Ledger.view := db |}.

(** ** Data of the further examples *)

(** A table with four rows of February 2026, one of them excluded, and one of
    March. *)
Definition taxi : Tx.t :=
  Tx.mk "t1" "2026-02-12" "-9000" "taxi" "taxi" "card" (Some "expense")
    (Some "transport>taxi") (Some "") 0 None.

Definition salary : Tx.t :=
  Tx.mk "s1" "2026-02-25" "3000000" "salary" "salary" "bank" (Some "income") (Some "pay")
    (Some "") 0 None.

Definition february : list Tx.t := [lunch; excluded_lunch; taxi; salary; march_rent].

(** The ledger after the import of the sample file. *)
Definition sample_ledger : Ledger.LedgerService :=
  (Ledger.import_tsv (H := plain_runtime) SAMPLE empty_service).2.

(** The line of the sample file that is flagged for review. *)
Definition flagged_line : gmap string (option string) :=
  native_line "2026-02-10" "20:48" "지출" "온라인쇼핑" "인터넷쇼핑" "쿠팡" "7990"
    "나라사랑(체크)".

(** * Properties *)

#[local] Arguments Py.strip : simpl never.
#[local] Arguments Py.lower : simpl never.
#[local] Arguments Py.or_else : simpl never.
#[local] Arguments Py.str_of_int : simpl never.
#[local] Arguments Py.remove_commas : simpl never.
#[local] Arguments Py.join : simpl never.
#[local] Arguments Sha256.hexdigest : simpl never.
#[local] Arguments _transaction_fingerprint : simpl never.
#[local] Arguments get : simpl never.

(** ** Strings and digests *)

Lemma string_of_list_ascii_inj l1 l2 :
  String.string_of_list_ascii l1 = String.string_of_list_ascii l2 -> l1 = l2.
Proof.
  intros E. rewrite <- (String.list_ascii_of_string_of_list_ascii l1),
    <- (String.list_ascii_of_string_of_list_ascii l2). by rewrite E.
Qed.

Lemma strip_front_plain p2 p3 a l :
  Py.is_space1 a = false ->
  (forall b, p2 a b = false) -> (forall b c, p3 a b c = false) ->
  Py.strip_front p2 p3 (a :: l) = a :: l.
Proof.
  intros H1 H2 H3. simpl. rewrite H1.
  destruct l as [|b l]; [done|]. rewrite H2.
  destruct l as [|c l]; [done|]. by rewrite H3.
Qed.

Lemma lstrip_plain a l : plain_byte a -> Py.lstrip (a :: l) = a :: l.
Proof.
  intros [H1 H2]. apply strip_front_plain; [done| |].
  - intros b. unfold Py.is_space2.
    destruct (Z.eqb_spec (Py.byte a) 0xC2); [lia|done].
  - intros b c. unfold Py.is_space3.
    destruct (Z.eqb_spec (Py.byte a) 0xE1); [lia|].
    destruct (Z.eqb_spec (Py.byte a) 0xE2); [lia|].
    destruct (Z.eqb_spec (Py.byte a) 0xE3); [lia|done].
Qed.

Lemma rstrip_plain a l : plain_byte a -> Py.rstrip (l ++ [a]) = l ++ [a].
Proof.
  intros [H1 H2]. unfold Py.rstrip. rewrite rev_unit.
  rewrite strip_front_plain; [by rewrite <- rev_unit, rev_involutive|done| |].
  - intros b. unfold Py.is_space2.
    destruct (Z.eqb_spec (Py.byte a) 0x85); [lia|].
    destruct (Z.eqb_spec (Py.byte a) 0xA0); [lia|]. by rewrite andb_false_r.
  - intros b c. unfold Py.is_space3. cbv zeta.
    destruct (Z.leb_spec 0x80 (Py.byte a)); [lia|].
    destruct (Z.eqb_spec (Py.byte a) 0x80); [lia|].
    destruct (Z.eqb_spec (Py.byte a) 0xA8); [lia|].
    destruct (Z.eqb_spec (Py.byte a) 0xA9); [lia|].
    destruct (Z.eqb_spec (Py.byte a) 0xAF); [lia|].
    destruct (Z.eqb_spec (Py.byte a) 0x9F); [lia|].
    by rewrite !andb_false_r.
Qed.

(** [strip] leaves a text alone that starts and ends with plain bytes. *)
Lemma strip_plain a l b :
  plain_byte a -> plain_byte b ->
  Py.strip (String.string_of_list_ascii (a :: l ++ [b]))
  = String.string_of_list_ascii (a :: l ++ [b]).
Proof.
  intros Ha Hb. unfold Py.strip.
  rewrite String.list_ascii_of_string_of_list_ascii.
  rewrite lstrip_plain by done.
  by rewrite (app_comm_cons l [b] a), rstrip_plain.
Qed.

Lemma hex_digit_plain n : plain_byte (Sha256.hex_digit (Z.land n 0xF)).
Proof.
  assert (0 <= Z.land n 0xF < 16) as Hr.
  { change 0xF with (Z.ones 4). rewrite Z.land_ones by lia. apply Z.mod_pos_bound. lia. }
  assert (forall k, 0 <= k < 16 -> plain_byte (Sha256.hex_digit k)) as Hall.
  { intros k Hk.
    assert (k = 0 \/ k = 1 \/ k = 2 \/ k = 3 \/ k = 4 \/ k = 5 \/ k = 6 \/ k = 7 \/ k = 8
            \/ k = 9 \/ k = 10 \/ k = 11 \/ k = 12 \/ k = 13 \/ k = 14 \/ k = 15) as Hc by lia.
    repeat (destruct Hc as [->|Hc]; [by vm_compute|]). subst. by vm_compute. }
  by apply Hall.
Qed.

Lemma hex32_shape x :
  exists a l b, Sha256.hex32 x = a :: l ++ [b] /\ plain_byte a /\ plain_byte b.
Proof.
  unfold Sha256.hex32. simpl map.
  eexists _, [_; _; _; _; _; _], _. split; [reflexivity|].
  split; apply hex_digit_plain.
Qed.

(** The hex digest is not blank and [strip] does not change it. *)
Lemma hexdigest_shape s :
  exists a l b, Sha256.hexdigest s = String.string_of_list_ascii (a :: l ++ [b])
                /\ plain_byte a /\ plain_byte b.
Proof.
  unfold Sha256.hexdigest.
  set (d := Sha256.digest _).
  destruct (hex32_shape (Sha256.ha d)) as (a & l1 & b1 & E1 & Ha & _).
  destruct (hex32_shape (Sha256.hh d)) as (a8 & l8 & b & E8 & _ & Hb).
  rewrite E1, E8.
  generalize (Sha256.hex32 (Sha256.hb d)) (Sha256.hex32 (Sha256.hc d))
    (Sha256.hex32 (Sha256.hd d)) (Sha256.hex32 (Sha256.he d))
    (Sha256.hex32 (Sha256.hf d)) (Sha256.hex32 (Sha256.hg d)).
  intros x2 x3 x4 x5 x6 x7.
  exists a, (l1 ++ [b1] ++ x2 ++ x3 ++ x4 ++ x5 ++ x6 ++ x7 ++ a8 :: l8), b.
  split; [|done]. f_equal. simpl. f_equal.
  rewrite <- !app_assoc. simpl. by rewrite <- !app_assoc.
Qed.

Lemma strip_hexdigest s : Py.strip (Sha256.hexdigest s) = Sha256.hexdigest s.
Proof.
  destruct (hexdigest_shape s) as (a & l & b & -> & Ha & Hb). by apply strip_plain.
Qed.

Lemma hexdigest_nonempty s : Sha256.hexdigest s <> ""%string.
Proof.
  destruct (hexdigest_shape s) as (a & l & b & -> & _). simpl. discriminate.
Qed.

Lemma strip_fingerprint row :
  Py.strip (_transaction_fingerprint row) = _transaction_fingerprint row.
Proof. apply strip_hexdigest. Qed.

Lemma fingerprint_nonempty row : _transaction_fingerprint row <> ""%string.
Proof. apply hexdigest_nonempty. Qed.

(** ** The monthly summary *)

Section SummaryProps.
Context `{Runtime}.

#[local] Arguments summary_step : simpl never.

Lemma summary_step_shift i e c k t i' e' c' :
  summary_step (i, e, c) t = Return (i', e', c') ->
  summary_step (i, e, c + k) t = Return (i', e', c' + k).
Proof.
  unfold summary_step.
  destruct (_parse_amount_to_abs_int (Tx.amount t)) as [[amount|]|]; simpl; [| |done].
  - repeat case_match; intros [= <- <- <-]; repeat (f_equal; try lia).
  - by intros [= <- <- <-].
Qed.

Lemma summary_loop_shift l : forall i e c k i' e' c',
  summary_loop (i, e, c) l = Return (i', e', c') ->
  summary_loop (i, e, c + k) l = Return (i', e', c' + k).
Proof.
  induction l as [|t l IH]; intros i e c k i' e' c'; simpl.
  - by intros [= <- <- <-].
  - destruct (summary_step (i, e, c) t) as [[[i1 e1] c1]|] eqn:E; simpl; [|done].
    rewrite (summary_step_shift _ _ _ k _ _ _ _ E). simpl. apply IH.
Qed.

Lemma summary_loop_app l1 l2 acc :
  summary_loop acc (l1 ++ l2) = acc' ← summary_loop acc l1; summary_loop acc' l2.
Proof.
  revert acc. induction l1 as [|t l1 IH]; intros acc; simpl; [done|].
  destruct (summary_step acc t); simpl; [apply IH|done].
Qed.

(** An excluded row is counted and adds nothing to the totals. *)
Lemma summary_step_excluded i e c t a :
  Tx.is_excluded t <> 0 ->
  decimal_to_int (Tx.amount t) = Converted a ->
  summary_step (i, e, c) t = Return (i, e, c + 1).
Proof.
  intros Hx Ha. unfold summary_step, _parse_amount_to_abs_int. rewrite Ha. simpl.
  rewrite bool_decide_eq_true_2 by done. simpl.
  generalize (Py.lower (Py.strip (Py.or_else (Tx.direction t) ""))). intros d.
  unfold is_income_or_expense.
  repeat case_bool_decide; repeat case_decide; simpl; done || congruence.
Qed.

(** A row whose amount is no number is passed over before the count. *)
Lemma summary_step_invalid acc t :
  decimal_to_int (Tx.amount t) = Invalid -> summary_step acc t = Return acc.
Proof.
  intros Ha. destruct acc as [[i e] c].
  unfold summary_step, _parse_amount_to_abs_int. by rewrite Ha.
Qed.

Lemma summary_step_overflow acc t :
  decimal_to_int (Tx.amount t) = Overflow -> summary_step acc t = Raise OverflowError.
Proof.
  intros Ha. destruct acc as [[i e] c].
  unfold summary_step, _parse_amount_to_abs_int. by rewrite Ha.
Qed.

(** C10, as amended.  In the monthly summary a row marked excluded whose
    amount text converts to a number is still counted in [transaction_count],
    and its amount enters neither the income nor the expense total, hence not
    [net_cashflow] either: adding such a row of the month to the table raises
    the count by one and leaves the three amounts as they were.  An excluded
    row whose amount text is no number is passed over before the count: with
    it the summary is what it was without it.  One whose amount overflows
    makes the summary raise [OverflowError]. *)
Theorem summary_counts_excluded_row (year month : Z) (db1 db2 : list Tx.t) (t : Tx.t)
    (s : MonthlySummary) :
  Py.startswith (Tx.date t) (_month_prefix year month) = true ->
  Tx.is_excluded t <> 0 ->
  summary year month (db1 ++ db2) = Return s ->
  (forall a, decimal_to_int (Tx.amount t) = Converted a ->
     exists s', summary year month (db1 ++ t :: db2) = Return s'
                /\ transaction_count s' = transaction_count s + 1
                /\ sum_income s' = sum_income s
                /\ sum_expense s' = sum_expense s
                /\ net_cashflow s' = net_cashflow s)
  /\ (decimal_to_int (Tx.amount t) = Invalid ->
      summary year month (db1 ++ t :: db2) = Return s)
  /\ (decimal_to_int (Tx.amount t) = Overflow ->
      summary year month (db1 ++ t :: db2) = Raise OverflowError).
Proof.
  intros Hm Hx. unfold summary.
  rewrite !List.filter_app. simpl. rewrite Hm.
  rewrite !summary_loop_app.
  destruct (summary_loop (0, 0, 0) _) as [[[i1 e1] c1]|]; simpl; [|done].
  intros Hrun. split; [|split].
  - intros a Ha. rewrite (summary_step_excluded _ _ _ _ _ Hx Ha). simpl.
    destruct (summary_loop (i1, e1, c1) _) as [[[i2 e2] c2]|] eqn:E; simpl in *; [|done].
    injection Hrun as <-.
    rewrite (summary_loop_shift _ _ _ _ 1 _ _ _ E). simpl.
    eexists. split; [reflexivity|]. simpl. done.
  - intros Ha. by rewrite (summary_step_invalid _ _ Ha).
  - intros Ha. by rewrite (summary_step_overflow _ _ Ha).
Qed.

End SummaryProps.

Lemma summary_counts_excluded_row_counterexample :
  Py.startswith (Tx.date excluded_with_separator) (_month_prefix 2026 2) = true
  /\ Tx.is_excluded excluded_with_separator <> 0
  /\ decimal_to_int (Runtime := plain_runtime) (Tx.amount excluded_with_separator) = Invalid
  /\ summary (H := plain_runtime) 2026 2 [lunch]
     = Return {| sum_year := 2026; sum_month := 2; sum_income := 0; sum_expense := 12000;
                 net_cashflow := -12000; transaction_count := 1 |}
  /\ summary (H := plain_runtime) 2026 2 [lunch; excluded_with_separator]
     = Return {| sum_year := 2026; sum_month := 2; sum_income := 0; sum_expense := 12000;
                 net_cashflow := -12000; transaction_count := 1 |}.
Proof.
  split; [vm_compute; reflexivity|]. split; [vm_compute; discriminate|].
  repeat split; vm_compute; reflexivity.
Qed.

Lemma summary_counts_excluded_row_witness :
  summary (H := plain_runtime) 2026 2 ([lunch] ++ [])
  = Return {| sum_year := 2026; sum_month := 2; sum_income := 0; sum_expense := 12000;
              net_cashflow := -12000; transaction_count := 1 |}
  /\ (exists s', summary (H := plain_runtime) 2026 2 ([lunch] ++ excluded_lunch :: [])
                 = Return s'
                 /\ transaction_count s' = 1 + 1
                 /\ sum_income s' = 0
                 /\ sum_expense s' = 12000
                 /\ net_cashflow s' = -12000)
  /\ summary (H := plain_runtime) 2026 2 ([lunch] ++ excluded_with_separator :: [])
     = Return {| sum_year := 2026; sum_month := 2; sum_income := 0; sum_expense := 12000;
                 net_cashflow := -12000; transaction_count := 1 |}.
Proof.
  split; [vm_compute; reflexivity|]. split.
  - refine (proj1 (summary_counts_excluded_row (H := plain_runtime) 2026 2 [lunch] []
                     excluded_lunch
                     {| sum_year := 2026; sum_month := 2; sum_income := 0;
                        sum_expense := 12000; net_cashflow := -12000;
                        transaction_count := 1 |} _ _ _) (-7000) _).
    + vm_compute; reflexivity.
    + vm_compute; discriminate.
    + vm_compute; reflexivity.
    + vm_compute; reflexivity.
  - refine (proj1 (proj2 (summary_counts_excluded_row (H := plain_runtime) 2026 2 [lunch] []
                            excluded_with_separator
                            {| sum_year := 2026; sum_month := 2; sum_income := 0;
                               sum_expense := 12000; net_cashflow := -12000;
                               transaction_count := 1 |} _ _ _)) _).
    + vm_compute; reflexivity.
    + vm_compute; discriminate.
    + vm_compute; reflexivity.
    + vm_compute; reflexivity.
Defined.

(** The implementation agrees with [hashlib] on the standard test vector. *)
Example sha256_abc :
  Sha256.hexdigest "abc"
  = "ba7816bf8f01cfea414140de5dae2223b00361a396177a9cb410ff61f20015ad"%string.
Proof. vm_compute. reflexivity. Qed.

(** The model on the tests of the repository ([tests/test_mvp.py]):
    [test_import_and_summary], [test_idempotent_import], [test_transfer_pairing]. *)
Example test_mvp_import :
  let first := Ledger.import_tsv (H := plain_runtime) SAMPLE empty_service in
  let second := Ledger.import_tsv (H := plain_runtime) SAMPLE first.2 in
  first.1 = Return {| Ledger.imported := 5; Ledger.skipped_duplicates := 0;
                      Ledger.review_required_count := 1 |}
  /\ second.1 = Return {| Ledger.imported := 0; Ledger.skipped_duplicates := 5;
                          Ledger.review_required_count := 0 |}
  /\ Ledger.unmatched_transfers first.2 = [].
Proof. vm_compute. done. Qed.

(** [backend/tests/test_health.py], [test_reimport_after_edit_should_not_duplicate]. *)
Example test_reimport_after_edit :
  let s1 := import_transactions (H := plain_runtime) (uuids "a") true [mart_line] false
              None None [] in
  let s2 := update_expense_transaction "a0" (set_amount 60000) s1.2 in
  let s3 := import_transactions (H := plain_runtime) (uuids "b") true [mart_line] false
              None None s2.2 in
  s1.1 = Return {| imported := 1; skipped := 0; deleted := 0 |}
  /\ s2.1 = Return ()
  /\ s3.1 = Return {| imported := 0; skipped := 1; deleted := 0 |}
  /\ map Tx.amount s3.2 = ["-60000"%string].
Proof. vm_compute. done. Qed.

(** ** The normalizers *)

Section NormalizerProps.
Context `{Runtime}.

Lemma type_to_direction_lookup ty :
  TYPE_TO_DIRECTION !! ty
  = if decide (ty = "수입"%string) then Some "income"%string
    else if decide (ty = "지출"%string) then Some "expense"%string else None.
Proof.
  unfold TYPE_TO_DIRECTION. simpl.
  rewrite !lookup_insert, lookup_empty.
  repeat case_decide; congruence.
Qed.

Lemma type_map_lookup ty :
  Ledger.TYPE_MAP !! ty
  = if decide (ty = "수입"%string) then Some "income"%string
    else if decide (ty = "지출"%string) then Some "expense"%string
    else if decide (ty = "이체"%string) then Some "transfer"%string else None.
Proof.
  unfold Ledger.TYPE_MAP. simpl.
  rewrite !lookup_insert, lookup_empty.
  repeat case_decide; congruence.
Qed.

(** C9, as amended.  The backend maps the type of a native row through a
    two-way table (income, expense) and gives every other type, the transfer
    type included, the direction of the amount's sign: income when the amount
    is at least zero, else expense.  The ledger variant maps the type through
    a three-way table (income, expense, transfer) and gives every other type
    the type transfer, whatever the sign. *)
Theorem native_direction_resolution (uuid4 : string) (row : gmap string (option string)) :
  let ty := Py.strip (Py.or_else (get row "타입") "") in
  (forall r, _normalize_tsv_row uuid4 row = Return (Some r) ->
     exists amount,
       decimal_to_int (Py.remove_commas (Py.or_else (get row "금액") "")) = Converted amount
       /\ Row.direction r
          = if decide (ty = "수입"%string) then "income"%string
            else if decide (ty = "지출"%string) then "expense"%string
            else if 0 <=? amount then "income"%string else "expense"%string)
  /\ (forall t, Ledger._normalize_row row = Return (Some t) ->
        Ledger.tx_type t
        = if decide (ty = "수입"%string) then "income"%string
          else if decide (ty = "지출"%string) then "expense"%string
          else "transfer"%string).
Proof.
  intros ty. split.
  - intros r. unfold _normalize_tsv_row, _parse_amount_to_signed_int.
    case_decide; [done|].
    destruct (decimal_to_int _) as [amount| |]; simpl; [|done|done].
    case_decide; [done|]. intros [= <-]. exists amount. split; [done|]. simpl.
    fold ty. rewrite type_to_direction_lookup.
    repeat case_decide; done.
  - intros t. unfold Ledger._normalize_row.
    case_decide; [done|].
    destruct (strptime _); [|done].
    destruct (int_of_str _); [|done].
    intros [= <-]. simpl. fold ty. rewrite type_map_lookup.
    repeat case_decide; done.
Qed.

(** [_none_if_blank] on a field of a line. *)
Lemma none_if_blank_get (row : gmap string (option string)) (k : string) :
  Ledger._none_if_blank (get row k)
  = if decide (Py.strip (Py.or_else (get row k) "") = ""%string) then None
    else Some (Py.strip (Py.or_else (get row k) "")).
Proof.
  unfold Ledger._none_if_blank, Py.or_else. destruct (get row k) as [v|].
  - destruct (decide (v = ""%string)) as [->|Hv]; [|done].
    change (Py.strip "") with ""%string. by rewrite !decide_True.
  - change (Py.strip "") with ""%string. by rewrite decide_True.
Qed.

(** C8, as amended.  Both backend normalizers silently reject a row, and the
    batch goes on without it, when its date is blank, when its amount is not a
    number ([Decimal] raises [InvalidOperation] or [int] raises [ValueError]),
    or when its description is blank and the amount does not overflow.  The
    ledger variant silently rejects a row exactly when its date is blank, and
    the import then goes on without it; for any other row it raises
    [ValueError] or keeps the row, and a row that it keeps has the content
    null when its description is blank, the description without the
    whitespace at its ends otherwise. *)
Theorem normalizer_rejection (uuid4 : nat -> string) (i : nat)
    (row : gmap string (option string)) (rest : list (gmap string (option string))) :
  (Py.strip (Py.or_else (get row "date") "") = ""%string
   \/ decimal_to_int (Py.str (get row "amount")) = Invalid
   \/ (Py.strip (Py.or_else (get row "description") "") = ""%string
       /\ decimal_to_int (Py.str (get row "amount")) <> Overflow) ->
   _normalize_cleaned_row (uuid4 i) row = Return None
   /\ normalize_rows uuid4 true i (row :: rest) = normalize_rows uuid4 true (S i) rest)
  /\ (Py.strip (Py.or_else (get row "날짜") "") = ""%string
      \/ decimal_to_int (Py.remove_commas (Py.or_else (get row "금액") "")) = Invalid
      \/ (Py.strip (Py.or_else (get row "내용") "") = ""%string
          /\ decimal_to_int (Py.remove_commas (Py.or_else (get row "금액") "")) <> Overflow) ->
      _normalize_tsv_row (uuid4 i) row = Return None
      /\ normalize_rows uuid4 false i (row :: rest) = normalize_rows uuid4 false (S i) rest)
  /\ (Ledger._normalize_row row = Return None
      <-> Py.strip (Py.or_else (get row "날짜") "") = ""%string)
  /\ (Py.strip (Py.or_else (get row "날짜") "") = ""%string ->
      forall acc db, Ledger.import_loop (row :: rest) acc db = Ledger.import_loop rest acc db)
  /\ (Py.strip (Py.or_else (get row "날짜") "") <> ""%string ->
      Ledger._normalize_row row = Raise ValueError
      \/ exists t, Ledger._normalize_row row = Return (Some t))
  /\ (forall t, Ledger._normalize_row row = Return (Some t) ->
        (Py.strip (Py.or_else (get row "내용") "") = ""%string -> Ledger.content t = None)
        /\ (Py.strip (Py.or_else (get row "내용") "") <> ""%string ->
            Ledger.content t = Some (Py.strip (Py.or_else (get row "내용") "")))).
Proof.
  assert (forall b : bool, (if b then _normalize_cleaned_row (uuid4 i) row
                     else _normalize_tsv_row (uuid4 i) row) = Return None ->
                    normalize_rows uuid4 b i (row :: rest) = normalize_rows uuid4 b (S i) rest)
    as Hskip.
  { intros b Hb. simpl. rewrite Hb. simpl.
    by destruct (normalize_rows uuid4 b (S i) rest). }
  split; [|split; [|split; [|split; [|split]]]].
  - intros Hrej.
    assert (_normalize_cleaned_row (uuid4 i) row = Return None) as Hn.
    { unfold _normalize_cleaned_row, _parse_amount_to_signed_int.
      case_decide; [done|].
      destruct Hrej as [?|[->|[Hd Ho]]]; [done|done|].
      destruct (decimal_to_int _); [simpl|done|done].
      by rewrite decide_True. }
    split; [done|]. by apply (Hskip true).
  - intros Hrej.
    assert (_normalize_tsv_row (uuid4 i) row = Return None) as Hn.
    { unfold _normalize_tsv_row, _parse_amount_to_signed_int.
      case_decide; [done|].
      destruct Hrej as [?|[->|[Hd Ho]]]; [done|done|].
      destruct (decimal_to_int _); [simpl|done|done].
      by rewrite decide_True. }
    split; [done|]. by apply (Hskip false).
  - unfold Ledger._normalize_row. case_decide as Hd; [done|].
    split; [|done]. destruct (strptime _); [|done]. by destruct (int_of_str _).
  - intros Hd acc db.
    assert (Ledger._normalize_row row = Return None) as Hn.
    { unfold Ledger._normalize_row. by rewrite decide_True. }
    simpl. by rewrite Hn.
  - intros Hd. unfold Ledger._normalize_row. rewrite decide_False by done.
    destruct (strptime _); [|by left]. destruct (int_of_str _); [|by left].
    right. by eexists.
  - intros t. unfold Ledger._normalize_row. case_decide; [done|].
    destruct (strptime _); [|done]. destruct (int_of_str _); [|done].
    intros [= <-]. cbn [Ledger.content]. rewrite none_if_blank_get.
    split; intros Hc; [by rewrite decide_True|by rewrite decide_False].
Qed.

End NormalizerProps.

Lemma native_direction_counterexample :
  (exists r, _normalize_tsv_row (H := plain_runtime) "u0" transfer_line = Return (Some r)
             /\ Row.direction r = "expense"%string
             /\ Row.direction r <> stated_native_direction "이체" (-1000))
  /\ (exists t, Ledger._normalize_row (H := plain_runtime) unknown_type_line = Return (Some t)
                /\ Ledger.tx_type t = "transfer"%string
                /\ Ledger.tx_type t <> stated_native_direction "기타" 500).
Proof.
  split; eexists; (split; [vm_compute; reflexivity|]); split;
    [reflexivity|vm_compute; discriminate|reflexivity|vm_compute; discriminate].
Qed.

Lemma native_direction_resolution_witness :
  exists amount,
    decimal_to_int (Runtime := plain_runtime)
      (Py.remove_commas (Py.or_else (get transfer_line "금액") "")) = Converted amount
    /\ amount = -1000
    /\ Row.direction
         (Row.mk "u0" "2026-02-13" "-1000" "내계좌로 이체" "내계좌로 이체" "세이프박스" "expense"
            "내계좌이체>미분류" "")
       = "expense"%string.
Proof.
  destruct (proj1 (native_direction_resolution (H := plain_runtime) "u0" transfer_line)
              (Row.mk "u0" "2026-02-13" "-1000" "내계좌로 이체" "내계좌로 이체" "세이프박스"
                 "expense" "내계좌이체>미분류" ""))
    as (amount & Ha & Hd); [vm_compute; reflexivity|].
  exists amount. split; [exact Ha|]. split; [|reflexivity].
  vm_compute in Ha. congruence.
Defined.

Lemma normalizer_rejection_counterexample :
  Py.strip (Py.or_else (get blank_description_line "내용") "") = ""%string
  /\ (exists t, Ledger._normalize_row (H := plain_runtime) blank_description_line
                = Return (Some t)
                /\ Ledger.content t = None)
  /\ (Ledger.import_tsv (H := plain_runtime) [blank_description_line] empty_service).1
     = Return {| Ledger.imported := 1; Ledger.skipped_duplicates := 0;
                 Ledger.review_required_count := 0 |}
  /\ decimal_to_int (Runtime := plain_runtime) "abc" = Invalid
  /\ Ledger._normalize_row (H := plain_runtime) bad_amount_line = Raise ValueError
  /\ (Ledger.import_tsv (H := plain_runtime) [bad_amount_line] empty_service).1
     = Raise ValueError.
Proof.
  split; [vm_compute; reflexivity|].
  split; [eexists; split; vm_compute; reflexivity|].
  repeat split; vm_compute; reflexivity.
Qed.

Lemma normalizer_rejection_witness :
  _normalize_cleaned_row (H := plain_runtime) (uuids "u" 0) blank_date_line = Return None
  /\ _normalize_tsv_row (H := plain_runtime) (uuids "u" 0) blank_date_line = Return None
  /\ Ledger._normalize_row (H := plain_runtime) blank_date_line = Return None.
Proof.
  pose proof (normalizer_rejection (H := plain_runtime) (uuids "u") 0 blank_date_line [])
    as (Hc & Ht & Hl & _).
  split; [apply Hc; left; vm_compute; reflexivity|].
  split; [apply Ht; left; vm_compute; reflexivity|].
  apply Hl. vm_compute; reflexivity.
Defined.

(** ** Amount and direction *)

Lemma plain_int_str_of_int z : plain_int (Py.str_of_int z) = Some z.
Proof.
  unfold plain_int, Py.str_of_int.
  rewrite NilZero.isi.
  - simpl. f_equal. apply DecimalZ.of_to.
  - destruct z; simpl; try discriminate.
    intros [= E]. by apply DecimalPos.Unsigned.to_uint_nonnil in E.
  - destruct z; simpl; try discriminate.
    intros [= E]. by apply DecimalPos.Unsigned.to_uint_nonnil in E.
Qed.

Lemma str_of_int_inj z1 z2 : Py.str_of_int z1 = Py.str_of_int z2 -> z1 = z2.
Proof.
  intros E. pose proof (plain_int_str_of_int z1) as H1.
  rewrite E, plain_int_str_of_int in H1. congruence.
Qed.

Lemma inferred_direction_sign (d : string) (amount : Z) :
  let direction :=
    if is_income_or_expense d then d
    else if 0 <=? amount then "income"%string else "expense"%string in
  let z := if decide (direction = "income"%string) then Z.abs amount else - Z.abs amount in
  (direction = "income"%string /\ 0 <= z) \/ (direction = "expense"%string /\ z <= 0).
Proof.
  intros direction z. subst direction z. unfold is_income_or_expense.
  destruct (bool_decide_reflect (d = "income"%string)) as [->|Hi]; simpl.
  { left. split; [done|lia]. }
  destruct (bool_decide_reflect (d = "expense"%string)) as [->|He]; simpl.
  { right. split; [done|lia]. }
  destruct (0 <=? amount); simpl; [left|right]; (split; [done|lia]).
Qed.

Section SignProps.
Context `{Runtime}.

Lemma _normalize_cleaned_row_sign uuid4 row r :
  _normalize_cleaned_row uuid4 row = Return (Some r) -> row_sign_ok r.
Proof.
  unfold _normalize_cleaned_row, _parse_amount_to_signed_int.
  case_decide; [done|].
  destruct (decimal_to_int (Py.str (get row "amount"))) as [amount| |];
    cbn [mbind outcome_bind]; [|done|done].
  case_decide; [done|]. intros [= <-]. eexists. split; [reflexivity|].
  cbn [Row.direction]. apply inferred_direction_sign.
Qed.

Lemma _normalize_tsv_row_sign uuid4 row r :
  _normalize_tsv_row uuid4 row = Return (Some r) -> row_sign_ok r.
Proof.
  unfold _normalize_tsv_row, _parse_amount_to_signed_int.
  case_decide; [done|].
  destruct (decimal_to_int (Py.remove_commas (Py.or_else (get row "금액") ""))) as [amount| |];
    cbn [mbind outcome_bind]; [|done|done].
  case_decide; [done|]. intros [= <-]. eexists. split; [reflexivity|].
  cbn [Row.direction].
  destruct (TYPE_TO_DIRECTION !! _) as [d|].
  - apply inferred_direction_sign.
  - apply (inferred_direction_sign "" amount).
Qed.

Lemma normalize_rows_sign uuid4 schema rows : forall i rs,
  normalize_rows uuid4 schema i rows = Return rs -> Forall row_sign_ok rs.
Proof.
  induction rows as [|row rows IH]; intros i rs; simpl.
  - by intros [= <-].
  - destruct (if schema then _ else _) as [n|] eqn:En; simpl; [|done].
    destruct (normalize_rows uuid4 schema (S i) rows) as [others|] eqn:Eo; simpl; [|done].
    intros [= <-]. specialize (IH _ _ Eo).
    destruct n as [r|]; [|done]. constructor; [|done].
    destruct schema; [by eapply _normalize_cleaned_row_sign|by eapply _normalize_tsv_row_sign].
Qed.

End SignProps.

Lemma conn_register_keys row i st : conn (register_keys row i st) = conn st.
Proof. done. Qed.

Lemma seen_register_keys row i st :
  seen_fingerprints (register_keys row i st) = seen_fingerprints st.
Proof. done. Qed.

Lemma skipped_register_keys row i st :
  skipped_duplicates (register_keys row i st) = skipped_duplicates st.
Proof. done. Qed.

Lemma open_batch_fold db st :
  let st' := fold_left (fun st t => register_keys (existing_model t) (Tx.id t) st) db st in
  conn st' = conn st /\ seen_fingerprints st' = seen_fingerprints st
  /\ skipped_duplicates st' = skipped_duplicates st.
Proof.
  revert st. induction db as [|t db IH]; intros st; simpl; [done|].
  destruct (IH (register_keys (existing_model t) (Tx.id t) st)) as (-> & -> & ->). done.
Qed.

Ltac open_batch_fields :=
  unfold open_batch;
  match goal with
  | |- context [fold_left _ ?db ?st] =>
      let Hc := fresh in let Hs := fresh in let Hk := fresh in
      destruct (open_batch_fold db st) as (Hc & Hs & Hk); cbv zeta in Hc, Hs, Hk;
      first [rewrite Hc | rewrite Hs | rewrite Hk]
  end.

Lemma conn_open_batch db : conn (open_batch db) = db.
Proof. by open_batch_fields. Qed.

Lemma seen_open_batch db : seen_fingerprints (open_batch db) = seen_of db.
Proof.
  by open_batch_fields.
Qed.

Lemma skipped_open_batch db : skipped_duplicates (open_batch db) = 0.
Proof.
  by open_batch_fields.
Qed.

Lemma set_fingerprint_sign fp i db :
  Forall sign_consistent db -> Forall sign_consistent (set_fingerprint fp i db).
Proof.
  intros Hdb. unfold set_fingerprint. rewrite List.Forall_map.
  eapply List.Forall_impl; [|exact Hdb]. intros u Hu. by case_decide.
Qed.

Lemma inserted_row_sign row fp : row_sign_ok row -> sign_consistent (inserted_row row fp).
Proof.
  intros (z & Ha & Hz). exists z. simpl. split; [done|].
  destruct Hz as [[-> ?]|[-> ?]]; [by left|by right].
Qed.

Lemma import_row_sign st row st' :
  row_sign_ok row -> Forall sign_consistent (conn st) ->
  import_row st row = Return st' -> Forall sign_consistent (conn st').
Proof.
  intros Hrow Hst. unfold import_row.
  case_decide; [by intros [= <-]|].
  destruct (matched_existing_id st row).
  - intros [= <-]. simpl. by apply set_fingerprint_sign.
  - unfold insert_transaction. case_decide; simpl; [done|].
    intros [= <-]. simpl. apply Forall_app. split; [done|].
    constructor; [|done]. by apply inserted_row_sign.
Qed.

Lemma import_rows_sign rows : forall st st',
  Forall row_sign_ok rows -> Forall sign_consistent (conn st) ->
  import_rows st rows = Return st' -> Forall sign_consistent (conn st').
Proof.
  induction rows as [|row rows IH]; intros st st' Hrows Hst; simpl.
  - by intros [= <-].
  - inversion Hrows; subst.
    destruct (import_row st row) as [st1|] eqn:E; simpl; [|done].
    apply IH; [done|]. by eapply import_row_sign.
Qed.

Lemma delete_month_sign prefix db :
  Forall sign_consistent db -> Forall sign_consistent (delete_month prefix db).
Proof.
  rewrite !List.Forall_forall. intros Hdb t [Ht _]%filter_In. by apply Hdb.
Qed.

Lemma build_updates_columns payload direction updates :
  _build_transaction_updates payload direction = Return updates ->
  updates !! "date"%string = Py.strip <$> upd_date payload
  /\ updates !! "raw_category"%string
     = (fun c => Py.or_else (Some (Py.strip c)) "미분류") <$> upd_category payload
  /\ updates !! "description"%string = Py.strip <$> upd_description payload
  /\ updates !! "merchant"%string = Py.strip <$> upd_description payload
  /\ updates !! "method"%string = Py.strip <$> upd_method payload
  /\ updates !! "amount"%string
     = (fun a => Py.str_of_int (signed_for direction a)) <$> upd_amount payload
  /\ updates !! "is_excluded"%string
     = (fun e : bool => if e then "1"%string else "0"%string) <$> upd_excluded payload
  /\ updates !! "import_fingerprint"%string = None
  /\ (forall a, upd_amount payload = Some a -> 0 < a).
Proof.
  unfold _build_transaction_updates.
  destruct (upd_date payload) as [d|]; [case_decide; [done|]|]; cbn [mbind outcome_bind];
    (destruct (upd_amount payload) as [a|];
       [destruct (Z.leb_spec a 0); [done|]|]; cbn [mbind outcome_bind]);
    intros [= <-];
    destruct (upd_category payload), (upd_description payload), (upd_method payload),
      (upd_excluded payload);
    repeat split; try (intros ? [= <-]; lia); try done;
    by (destruct direction; simplify_map_eq).
Qed.

Lemma apply_columns_sign updates direction t :
  (updates !! "amount"%string = None
   \/ exists a, 0 < a /\ updates !! "amount"%string = Some (Py.str_of_int (signed_for direction a))) ->
  Tx.direction t = Some (direction_str direction) ->
  sign_consistent t -> sign_consistent (apply_columns updates t).
Proof.
  intros Ha Hd (z & Hz & Hs). unfold sign_consistent, apply_columns. simpl.
  destruct Ha as [->|(a & Hpos & ->)]; simpl.
  - by exists z.
  - exists (signed_for direction a). split; [done|].
    rewrite Hd. destruct direction; simpl; [left|right]; (split; [done|lia]).
Qed.

Lemma _apply_transaction_update_sign transaction_id updates direction db :
  (updates !! "amount"%string = None
   \/ exists a, 0 < a /\ updates !! "amount"%string = Some (Py.str_of_int (signed_for direction a))) ->
  Forall sign_consistent db ->
  Forall sign_consistent (_apply_transaction_update transaction_id updates direction db).2.
Proof.
  intros Ha Hdb. unfold _apply_transaction_update. cbn [snd].
  rewrite List.Forall_map. eapply List.Forall_impl; [|exact Hdb].
  intros t Ht. destruct (update_target transaction_id direction t) eqn:E; [|done].
  apply (apply_columns_sign _ direction); [done| |done].
  unfold update_target in E. apply andb_true_iff in E as [_ E].
  by apply bool_decide_eq_true in E.
Qed.

Lemma build_updates_amount payload direction updates :
  _build_transaction_updates payload direction = Return updates ->
  updates !! "amount"%string = None
  \/ exists a, 0 < a /\ updates !! "amount"%string = Some (Py.str_of_int (signed_for direction a)).
Proof.
  intros Hb. destruct (build_updates_columns _ _ _ Hb) as (_ & _ & _ & _ & _ & Ha & _ & _ & Hp).
  rewrite Ha. destruct (upd_amount payload) as [a|]; [right|by left].
  exists a. split; [by apply Hp|done].
Qed.

Section WriterProps.
Context `{Runtime}.

Lemma import_transactions_sign uuid4 schema rows replace_month year month db :
  Forall sign_consistent db ->
  Forall sign_consistent (import_transactions uuid4 schema rows replace_month year month db).2.
Proof.
  intros Hdb. unfold import_transactions.
  destruct (normalize_rows uuid4 schema 0 rows) as [normalized|] eqn:En; [|done].
  apply normalize_rows_sign in En.
  destruct normalized as [|r normalized]; [done|].
  set (rs := r :: normalized) in *.
  assert (forall db1, Forall sign_consistent db1 ->
            Forall sign_consistent
              (match reconcile rs db1 with
               | Raise e => (Raise e, db1)
               | Return st =>
                   (Return {| imported := Z.of_nat (length rs) - skipped_duplicates st;
                              skipped := skipped_duplicates st; deleted := 0 |}, conn st)
               end).2) as Hloop.
  { intros db1 Hdb1. unfold reconcile.
    destruct (import_rows (open_batch db1) rs) as [st|] eqn:E; [|done].
    cbn [snd]. eapply import_rows_sign; [exact En| |exact E]. by rewrite conn_open_batch. }
  destruct replace_month; cbn [mbind outcome_bind].
  - destruct (target_month year month rs) as [[y m]|]; cbn [mbind outcome_bind]; [|done].
    specialize (Hloop _ (delete_month_sign (_month_prefix y m) _ Hdb)).
    cbn [fst snd]. destruct (reconcile rs _); done.
  - specialize (Hloop _ Hdb). destruct (reconcile rs db); done.
Qed.

Lemma create_transaction_sign transaction_id payload db :
  Forall sign_consistent db ->
  Forall sign_consistent (create_transaction transaction_id payload db).2.
Proof.
  intros Hdb. unfold create_transaction.
  destruct (Z.leb_spec (new_amount payload) 0); [done|].
  case_decide; [done|]. case_decide; [done|].
  unfold insert_transaction. case_decide; [done|]. cbn [snd].
  apply Forall_app. split; [done|]. constructor; [|done].
  eexists. split; [reflexivity|]. cbn [Tx.direction].
  destruct (new_direction payload); [left|right]; (split; [done|lia]).
Qed.

Lemma update_transaction_sign direction transaction_id payload db :
  Forall sign_consistent db ->
  Forall sign_consistent (update_transaction direction transaction_id payload db).2.
Proof.
  intros Hdb. unfold update_transaction.
  destruct (_build_transaction_updates payload direction) as [updates|] eqn:Eb; [|done].
  case_decide; [done|].
  destruct (find _ db) as [row|]; [|done].
  match goal with
  | |- context [_apply_transaction_update ?i ?u ?d ?db] =>
      pose proof (_apply_transaction_update_sign i u d db) as Hs;
      destruct (_apply_transaction_update i u d db) as [rowcount db']
  end.
  cbn [snd] in Hs.
  assert (Forall sign_consistent db') as Hdb'.
  { apply Hs; [|done]. rewrite lookup_insert_ne by done. by eapply build_updates_amount. }
  by destruct (rowcount =? 0).
Qed.

Lemma update_transaction_by_match_sign direction payload db :
  Forall sign_consistent db ->
  Forall sign_consistent (update_transaction_by_match direction payload db).2.
Proof.
  intros Hdb. unfold update_transaction_by_match.
  destruct (_build_transaction_updates (updated payload) direction) as [updates|] eqn:Eb;
    [|done].
  case_decide; [done|].
  destruct (orig_amount (original payload) <=? 0); [done|].
  destruct (matched_ids _ _) as [[|matched [|? ?]]|]; try done.
  match goal with
  | |- context [_apply_transaction_update ?i ?u ?d ?db] =>
      pose proof (_apply_transaction_update_sign i u d db) as Hs;
      destruct (_apply_transaction_update i u d db) as [rowcount db']
  end.
  cbn [snd] in Hs.
  assert (Forall sign_consistent db') as Hdb'.
  { apply Hs; [|done]. by eapply build_updates_amount. }
  by destruct (rowcount =? 0).
Qed.

(** C6, as amended.  Every operation of the backend that writes rows (the
    import with or without month replacement, the single-row create, the
    update by identifier and the update by snapshot) keeps this rule on the
    whole table, whatever its outcome: the amount of an income row is at least
    zero and the amount of an expense row is at most zero.  (A zero amount
    goes with either direction; the ledger variant stores the sign of the
    export as it is.) *)
Theorem sign_consistency_preserved (db : list Tx.t) :
  Forall sign_consistent db ->
  (forall uuid4 schema rows replace_month year month,
     Forall sign_consistent
       (import_transactions uuid4 schema rows replace_month year month db).2)
  /\ (forall transaction_id payload,
        Forall sign_consistent (create_transaction transaction_id payload db).2)
  /\ (forall direction transaction_id payload,
        Forall sign_consistent (update_transaction direction transaction_id payload db).2)
  /\ (forall direction payload,
        Forall sign_consistent (update_transaction_by_match direction payload db).2).
Proof.
  intros Hdb. repeat split; intros.
  - by apply import_transactions_sign.
  - by apply create_transaction_sign.
  - by apply update_transaction_sign.
  - by apply update_transaction_by_match_sign.
Qed.

End WriterProps.

Lemma sign_consistency_counterexample :
  (* the backend stores an expense of amount zero *)
  (exists t,
     import_transactions (H := plain_runtime) (uuids "u") true [zero_expense_line] false
       None None []
     = (Return {| imported := 1; skipped := 0; deleted := 0 |}, [t])
     /\ Tx.amount t = Py.str_of_int 0
     /\ Tx.direction t = Some "expense"%string
     /\ ~ stated_consistent t)
  (* the ledger stores the expense of 7990 of the sample file with its sign *)
  /\ (exists t,
        t ∈ Ledger.view (Ledger.import_tsv (H := plain_runtime) SAMPLE empty_service).2
        /\ Ledger.tx_type t = "expense"%string
        /\ Ledger.signed_amount t = 7990
        /\ Ledger.review_required t = 1).
Proof.
  split.
  - eexists. split; [vm_compute; reflexivity|].
    split; [reflexivity|]. split; [reflexivity|].
    intros (z & Hz & Hs). cbn [Tx.amount Tx.direction] in Hz, Hs.
    change "0"%string with (Py.str_of_int 0) in Hz. apply str_of_int_inj in Hz. subst z.
    destruct Hs as [Hs _]. specialize (Hs ltac:(lia)). discriminate.
  - eexists. split; [vm_compute; do 3 right; left|].
    repeat split.
Qed.

Lemma sign_consistency_preserved_witness :
  Forall sign_consistent [lunch]
  /\ Forall sign_consistent
       (import_transactions (H := plain_runtime) (uuids "u") true [zero_expense_line] false
          None None [lunch]).2.
Proof.
  assert (Forall sign_consistent [lunch]) as Hl.
  { constructor; [|constructor]. exists (-12000). split; [vm_compute; reflexivity|].
    right. split; [reflexivity|lia]. }
  split; [exact Hl|].
  apply (proj1 (sign_consistency_preserved (H := plain_runtime) [lunch] Hl)).
Defined.

(** ** Update by snapshot *)

Section ByMatchProps.
Context `{Runtime}.

(** The by-snapshot update writes no fingerprint: the column keeps its value
    in every row. *)
Lemma by_match_keeps_fingerprints direction payload db :
  map Tx.import_fingerprint (update_transaction_by_match direction payload db).2
  = map Tx.import_fingerprint db.
Proof.
  unfold update_transaction_by_match.
  destruct (_build_transaction_updates (updated payload) direction) as [updates|] eqn:Eb;
    [|done].
  case_decide; [done|].
  destruct (orig_amount (original payload) <=? 0); [done|].
  destruct (matched_ids _ _) as [[|matched [|? ?]]|]; try done.
  destruct (build_updates_columns _ _ _ Eb) as (_ & _ & _ & _ & _ & _ & _ & Hf & _).
  unfold _apply_transaction_update.
  match goal with |- context [if ?c then _ else _] => destruct c end; cbn [snd];
    rewrite List.map_map; apply List.map_ext; intros t;
    (destruct (update_target matched direction t); [|done]);
    unfold apply_columns; cbn [Tx.import_fingerprint]; by rewrite Hf.
Qed.

End ByMatchProps.

(** C4 (the code departs from the claim).  A by-snapshot update that finds
    exactly one row changes the fields and leaves the stored fingerprint as it
    was, so the fingerprint no longer is that of the row's content; the update
    by identifier of the same row with the same changes recomputes it. *)
Theorem by_match_update_leaves_stale_fingerprint :
  exists t t' t'',
    create_transaction "id1" new_lunch [] = (Return "id1"%string, [t])
    /\ Tx.import_fingerprint t = Some (_transaction_fingerprint (existing_model t))
    /\ update_expense_transaction_by_match (H := plain_runtime) rename_lunch_by_match [t]
       = (Return (), [t'])
    /\ Tx.description t' = "lunch special"%string
    /\ Tx.import_fingerprint t' = Tx.import_fingerprint t
    /\ Tx.import_fingerprint t' <> Some (_transaction_fingerprint (existing_model t'))
    /\ update_expense_transaction "id1" rename_lunch [t] = (Return (), [t''])
    /\ Tx.description t'' = "lunch special"%string
    /\ Tx.import_fingerprint t'' = Some (_transaction_fingerprint (existing_model t'')).
Proof.
  eexists _, _, _.
  split; [vm_compute; reflexivity|].
  split; [vm_compute; reflexivity|].
  split; [vm_compute; reflexivity|].
  split; [reflexivity|].
  split; [reflexivity|].
  split; [vm_compute; discriminate|].
  split; [vm_compute; reflexivity|].
  split; [reflexivity|].
  vm_compute; reflexivity.
Qed.

(** ** Atomicity of a batch *)

Section AtomicityProps.
Context `{Runtime}.

(** What a failed import leaves: the table as it was, or, when a month
    replacement was asked for, possibly the table without that month. *)
Lemma failed_import_store uuid4 schema rows replace_month year month db e db' :
  import_transactions uuid4 schema rows replace_month year month db = (Raise e, db') ->
  db' = db
  \/ (replace_month = true /\ exists y m, db' = delete_month (_month_prefix y m) db).
Proof.
  unfold import_transactions.
  destruct (normalize_rows uuid4 schema 0 rows) as [[|r normalized]|]; [| |];
    try (intros [= _ <-]; by left).
  destruct replace_month; cbn [mbind outcome_bind].
  - destruct (target_month year month _) as [[y m]|]; cbn [mbind outcome_bind];
      [|intros [= _ <-]; by left].
    cbn [fst snd]. destruct (reconcile _ _); [done|].
    intros [= _ <-]. right. split; [done|]. by exists y, m.
  - destruct (reconcile _ _); [done|]. intros [= _ <-]. by left.
Qed.

End AtomicityProps.

(** C5 (the code departs from the claim).  A month replacement whose loop
    then fails loses the month: the deletion was committed before the loop
    began, and only the loop is rolled back.  In the ledger variant an
    exception in the loop leaves the rows inserted so far in the open
    transaction, and the next successful import commits them. *)
Theorem month_replacement_not_atomic :
  import_transactions (H := plain_runtime) (uuids "u") true [clashing_line] true
    (Some 2026) (Some 2) [lunch; march_rent]
  = (Raise IntegrityError, [march_rent])
  /\ (exists svc t u,
        Ledger.import_tsv (H := plain_runtime) [snack_line; bad_amount_line] empty_service
        = (Raise ValueError, svc)
        /\ Ledger.committed svc = []
        /\ Ledger.view svc = [t]
        /\ Ledger.committed
             (Ledger.import_tsv (H := plain_runtime) [transfer_line] svc).2
           = [t; u]).
Proof.
  split; [vm_compute; reflexivity|].
  eexists _, _, _.
  split; [vm_compute; reflexivity|].
  split; [reflexivity|].
  split; [reflexivity|].
  vm_compute; reflexivity.
Qed.

(** ** The fallback cascade *)

Lemma length_one {A} (l : list A) : length l = 1%nat <-> exists x, l = [x].
Proof.
  split.
  - destruct l as [|x [|y l]]; try done. by exists x.
  - by intros [x ->].
Qed.

(** The cascade returns the single candidate of the first level that has
    exactly one. *)
Lemma matched_existing_id_spec st row :
  let c1 := get_list (fallback_with_method_map st) (_transaction_fallback_key_with_method row) in
  let c2 := get_list (fallback_map st) (_transaction_fallback_key row) in
  let c3 := get_list (fallback_without_amount_map st)
              (_transaction_fallback_key_without_amount row) in
  match matched_existing_id st row with
  | Some i =>
      c1 = [i]
      \/ (length c1 <> 1%nat /\ c2 = [i])
      \/ (length c1 <> 1%nat /\ length c2 <> 1%nat /\ c3 = [i])
  | None => length c1 <> 1%nat /\ length c2 <> 1%nat /\ length c3 <> 1%nat
  end.
Proof.
  unfold matched_existing_id.
  destruct (get_list (fallback_with_method_map st) _) as [|i1 [|? ?]] eqn:E1;
    [|by left|];
    (destruct (get_list (fallback_map st) _) as [|i2 [|? ?]] eqn:E2;
     [|by right; left|]);
    (destruct (get_list (fallback_without_amount_map st) _) as [|i3 [|? ?]] eqn:E3;
     [|by right; right|]);
    done.
Qed.

(** C3, as amended.  For a candidate row whose fingerprint is not among the
    seen ones: a level of the cascade with zero or with two or more candidates
    gives no match and the next, looser level is tried, so that the match is
    the single candidate of the first level that has exactly one, and there is
    a match exactly when some level has exactly one.  A matched candidate is
    merged: no row is added, no stored field but a fingerprint changes, the
    matched row receives the fingerprint of the candidate, and the candidate
    is counted as a duplicate.  When no level has exactly one candidate the
    row is merged into no stored row and is not counted as a duplicate; it is
    inserted after the stored rows, none of which is changed, with the fields
    and the fingerprint of the candidate, and marked excluded exactly when
    its category is one of the auto-excluded ones, provided its identifier is
    not stored yet.  When the identifier is already stored the insert raises
    [IntegrityError] and nothing is inserted. *)
Theorem cascade_ambiguity_safe (st : batch) (row : Row.t) :
  _transaction_fingerprint row ∉ seen_fingerprints st ->
  let c1 := get_list (fallback_with_method_map st) (_transaction_fallback_key_with_method row) in
  let c2 := get_list (fallback_map st) (_transaction_fallback_key row) in
  let c3 := get_list (fallback_without_amount_map st)
              (_transaction_fallback_key_without_amount row) in
  (forall i, matched_existing_id st row = Some i
             <-> c1 = [i]
                 \/ (length c1 <> 1%nat /\ c2 = [i])
                 \/ (length c1 <> 1%nat /\ length c2 <> 1%nat /\ c3 = [i]))
  /\ (forall i, matched_existing_id st row = Some i ->
        exists st',
          import_row st row = Return st'
          /\ map forget_fingerprint (conn st') = map forget_fingerprint (conn st)
          /\ (forall t, t ∈ conn st -> Tx.id t <> i -> t ∈ conn st')
          /\ (forall t, t ∈ conn st' -> Tx.id t = i ->
                Tx.import_fingerprint t = Some (_transaction_fingerprint row))
          /\ skipped_duplicates st' = skipped_duplicates st + 1)
  /\ (length c1 <> 1%nat -> length c2 <> 1%nat -> length c3 <> 1%nat ->
      matched_existing_id st row = None
      /\ (Row.id row ∉ map Tx.id (conn st) ->
          exists st' t,
            import_row st row = Return st'
            /\ conn st' = conn st ++ [t]
            /\ skipped_duplicates st' = skipped_duplicates st
            /\ Tx.id t = Row.id row
            /\ Tx.date t = Row.date row
            /\ Tx.amount t = Row.amount row
            /\ Tx.description t = Row.description row
            /\ Tx.merchant t = Row.merchant row
            /\ Tx.method t = Row.method row
            /\ Tx.direction t = Some (Row.direction row)
            /\ Tx.raw_category t = Some (Row.raw_category row)
            /\ Tx.memo t = Some (Row.memo row)
            /\ Tx.is_excluded t
               = (if decide (Py.strip (Row.raw_category row) ∈ AUTO_EXCLUDED_CATEGORIES)
                  then 1 else 0)
            /\ Tx.import_fingerprint t = Some (_transaction_fingerprint row))
      /\ (Row.id row ∈ map Tx.id (conn st) -> import_row st row = Raise IntegrityError)).
Proof.
  intros Hfp c1 c2 c3.
  pose proof (matched_existing_id_spec st row) as Hspec. cbv zeta in Hspec.
  fold c1 c2 c3 in Hspec.
  assert (forall i, matched_existing_id st row = Some i
                    <-> c1 = [i]
                        \/ (length c1 <> 1%nat /\ c2 = [i])
                        \/ (length c1 <> 1%nat /\ length c2 <> 1%nat /\ c3 = [i])) as Hiff.
  { intros i. split.
    - intros Hi. by rewrite Hi in Hspec.
    - intros Hlevel. destruct (matched_existing_id st row) as [j|].
      + f_equal.
        destruct Hlevel as [E|[[N1 E]|(N1 & N2 & E)]];
          destruct Hspec as [E'|[[N1' E']|(N1' & N2' & E')]];
          rewrite ?E, ?E' in *; simpl in *; congruence.
      + destruct Hspec as (N1 & N2 & N3).
        destruct Hlevel as [E|[[_ E]|(_ & _ & E)]]; rewrite E in *; done. }
  split; [exact Hiff|]. split.
  - intros i Hi. unfold import_row. rewrite decide_False by done. rewrite Hi.
    eexists. split; [reflexivity|]. cbn [conn skipped_duplicates].
    split; [|split; [|split; [|done]]].
    + unfold set_fingerprint. rewrite List.map_map. apply List.map_ext.
      intros t. by case_decide.
    + intros t Ht Hne. unfold set_fingerprint. apply list_elem_of_In, in_map_iff.
      exists t. split; [by rewrite decide_False|by apply list_elem_of_In].
    + intros t Ht Hi'. unfold set_fingerprint in Ht.
      apply list_elem_of_In, in_map_iff in Ht as (u & <- & _).
      destruct (decide (Tx.id u = i)) as [?|Hne]; [done|].
      exfalso. by apply Hne.
  - intros H1 H2 H3.
    assert (matched_existing_id st row = None) as Hnone.
    { destruct (matched_existing_id st row) as [i|]; [|done].
      destruct Hspec as [E|[[_ E]|(_ & _ & E)]]; rewrite E in *; done. }
    split; [done|].
    unfold import_row. rewrite decide_False by done. rewrite Hnone.
    unfold insert_transaction. split.
    + intros Hid. rewrite decide_False by done. cbn [mbind outcome_bind].
      eexists _, _. split; [reflexivity|]. rewrite conn_register_keys. cbn [conn].
      split; [reflexivity|]. done.
    + intros Hid. by rewrite decide_True.
Qed.

Lemma cascade_ambiguity_safe_counterexample :
  _normalize_cleaned_row (H := plain_runtime) "u0" clashing_line
  = Return (Some clashing_candidate)
  /\ (_transaction_fingerprint clashing_candidate ∉ seen_fingerprints (open_batch [march_rent]))
  /\ get_list (fallback_with_method_map (open_batch [march_rent]))
       (_transaction_fallback_key_with_method clashing_candidate) = []
  /\ get_list (fallback_map (open_batch [march_rent]))
       (_transaction_fallback_key clashing_candidate) = []
  /\ get_list (fallback_without_amount_map (open_batch [march_rent]))
       (_transaction_fallback_key_without_amount clashing_candidate) = []
  /\ import_row (open_batch [march_rent]) clashing_candidate = Raise IntegrityError
  /\ import_transactions (H := plain_runtime) (uuids "u") true [clashing_line] false None None
       [march_rent]
     = (Raise IntegrityError, [march_rent]).
Proof.
  split; [vm_compute; reflexivity|]. split; [compute_done|].
  repeat split; vm_compute; reflexivity.
Qed.

Lemma cascade_ambiguity_safe_witness :
  (_transaction_fingerprint coffee_evening
     ∉ seen_fingerprints (open_batch [coffee_morning; coffee_noon]))
  /\ get_list (fallback_with_method_map (open_batch [coffee_morning; coffee_noon]))
       (_transaction_fallback_key_with_method coffee_evening) = ["c1"; "c2"]%string
  /\ matched_existing_id (open_batch [coffee_morning; coffee_noon]) coffee_evening = None
  /\ (exists st' t,
        import_row (open_batch [coffee_morning; coffee_noon]) coffee_evening = Return st'
        /\ conn st' = [coffee_morning; coffee_noon] ++ [t]
        /\ skipped_duplicates st' = 0
        /\ Tx.id t = "c3"%string
        /\ Tx.amount t = "-4500"%string
        /\ Tx.is_excluded t = 0)
  /\ get_list (fallback_with_method_map (open_batch [coffee_large]))
       (_transaction_fallback_key_with_method coffee_evening) = []
  /\ get_list (fallback_map (open_batch [coffee_large]))
       (_transaction_fallback_key coffee_evening) = []
  /\ matched_existing_id (open_batch [coffee_large]) coffee_evening = Some "c4"%string.
Proof.
  assert (_transaction_fingerprint coffee_evening
            ∉ seen_fingerprints (open_batch [coffee_morning; coffee_noon])) as Hfp
    by compute_done.
  assert (_transaction_fingerprint coffee_evening
            ∉ seen_fingerprints (open_batch [coffee_large])) as Hfp1
    by compute_done.
  split; [exact Hfp|]. split; [vm_compute; reflexivity|].
  destruct (cascade_ambiguity_safe (open_batch [coffee_morning; coffee_noon]) coffee_evening Hfp)
    as (_ & _ & Hins).
  destruct Hins as (Hnone & Hnew & _); [vm_compute; discriminate ..|].
  split; [exact Hnone|]. split.
  - destruct Hnew as (st' & t & Hrun & Hconn & Hsk & Hid & _ & Ham & _ & _ & _ & _ & _ & _
                      & Hex & _); [compute_done|].
    exists st', t. split; [exact Hrun|]. split; [exact Hconn|]. split; [exact Hsk|].
    split; [exact Hid|]. split; [exact Ham|]. exact Hex.
  - split; [vm_compute; reflexivity|]. split; [vm_compute; reflexivity|].
    apply (proj1 (cascade_ambiguity_safe (open_batch [coffee_large]) coffee_evening Hfp1)).
    right; right. split; [vm_compute; discriminate|]. split; [vm_compute; discriminate|].
    vm_compute; reflexivity.
Defined.

(** ** The batch state and the table *)

Lemma get_list_setdefault_append `{Countable K} (k k' : K) v (m : gmap K (list string)) :
  get_list (setdefault_append k v m) k'
  = if decide (k = k') then get_list m k ++ [v] else get_list m k'.
Proof.
  unfold get_list, setdefault_append. rewrite lookup_insert. by case_decide; subst.
Qed.

Lemma ids_with_app {K} `{EqDecision K} (k : Tx.t -> K) key l1 l2 :
  ids_with k key (l1 ++ l2) = ids_with k key l1 ++ ids_with k key l2.
Proof. unfold ids_with. by rewrite List.filter_app, List.map_app. Qed.

Lemma ids_with_singleton {K} `{EqDecision K} (k : Tx.t -> K) key t :
  ids_with k key [t] = if decide (k t = key) then [Tx.id t] else [].
Proof. unfold ids_with. simpl. by case_bool_decide; case_decide. Qed.

Lemma maps_track_register st l row i t :
  maps_track st l ->
  stored_key_with_method t = _transaction_fallback_key_with_method row ->
  stored_key t = _transaction_fallback_key row ->
  stored_key_without_amount t = _transaction_fallback_key_without_amount row ->
  Tx.id t = i ->
  maps_track (register_keys row i st) (l ++ [t]).
Proof.
  intros (H1 & H2 & H3) E1 E2 E3 <-. unfold maps_track, register_keys.
  cbn [fallback_with_method_map fallback_map fallback_without_amount_map].
  repeat split; intros key; rewrite get_list_setdefault_append, ids_with_app, ids_with_singleton.
  - rewrite E1, !H1. case_decide; subst; by rewrite ?app_nil_r.
  - rewrite E2, !H2. case_decide; subst; by rewrite ?app_nil_r.
  - rewrite E3, !H3. case_decide; subst; by rewrite ?app_nil_r.
Qed.

Lemma maps_track_fold db : forall st pre,
  maps_track st pre ->
  maps_track (fold_left (fun st t => register_keys (existing_model t) (Tx.id t) st) db st)
    (pre ++ db).
Proof.
  induction db as [|t db IH]; intros st pre Hst; simpl.
  - by rewrite app_nil_r.
  - rewrite (cons_middle t pre db), app_assoc. apply IH.
    by apply maps_track_register.
Qed.

Lemma open_batch_wf db : batch_wf (open_batch db).
Proof.
  unfold batch_wf. rewrite conn_open_batch. unfold open_batch.
  apply (maps_track_fold db _ []). by repeat split.
Qed.

Lemma ids_with_set_fingerprint {K} `{EqDecision K} (k : Tx.t -> K) key fp i db :
  (forall t, k (Tx.mk (Tx.id t) (Tx.date t) (Tx.amount t) (Tx.description t) (Tx.merchant t)
                  (Tx.method t) (Tx.direction t) (Tx.raw_category t) (Tx.memo t)
                  (Tx.is_excluded t) (Some fp)) = k t) ->
  ids_with k key (set_fingerprint fp i db) = ids_with k key db.
Proof.
  intros Hk. unfold ids_with, set_fingerprint.
  induction db as [|t db IH]; [done|]. simpl.
  case_decide; simpl; rewrite ?Hk; case_bool_decide; simpl; by rewrite IH.
Qed.

Lemma maps_track_set_fingerprint st st' fp i l :
  fallback_with_method_map st' = fallback_with_method_map st ->
  fallback_map st' = fallback_map st ->
  fallback_without_amount_map st' = fallback_without_amount_map st ->
  maps_track st l -> maps_track st' (set_fingerprint fp i l).
Proof.
  intros E1 E2 E3 (H1 & H2 & H3). unfold maps_track. rewrite E1, E2, E3.
  repeat split; intros key; by rewrite ids_with_set_fingerprint.
Qed.

Lemma inserted_row_keys row fp :
  stored_key_with_method (inserted_row row fp) = _transaction_fallback_key_with_method row
  /\ stored_key (inserted_row row fp) = _transaction_fallback_key row
  /\ stored_key_without_amount (inserted_row row fp)
     = _transaction_fallback_key_without_amount row.
Proof. done. Qed.

(** The three ways an iteration ends. *)
Lemma import_row_cases st row st' :
  import_row st row = Return st' ->
  let fp := _transaction_fingerprint row in
  (fp ∈ seen_fingerprints st
   /\ st' = {| conn := conn st; seen_fingerprints := seen_fingerprints st;
               fallback_with_method_map := fallback_with_method_map st;
               fallback_map := fallback_map st;
               fallback_without_amount_map := fallback_without_amount_map st;
               skipped_duplicates := skipped_duplicates st + 1 |})
  \/ ((fp ∉ seen_fingerprints st)
      /\ exists i, matched_existing_id st row = Some i
         /\ st' = {| conn := set_fingerprint fp i (conn st);
                     seen_fingerprints := {[fp]} ∪ seen_fingerprints st;
                     fallback_with_method_map := fallback_with_method_map st;
                     fallback_map := fallback_map st;
                     fallback_without_amount_map := fallback_without_amount_map st;
                     skipped_duplicates := skipped_duplicates st + 1 |})
  \/ ((fp ∉ seen_fingerprints st)
      /\ matched_existing_id st row = None
      /\ (Row.id row ∉ map Tx.id (conn st))
      /\ st' = register_keys row (Row.id row)
                 {| conn := conn st ++ [inserted_row row fp];
                    seen_fingerprints := {[fp]} ∪ seen_fingerprints st;
                    fallback_with_method_map := fallback_with_method_map st;
                    fallback_map := fallback_map st;
                    fallback_without_amount_map := fallback_without_amount_map st;
                    skipped_duplicates := skipped_duplicates st |}).
Proof.
  unfold import_row. case_decide as Hs.
  - intros [= <-]. by left.
  - destruct (matched_existing_id st row) as [i|].
    + intros [= <-]. right; left. split; [done|]. by exists i.
    + unfold insert_transaction. case_decide; cbn [mbind outcome_bind]; [done|].
      intros [= <-]. by right; right.
Qed.

Lemma import_row_wf st row st' :
  batch_wf st -> import_row st row = Return st' -> batch_wf st'.
Proof.
  intros Hwf Hstep. apply import_row_cases in Hstep.
  destruct Hstep as [[_ ->]|[(_ & i & _ & ->)|(_ & _ & _ & ->)]]; unfold batch_wf.
  - exact Hwf.
  - cbn [conn]. by eapply maps_track_set_fingerprint.
  - rewrite conn_register_keys. cbn [conn].
    by apply maps_track_register.
Qed.

Lemma ids_with_one {K} `{EqDecision K} (k : Tx.t -> K) key db i :
  ids_with k key db = [i] -> exists t, t ∈ db /\ k t = key /\ Tx.id t = i.
Proof.
  unfold ids_with. intros E.
  destruct (List.filter _ db) as [|t [|? ?]] eqn:Ef; try done.
  injection E as E. exists t.
  assert (In t (List.filter (fun t => bool_decide (k t = key)) db)) as Hin
    by (rewrite Ef; by left).
  apply filter_In in Hin as [Hin Hk]. apply bool_decide_eq_true in Hk.
  split; [by apply list_elem_of_In|done].
Qed.

Lemma ids_with_snoc_other {K} `{EqDecision K} (k : Tx.t -> K) key db t :
  k t <> key -> ids_with k key (db ++ [t]) = ids_with k key db.
Proof.
  intros Hne. rewrite ids_with_app, ids_with_singleton.
  rewrite decide_False by done. apply app_nil_r.
Qed.

Lemma matched_iff_unique_level st c :
  batch_wf st -> (is_Some (matched_existing_id st c) <-> unique_level (conn st) c).
Proof.
  intros (H1 & H2 & H3).
  pose proof (matched_existing_id_spec st c) as Hspec. cbv zeta in Hspec.
  rewrite H1, H2, H3 in Hspec. unfold unique_level.
  destruct (matched_existing_id st c) as [i|].
  - split; [|by eexists]. intros _.
    destruct Hspec as [E|[[_ E]|(_ & _ & E)]]; rewrite E; auto.
  - split; [by intros [? ?]|]. intros Hu. exfalso.
    destruct Hspec as (N1 & N2 & N3). by destruct Hu as [?|[?|?]].
Qed.

Lemma unique_level_step st r st' c :
  batch_wf st -> import_row st r = Return st' ->
  unique_level (conn st) c -> unique_level (conn st') c.
Proof.
  intros Hwf Hstep Hu. apply import_row_cases in Hstep.
  destruct Hstep as [[_ ->]|[(_ & i & _ & ->)|(_ & Hnone & _ & ->)]].
  - exact Hu.
  - cbn [conn]. unfold unique_level. by rewrite !ids_with_set_fingerprint.
  - rewrite conn_register_keys. cbn [conn].
    assert (~ unique_level (conn st) r) as Hr.
    { intros Hr. apply (matched_iff_unique_level st r Hwf) in Hr.
      rewrite Hnone in Hr. by destruct Hr. }
    destruct (inserted_row_keys r (_transaction_fingerprint r)) as (E1 & E2 & E3).
    unfold unique_level in *.
    destruct Hu as [Hu|[Hu|Hu]]; [left|right; left|right; right];
      (rewrite ids_with_snoc_other; [done|]); intros E; apply Hr.
    + left. by rewrite <- E1, E.
    + right; left. by rewrite <- E2, E.
    + right; right. by rewrite <- E3, E.
Qed.

Lemma set_fingerprint_ids fp i db : map Tx.id (set_fingerprint fp i db) = map Tx.id db.
Proof.
  unfold set_fingerprint. rewrite List.map_map. apply List.map_ext.
  intros t. by case_decide.
Qed.

Lemma nodup_step st r st' :
  NoDup (map Tx.id (conn st)) -> import_row st r = Return st' ->
  NoDup (map Tx.id (conn st')).
Proof.
  intros Hnd Hstep. apply import_row_cases in Hstep.
  destruct Hstep as [[_ ->]|[(_ & i & _ & ->)|(_ & _ & Hfresh & ->)]].
  - exact Hnd.
  - cbn [conn]. by rewrite set_fingerprint_ids.
  - rewrite conn_register_keys. cbn [conn]. rewrite List.map_app. simpl.
    apply NoDup_app. split; [done|]. split; [|apply NoDup_singleton].
    intros x Hx Hx'. apply list_elem_of_singleton in Hx'. by subst.
Qed.

Lemma seen_step st r st' :
  import_row st r = Return st' ->
  seen_fingerprints st' = seen_fingerprints st
  \/ seen_fingerprints st' = {[_transaction_fingerprint r]} ∪ seen_fingerprints st.
Proof.
  intros Hstep. apply import_row_cases in Hstep.
  destruct Hstep as [[_ ->]|[(_ & i & _ & ->)|(_ & _ & _ & ->)]]; auto.
Qed.

Lemma seen_after_step st r st' :
  import_row st r = Return st' -> _transaction_fingerprint r ∈ seen_fingerprints st'.
Proof.
  intros Hstep. apply import_row_cases in Hstep.
  destruct Hstep as [[? ->]|[(_ & i & _ & ->)|(_ & _ & _ & ->)]]; [done| |];
    rewrite ?seen_register_keys; cbn [seen_fingerprints]; set_solver.
Qed.

Lemma nodup_same_id (db : list Tx.t) t u :
  NoDup (map Tx.id db) -> t ∈ db -> u ∈ db -> Tx.id t = Tx.id u -> t = u.
Proof.
  induction db as [|x db IH]; [by intros _ ?%elem_of_nil|].
  simpl. intros [Hx Hnd]%NoDup_cons [->|Ht]%elem_of_cons [->|Hu]%elem_of_cons E; try done.
  - exfalso. apply Hx. rewrite E. apply list_elem_of_In, in_map, list_elem_of_In. done.
  - exfalso. apply Hx. rewrite <- E. apply list_elem_of_In, in_map, list_elem_of_In. done.
  - by apply IH.
Qed.

Lemma elem_of_set_fingerprint_other fp i db t :
  t ∈ db -> Tx.id t <> i -> t ∈ set_fingerprint fp i db.
Proof.
  intros Ht Hne. unfold set_fingerprint. apply list_elem_of_In, in_map_iff.
  exists t. split; [by rewrite decide_False|by apply list_elem_of_In].
Qed.

Lemma covered_step st r st' c :
  batch_wf st -> NoDup (map Tx.id (conn st)) -> import_row st r = Return st' ->
  covered (conn st) c -> covered (conn st') c.
Proof.
  intros Hwf Hnd Hstep [Hu|(t & f & Ht & Hf & Hfp & Hk)].
  { left. by eapply unique_level_step. }
  pose proof Hstep as Hcases. apply import_row_cases in Hcases.
  destruct Hcases as [[_ ->]|[(_ & i & Hm & ->)|(_ & _ & _ & ->)]].
  - right. by exists t, f.
  - cbn [conn]. destruct (decide (Tx.id t = i)) as [Hi|Hi].
    + left. unfold unique_level. rewrite !ids_with_set_fingerprint by done.
      pose proof (matched_existing_id_spec st r) as Hspec. cbv zeta in Hspec.
      rewrite Hm in Hspec. destruct Hwf as (H1 & H2 & H3).
      rewrite H1, H2, H3 in Hspec. destruct Hk as (K1 & K2 & K3).
      destruct Hspec as [E|[[_ E]|(_ & _ & E)]];
        pose proof E as E'; apply ids_with_one in E' as (u & Hu & Hku & Hiu);
        assert (t = u) as -> by (apply (nodup_same_id (conn st)); congruence);
        [left; rewrite <- K1, Hku|right; left; rewrite <- K2, Hku
        |right; right; rewrite <- K3, Hku]; by rewrite E.
    + right. exists t, f. split; [by apply elem_of_set_fingerprint_other|done].
  - rewrite conn_register_keys. cbn [conn]. right. exists t, f.
    split; [|done]. apply elem_of_app. by left.
Qed.

Lemma own_step st c st' :
  batch_wf st -> import_row st c = Return st' ->
  _transaction_fingerprint c ∈ seen_fingerprints st \/ covered (conn st') c.
Proof.
  intros Hwf Hstep. pose proof Hstep as Hcases. apply import_row_cases in Hcases.
  destruct Hcases as [[? ->]|[(_ & i & Hm & E)|(_ & _ & _ & ->)]]; [by left| |].
  - right. left. eapply unique_level_step; [done..|].
    apply matched_iff_unique_level; [done|]. by rewrite Hm.
  - right. right. rewrite conn_register_keys. cbn [conn].
    exists (inserted_row c (_transaction_fingerprint c)), (_transaction_fingerprint c).
    split; [apply elem_of_app; right; by apply list_elem_of_singleton|].
    split; [done|]. split; [apply strip_fingerprint|]. apply inserted_row_keys.
Qed.

(** ** Importing a file twice *)

Lemma first_run cs : forall st st',
  batch_wf st -> NoDup (map Tx.id (conn st)) -> import_rows st cs = Return st' ->
  batch_wf st' /\ NoDup (map Tx.id (conn st'))
  /\ (forall c, covered (conn st) c -> covered (conn st') c)
  /\ (forall pre c post, cs = pre ++ c :: post ->
        _transaction_fingerprint c ∈ seen_fingerprints st
        \/ _transaction_fingerprint c ∈ map _transaction_fingerprint pre
        \/ covered (conn st') c).
Proof.
  induction cs as [|r cs IH]; intros st st' Hwf Hnd; simpl.
  - intros [= <-]. split; [done|]. split; [done|]. split; [done|].
    intros [|? ?] ? ? ?; done.
  - destruct (import_row st r) as [st1|] eqn:Hstep; cbn [mbind outcome_bind]; [|done].
    intros Hrest.
    destruct (IH st1 st' (import_row_wf _ _ _ Hwf Hstep) (nodup_step _ _ _ Hnd Hstep) Hrest)
      as (Hwf' & Hnd' & Hcov & Hdec).
    split; [done|]. split; [done|]. split.
    { intros c Hc. apply Hcov. eapply covered_step; [exact Hwf|exact Hnd|exact Hstep|exact Hc]. }
    intros pre c post E. destruct pre as [|r' pre]; simpl in E; injection E as -> ->.
    + destruct (own_step _ _ _ Hwf Hstep) as [?|Hc]; [by left|]. right; right. by apply Hcov.
    + destruct (Hdec pre c post eq_refl) as [Hs|[Hp|Hc]].
      * destruct (seen_step _ _ _ Hstep) as [E|E]; rewrite E in Hs; [by left|].
        apply elem_of_union in Hs as [Hs|Hs]; [|by left].
        apply elem_of_singleton in Hs. right; left. simpl. rewrite Hs. by left.
      * right; left. simpl. by right.
      * by right; right.
Qed.

Lemma forget_set_fingerprint fp i db :
  map forget_fingerprint (set_fingerprint fp i db) = map forget_fingerprint db.
Proof.
  unfold set_fingerprint. rewrite List.map_map. apply List.map_ext.
  intros t. by case_decide.
Qed.

Lemma unique_level_forget db db' c :
  map forget_fingerprint db' = map forget_fingerprint db ->
  unique_level db c -> unique_level db' c.
Proof.
  intros E.
  assert (forall {K} `{EqDecision K} (k : Tx.t -> K) key,
            (forall t, k (forget_fingerprint t) = k t) ->
            ids_with k key db' = ids_with k key db) as Hids.
  { intros K ? k key Hk. unfold ids_with.
    assert (forall l, map Tx.id (List.filter (fun t => bool_decide (k t = key)) l)
                      = map Tx.id (List.filter (fun t => bool_decide (k t = key))
                                     (map forget_fingerprint l))) as Hl.
    { induction l as [|t l IHl]; [done|]. simpl. rewrite Hk.
      case_bool_decide; simpl; by rewrite IHl. }
    by rewrite (Hl db'), (Hl db), E. }
  unfold unique_level. by rewrite !Hids.
Qed.

Lemma second_run cs : forall st,
  batch_wf st ->
  (forall pre c post, cs = pre ++ c :: post ->
     _transaction_fingerprint c ∈ seen_fingerprints st
     \/ _transaction_fingerprint c ∈ map _transaction_fingerprint pre
     \/ unique_level (conn st) c) ->
  exists st',
    import_rows st cs = Return st'
    /\ skipped_duplicates st' = skipped_duplicates st + Z.of_nat (length cs)
    /\ map forget_fingerprint (conn st') = map forget_fingerprint (conn st).
Proof.
  induction cs as [|r cs IH]; intros st Hwf Hdec.
  - exists st. simpl. split; [done|]. split; [lia|done].
  - assert (exists st1, import_row st r = Return st1
                        /\ skipped_duplicates st1 = skipped_duplicates st + 1
                        /\ map forget_fingerprint (conn st1) = map forget_fingerprint (conn st))
      as (st1 & Hstep & Hsk & Hconn).
    { unfold import_row. case_decide as Hs; [by eexists|].
      destruct (Hdec [] r cs eq_refl) as [?|[Hp|Hu]]; [done|by apply elem_of_nil in Hp|].
      apply (matched_iff_unique_level st r Hwf) in Hu as [i Hi]. rewrite Hi.
      eexists. split; [done|]. cbn [conn skipped_duplicates]. split; [done|].
      apply forget_set_fingerprint. }
    destruct (IH st1) as (st' & Hrun & Hsk' & Hconn').
    { by eapply import_row_wf. }
    { intros pre c post E. destruct (Hdec (r :: pre) c post) as [Hs|[Hp|Hu]].
      - by rewrite E.
      - left. destruct (seen_step _ _ _ Hstep) as [E1|E1]; rewrite E1; [done|].
        by apply elem_of_union_r.
      - simpl in Hp. apply elem_of_cons in Hp as [Hp|Hp]; [|by right; left].
        left. rewrite Hp. by eapply seen_after_step.
      - right; right. by eapply unique_level_forget. }
    exists st'. simpl. rewrite Hstep. cbn [mbind outcome_bind].
    split; [done|]. split; [|congruence]. rewrite Hsk', Hsk. lia.
Qed.

(** The fingerprint and the fallback keys read the six stripped fields only. *)
Lemma dedup_key_fingerprint c c' :
  _transaction_dedup_key c = _transaction_dedup_key c' ->
  _transaction_fingerprint c = _transaction_fingerprint c'.
Proof. unfold _transaction_fingerprint. by intros ->. Qed.

Lemma dedup_key_unique_level db c c' :
  _transaction_dedup_key c = _transaction_dedup_key c' ->
  unique_level db c -> unique_level db c'.
Proof.
  unfold _transaction_dedup_key. intros [= E1 E2 E3 E4 E5 E6].
  unfold unique_level, _transaction_fallback_key_with_method, _transaction_fallback_key,
    _transaction_fallback_key_without_amount.
  by rewrite E1, E2, E3, E4, E5.
Qed.

Lemma decomposition_transfer cs : forall cs' pre' c' post',
  Forall2 (fun c c' => _transaction_dedup_key c = _transaction_dedup_key c') cs cs' ->
  cs' = pre' ++ c' :: post' ->
  exists pre c post,
    cs = pre ++ c :: post
    /\ _transaction_dedup_key c = _transaction_dedup_key c'
    /\ map _transaction_fingerprint pre = map _transaction_fingerprint pre'.
Proof.
  intros cs' pre' c' post' HF ->.
  apply Forall2_app_inv_r in HF as (pre & rest & Hpre & Hrest & ->).
  apply Forall2_cons_inv_r in Hrest as (c & post & Hc & Hpost & ->).
  exists pre, c, post. split; [done|]. split; [done|].
  clear -Hpre. induction Hpre as [|x y l l' Hxy _ IH]; [done|].
  simpl. by rewrite IH, (dedup_key_fingerprint _ _ Hxy).
Qed.

Lemma seen_of_elem db t f :
  t ∈ db -> Tx.import_fingerprint t = Some f -> Py.strip f <> ""%string ->
  Py.strip f ∈ seen_of db.
Proof.
  intros Ht Hf Hne. unfold seen_of. apply elem_of_list_to_set, list_elem_of_omap.
  exists t. split; [done|]. rewrite Hf. by rewrite decide_False.
Qed.

Lemma elem_of_seen_of db fp :
  fp ∈ seen_of db -> exists t f, t ∈ db /\ Tx.import_fingerprint t = Some f /\ Py.strip f = fp.
Proof.
  unfold seen_of. intros (t & Ht & Hx)%elem_of_list_to_set%list_elem_of_omap.
  destruct (Tx.import_fingerprint t) as [f|] eqn:Hf; [|done].
  case_decide; [done|]. injection Hx as <-. by exists t, f.
Qed.

Lemma covered_recognized db c :
  covered db c -> _transaction_fingerprint c ∈ seen_of db \/ unique_level db c.
Proof.
  intros [Hu|(t & f & Ht & Hf & Hfp & _)]; [by right|]. left.
  rewrite <- Hfp. apply (seen_of_elem db t f); [done..|].
  rewrite Hfp. apply fingerprint_nonempty.
Qed.

Section Idempotence.
Context `{Runtime}.

(** The drawn identifier does not decide whether a line is kept, and enters
    the field [id] only. *)
Lemma normalize_row_uuid (schema : bool) u1 u2 row o :
  (if schema then _normalize_cleaned_row u1 row else _normalize_tsv_row u1 row) = Return o ->
  exists o',
    (if schema then _normalize_cleaned_row u2 row else _normalize_tsv_row u2 row) = Return o'
    /\ match o, o' with
       | Some c, Some c' => _transaction_dedup_key c = _transaction_dedup_key c'
       | None, None => True
       | _, _ => False
       end.
Proof.
  destruct schema.
  - unfold _normalize_cleaned_row, _parse_amount_to_signed_int.
    case_decide; [intros [= <-]; by eexists|].
    destruct (decimal_to_int (Py.str (get row "amount"))) as [amount| |];
      cbn [mbind outcome_bind]; [|intros [= <-]; by eexists|done].
    case_decide; [intros [= <-]; by eexists|].
    intros [= <-]. by eexists.
  - unfold _normalize_tsv_row, _parse_amount_to_signed_int.
    case_decide; [intros [= <-]; by eexists|].
    destruct (decimal_to_int (Py.remove_commas (Py.or_else (get row "금액") "")))
      as [amount| |]; cbn [mbind outcome_bind]; [|intros [= <-]; by eexists|done].
    case_decide; [intros [= <-]; by eexists|].
    intros [= <-]. by eexists.
Qed.

Lemma normalize_rows_uuid u1 u2 schema rows : forall i j cs,
  normalize_rows u1 schema i rows = Return cs ->
  exists cs',
    normalize_rows u2 schema j rows = Return cs'
    /\ Forall2 (fun c c' => _transaction_dedup_key c = _transaction_dedup_key c') cs cs'.
Proof.
  induction rows as [|row rows IH]; intros i j cs; simpl.
  - intros [= <-]. by exists [].
  - destruct (if schema then _normalize_cleaned_row (u1 i) row else _) as [o|] eqn:Eo;
      cbn [mbind outcome_bind]; [|done].
    destruct (normalize_rows u1 schema (S i) rows) as [others|] eqn:Er;
      cbn [mbind outcome_bind]; [|done].
    intros [= <-].
    destruct (normalize_row_uuid schema (u1 i) (u2 j) row o Eo) as (o' & -> & Hoo).
    destruct (IH (S i) (S j) others Er) as (others' & -> & HF).
    cbn [mbind outcome_bind]. eexists. split; [reflexivity|].
    destruct o, o'; try done. by constructor.
Qed.

(** C1, as amended.  Let a file normalize to the candidates [cs], and let its
    import without month replacement into a table of distinct identifiers
    succeed.  Let every candidate whose fingerprint the table held before this
    import, which is why the import passed it over, still be recognizable
    afterwards: a stored row that carried the fingerprint has the candidate's
    date, amount, description, method and direction; or the fingerprint is
    still stored after the import; or a level of the cascade has exactly one
    candidate for it in the table after the import.  Then importing the same
    file again into the resulting table, again without month replacement and
    whatever identifiers are drawn, succeeds, inserts nothing
    ([imported = 0]), counts every candidate as a skipped duplicate, and
    leaves every stored row as it was but for its fingerprint; in particular
    the number of rows is unchanged.  No condition is left when no candidate
    has its fingerprint in the table before the first import. *)
Theorem import_idempotent (uuid1 uuid2 : nat -> string) (schema : bool)
    (rows : list (gmap string (option string))) (cs : list Row.t)
    (db0 db1 : list Tx.t) (response : ImportResponse) :
  NoDup (map Tx.id db0) ->
  normalize_rows uuid1 schema 0 rows = Return cs ->
  import_transactions uuid1 schema rows false None None db0 = (Return response, db1) ->
  (forall c, c ∈ cs -> _transaction_fingerprint c ∈ seen_of db0 ->
     (exists t f, t ∈ db0 /\ Tx.import_fingerprint t = Some f
                  /\ Py.strip f = _transaction_fingerprint c /\ same_keys t c)
     \/ _transaction_fingerprint c ∈ seen_of db1
     \/ unique_level db1 c) ->
  exists db2,
    import_transactions uuid2 schema rows false None None db1
    = (Return {| imported := 0; skipped := Z.of_nat (length cs); deleted := 0 |}, db2)
    /\ length db2 = length db1
    /\ map forget_fingerprint db2 = map forget_fingerprint db1.
Proof.
  intros Hnd Hcs. unfold import_transactions. rewrite Hcs.
  destruct (normalize_rows_uuid uuid1 uuid2 schema rows 0%nat 0%nat cs Hcs) as (cs' & -> & HF).
  destruct cs as [|c0 cs0] eqn:Ecs; [done|]. rewrite <- Ecs in *.
  cbn [mbind outcome_bind]. unfold reconcile.
  destruct (import_rows (open_batch db0) cs) as [st1|] eqn:Hrun1; [|done].
  intros [= _ <-] Hfresh.
  destruct (first_run cs (open_batch db0) st1 (open_batch_wf db0)) as (_ & _ & Hcov & Hdec);
    [by rewrite conn_open_batch|done|].
  rewrite conn_open_batch, seen_open_batch in *.
  destruct (second_run cs' (open_batch (conn st1)) (open_batch_wf _)) as (st2 & Hrun2 & Hsk & Hconn).
  { intros pre' c' post' E'. rewrite conn_open_batch, seen_open_batch.
    destruct (decomposition_transfer cs cs' pre' c' post' HF E')
      as (pre & c & post & E & Hc & Hpre).
    rewrite <- Hpre, <- (dedup_key_fingerprint _ _ Hc).
    assert (covered (conn st1) c -> _transaction_fingerprint c ∈ seen_of (conn st1)
                                    \/ unique_level (conn st1) c') as Hrec.
    { intros Hcv. destruct (covered_recognized _ _ Hcv) as [?|?]; [by left|right].
      by eapply dedup_key_unique_level. }
    destruct (Hdec pre c post E) as [Hs|[Hp|Hc1]].
    - assert (c ∈ cs) as Hin by (rewrite E; apply elem_of_app; right; by left).
      destruct (Hfresh c Hin Hs) as [(t & f & Ht & Hf & Hfp & Hk)|[Hstill|Hu]].
      + destruct (Hrec (Hcov c ltac:(right; by exists t, f))); [by left|by right; right].
      + by left.
      + right; right. by eapply dedup_key_unique_level.
    - by right; left.
    - destruct (Hrec Hc1); [by left|by right; right]. }
  rewrite conn_open_batch, skipped_open_batch in *.
  assert (length cs' = length cs) as Hlen by (symmetry; by eapply Forall2_length).
  destruct cs' as [|c0' cs0'] eqn:Ecs'; [by rewrite Ecs in Hlen|]. rewrite <- Ecs' in *.
  rewrite Hrun2. exists (conn st2). split; [|split; [|done]].
  - assert (skipped_duplicates st2 = Z.of_nat (length cs)) as -> by lia.
    by replace (Z.of_nat (length cs') - Z.of_nat (length cs)) with 0 by lia.
  - rewrite <- (length_map forget_fingerprint (conn st2)), Hconn. apply length_map.
Qed.

End Idempotence.

Lemma import_idempotent_counterexample :
  exists p q db1 db2,
    edited_and_reimported = [p; q]
    /\ Tx.amount p = "-60000"%string
    /\ Tx.import_fingerprint p = Some (_transaction_fingerprint (mart_candidate "a0"))
    /\ Tx.amount q = "-70000"%string
    /\ normalize_rows (H := plain_runtime) (uuids "c") true 0 [mart_line; snack_60000_line]
       = Return [mart_candidate "c0"; snack_candidate "c1"]
    /\ import_transactions (H := plain_runtime) (uuids "c") true [mart_line; snack_60000_line]
         false None None [p; q]
       = (Return {| imported := 0; skipped := 2; deleted := 0 |}, db1)
    /\ import_transactions (H := plain_runtime) (uuids "d") true [mart_line; snack_60000_line]
         false None None db1
       = (Return {| imported := 1; skipped := 1; deleted := 0 |}, db2)
    /\ length db1 = 2%nat
    /\ length db2 = 3%nat.
Proof.
  eexists _, _, _, _.
  split; [vm_compute; reflexivity|].
  split; [reflexivity|].
  split; [vm_compute; reflexivity|].
  split; [reflexivity|].
  split; [vm_compute; reflexivity|].
  split; [vm_compute; reflexivity|].
  split; [vm_compute; reflexivity|].
  split; reflexivity.
Qed.

Lemma import_idempotent_witness :
  let db1 := (import_transactions (H := plain_runtime) (uuids "c") true [mart_line] false
                None None edited_and_reimported).2 in
  map Tx.amount edited_and_reimported = ["-60000"; "-70000"]%string
  /\ (_transaction_fingerprint (mart_candidate "c0") ∈ seen_of edited_and_reimported)
  /\ (_transaction_fingerprint (mart_candidate "c0") ∈ seen_of db1)
  /\ exists db2,
       import_transactions (H := plain_runtime) (uuids "d") true [mart_line] false None None db1
       = (Return {| imported := 0; skipped := 1; deleted := 0 |}, db2)
       /\ length db2 = 2%nat.
Proof.
  intros db1. split; [vm_compute; reflexivity|].
  assert (_transaction_fingerprint (mart_candidate "c0") ∈ seen_of db1) as Hstill
    by compute_done.
  split; [compute_done|]. split; [exact Hstill|].
  destruct (import_idempotent (H := plain_runtime) (uuids "c") (uuids "d") true
              [mart_line] [mart_candidate "c0"] edited_and_reimported db1
              {| imported := 0; skipped := 1; deleted := 0 |})
    as (db2 & Hrun & Hlen & _).
  - compute_done.
  - vm_compute; reflexivity.
  - vm_compute; reflexivity.
  - intros c Hc _. apply list_elem_of_singleton in Hc. subst c. right; left. exact Hstill.
  - exists db2. split; [exact Hrun|]. rewrite Hlen. vm_compute; reflexivity.
Defined.

(** ** An edit between two imports *)

Lemma ids_with_none {K} `{EqDecision K} (k : Tx.t -> K) key db :
  (forall t, t ∈ db -> k t <> key) -> ids_with k key db = [].
Proof.
  intros Hno. unfold ids_with. induction db as [|t db IH]; [done|]. simpl.
  rewrite bool_decide_eq_false_2 by (apply Hno; by left).
  apply IH. intros u Hu. apply Hno. by right.
Qed.

Lemma single_import_inserted c db0 st :
  reconcile [c] db0 = Return st -> skipped_duplicates st = 0 ->
  (_transaction_fingerprint c ∉ seen_of db0)
  /\ (Row.id c ∉ map Tx.id db0)
  /\ conn st = db0 ++ [inserted_row c (_transaction_fingerprint c)].
Proof.
  unfold reconcile. simpl.
  destruct (import_row (open_batch db0) c) as [st1|] eqn:Hstep; cbn [mbind outcome_bind];
    [|done].
  intros [= <-] Hsk. apply import_row_cases in Hstep.
  rewrite seen_open_batch, conn_open_batch, skipped_open_batch in Hstep.
  destruct Hstep as [[_ ->]|[(_ & i & _ & ->)|(Hfp & _ & Hid & ->)]]; [done|done|].
  by rewrite conn_register_keys.
Qed.

Lemma update_target_other transaction_id direction (db l : list Tx.t) :
  (forall t, t ∈ db -> Tx.id t <> transaction_id) ->
  List.filter (update_target transaction_id direction) (db ++ l)
  = List.filter (update_target transaction_id direction) l
  /\ List.find (update_target transaction_id direction) (db ++ l)
     = List.find (update_target transaction_id direction) l
  /\ forall f, map (fun t => if update_target transaction_id direction t then f t else t)
                 (db ++ l)
               = db ++ map (fun t => if update_target transaction_id direction t then f t else t)
                         l.
Proof.
  intros Hno. induction db as [|t db IH]; [done|]. simpl.
  assert (update_target transaction_id direction t = false) as ->.
  { unfold update_target. rewrite bool_decide_eq_false_2; [done|]. apply Hno. by left. }
  destruct IH as (-> & -> & Hmap); [intros u Hu; apply Hno; by right|].
  split; [done|]. split; [done|]. intros f. by rewrite Hmap.
Qed.

Lemma update_transaction_result direction transaction_id payload db0 rc db2 :
  (forall t, t ∈ db0 -> Tx.id t <> transaction_id) ->
  update_transaction direction transaction_id payload (db0 ++ [rc]) = (Return (), db2) ->
  exists updates x,
    _build_transaction_updates payload direction = Return updates
    /\ Tx.direction rc = Some (direction_str direction)
    /\ db2 = db0 ++ [apply_columns
                       (<["import_fingerprint"%string := _transaction_fingerprint x]> updates)
                       rc].
Proof.
  intros Hno. unfold update_transaction.
  destruct (_build_transaction_updates payload direction) as [updates|]; [|done].
  case_decide; [done|].
  destruct (update_target_other transaction_id direction db0 [rc] Hno)
    as (Hfilter & Hfind & Hmap).
  rewrite Hfind. simpl.
  destruct (update_target transaction_id direction rc) eqn:Ht; [|done].
  unfold _apply_transaction_update.
  rewrite Hfilter, Hmap. simpl. rewrite Ht. simpl.
  intros [= <-]. eexists _, _. split; [done|]. split; [|done].
  unfold update_target in Ht. apply andb_true_iff in Ht as [_ Ht].
  by apply bool_decide_eq_true in Ht.
Qed.

Lemma edited_row_keys payload direction updates x c fp0 :
  _build_transaction_updates payload direction = Return updates ->
  upd_date payload = None ->
  let rc' := apply_columns (<["import_fingerprint"%string := x]> updates) (inserted_row c fp0) in
  (upd_amount payload = None -> upd_method payload = None ->
   stored_key_with_method rc' = _transaction_fallback_key_with_method c)
  /\ (upd_amount payload = None -> stored_key rc' = _transaction_fallback_key c)
  /\ (upd_description payload = None -> upd_method payload = None ->
      stored_key_without_amount rc' = _transaction_fallback_key_without_amount c).
Proof.
  intros Hb Hdate.
  destruct (build_updates_columns _ _ _ Hb) as (Hd & _ & Hde & _ & Hm & Ha & _).
  rewrite Hdate in Hd. simpl in Hd. cbv zeta.
  split; [|split].
  - intros Hamount Hmeth. rewrite Hamount in Ha. rewrite Hmeth in Hm. simpl in Ha, Hm.
    unfold stored_key_with_method, existing_model, fingerprint_input,
      _transaction_fallback_key_with_method, apply_columns.
    cbn [Row.date Row.amount Row.direction Row.method Tx.date Tx.amount Tx.direction
         Tx.method].
    rewrite !lookup_insert_ne by done. by rewrite Hd, Ha, Hm.
  - intros Hamount. rewrite Hamount in Ha. simpl in Ha.
    unfold stored_key, existing_model, fingerprint_input, _transaction_fallback_key,
      apply_columns. cbn [Row.date Row.amount Row.direction Tx.date Tx.amount Tx.direction].
    rewrite !lookup_insert_ne by done. by rewrite Hd, Ha.
  - intros Hdesc Hmeth. rewrite Hdesc in Hde. rewrite Hmeth in Hm. simpl in Hde, Hm.
    unfold stored_key_without_amount, existing_model, fingerprint_input,
      _transaction_fallback_key_without_amount, apply_columns.
    cbn [Row.date Row.description Row.direction Row.method Tx.date Tx.description
         Tx.direction Tx.method].
    rewrite !lookup_insert_ne by done. by rewrite Hd, Hde, Hm.
Qed.

Lemma set_fingerprint_other fp i (db : list Tx.t) :
  (forall t, t ∈ db -> Tx.id t <> i) -> set_fingerprint fp i db = db.
Proof.
  intros Hno. unfold set_fingerprint. induction db as [|t db IH]; [done|]. simpl.
  rewrite decide_False by (apply Hno; by left).
  f_equal. apply IH. intros u Hu. apply Hno. by right.
Qed.

Lemma set_fingerprint_same fp t :
  Tx.import_fingerprint t = Some fp -> set_fingerprint fp (Tx.id t) [t] = [t].
Proof.
  intros Hf. unfold set_fingerprint. simpl. rewrite decide_True by done.
  destruct t. simpl in Hf. by subst.
Qed.

Lemma set_fingerprint_app fp i db1 db2 :
  set_fingerprint fp i (db1 ++ db2) = set_fingerprint fp i db1 ++ set_fingerprint fp i db2.
Proof. apply List.map_app. Qed.

Lemma ids_with_nil {K} `{EqDecision K} (k : Tx.t -> K) key db :
  ids_with k key db = [] -> forall t, t ∈ db -> k t <> key.
Proof.
  unfold ids_with. induction db as [|u db IH]; [by intros _ t ?%elem_of_nil|].
  simpl. case_bool_decide as E; [done|]. intros Hnil t [->|Ht]%elem_of_cons; [done|].
  by apply IH.
Qed.

(** The candidates of a level after one more row: one candidate means that
    the table had none and the row has the key, when the table did not have
    exactly one. *)
Lemma ids_with_snoc_one {K} `{EqDecision K} (k : Tx.t -> K) key db t i :
  length (ids_with k key db) <> 1%nat ->
  ids_with k key (db ++ [t]) = [i] ->
  i = Tx.id t /\ k t = key /\ forall u, u ∈ db -> k u <> key.
Proof.
  intros Hlen. rewrite ids_with_app, ids_with_singleton.
  destruct (ids_with k key db) as [|a [|b l]] eqn:E; [|done|].
  - case_decide as Hk; [|done]. intros [= <-]. split; [done|]. split; [done|].
    by apply ids_with_nil.
  - case_decide; simpl; intros; discriminate.
Qed.

Lemma single_import_unmatched c db0 st :
  reconcile [c] db0 = Return st -> skipped_duplicates st = 0 ->
  length (ids_with stored_key_with_method (_transaction_fallback_key_with_method c) db0) <> 1%nat
  /\ length (ids_with stored_key (_transaction_fallback_key c) db0) <> 1%nat
  /\ length (ids_with stored_key_without_amount
               (_transaction_fallback_key_without_amount c) db0) <> 1%nat.
Proof.
  unfold reconcile. simpl.
  destruct (import_row (open_batch db0) c) as [st1|] eqn:Hstep; cbn [mbind outcome_bind];
    [|done].
  intros [= <-] Hsk. apply import_row_cases in Hstep.
  rewrite skipped_open_batch in Hstep.
  destruct Hstep as [[_ ->]|[(_ & i & _ & ->)|(_ & Hnone & _ & _)]]; [done|done|].
  pose proof (matched_existing_id_spec (open_batch db0) c) as Hspec. cbv zeta in Hspec.
  rewrite Hnone in Hspec. destruct (open_batch_wf db0) as (W1 & W2 & W3).
  by rewrite W1, W2, W3, conn_open_batch in Hspec.
Qed.

Lemma edited_row_id_fingerprint updates x t :
  let t' := apply_columns (<["import_fingerprint"%string := x]> updates) t in
  Tx.id t' = Tx.id t /\ Tx.import_fingerprint t' = Some x.
Proof.
  cbv zeta. split; [done|]. unfold apply_columns. cbn [Tx.import_fingerprint].
  by rewrite lookup_insert_eq.
Qed.

Section EditSurvival.
Context `{Runtime}.

(** C2, as amended.  Let a file of one candidate be imported as a new row, and
    let the row then be edited by identifier.  Importing the original file
    again inserts nothing, counts one skipped duplicate, and changes nothing
    in the table but the fingerprint of the edited row, which becomes that of
    the candidate, exactly when the import still recognizes the edited row:
    the row still carries the fingerprint of the candidate, or it still has
    one of the three fallback keys of the candidate (date, amount, direction
    and method; date, amount and direction; date, description, direction and
    method) and no other stored row has that key.  In every other case the
    second import does not end this way.  An edit that does not set the date
    keeps the first key when it sets neither the amount nor the method, the
    second when it does not set the amount, and the third when it sets
    neither the description nor the method. *)
Theorem edit_survives_reimport (uuid1 uuid2 : nat -> string) (schema : bool)
    (rows : list (gmap string (option string))) (c : Row.t) (db0 db1 db2 : list Tx.t)
    (direction : Direction) (payload : TransactionUpdateRequest) :
  normalize_rows uuid1 schema 0 rows = Return [c] ->
  import_transactions uuid1 schema rows false None None db0
  = (Return {| imported := 1; skipped := 0; deleted := 0 |}, db1) ->
  update_transaction direction (Row.id c) payload db1 = (Return (), db2) ->
  exists t,
    db2 = db0 ++ [t] /\ Tx.id t = Row.id c
    /\ (recognizable db0 t c
        <-> import_transactions uuid2 schema rows false None None db2
            = (Return {| imported := 0; skipped := 1; deleted := 0 |},
               set_fingerprint (_transaction_fingerprint c) (Row.id c) db2))
    /\ (upd_date payload = None ->
        (upd_amount payload = None -> upd_method payload = None ->
         stored_key_with_method t = _transaction_fallback_key_with_method c)
        /\ (upd_amount payload = None -> stored_key t = _transaction_fallback_key c)
        /\ (upd_description payload = None -> upd_method payload = None ->
            stored_key_without_amount t = _transaction_fallback_key_without_amount c)).
Proof.
  intros Hnorm Himp Hupd.
  (* the first import inserted the candidate *)
  unfold import_transactions in Himp. rewrite Hnorm in Himp. cbn [mbind outcome_bind] in Himp.
  destruct (reconcile [c] db0) as [st1|] eqn:Hrec; [|done].
  injection Himp as Hsk _ Hdb1. simpl in Hsk.
  destruct (single_import_inserted c db0 st1 Hrec ltac:(lia)) as (Hfp0 & Hid & Hconn).
  destruct (single_import_unmatched c db0 st1 Hrec ltac:(lia)) as (N1 & N2 & N3).
  rewrite Hconn in Hdb1. subst db1.
  assert (forall t, t ∈ db0 -> Tx.id t <> Row.id c) as Hno.
  { intros t Ht E. apply Hid. rewrite <- E.
    apply list_elem_of_In, in_map, list_elem_of_In. done. }
  (* the edit *)
  destruct (update_transaction_result _ _ _ _ _ _ Hno Hupd) as (updates & x & Hb & Hdir & ->).
  destruct (edited_row_id_fingerprint updates (_transaction_fingerprint x)
              (inserted_row c (_transaction_fingerprint c))) as (Hid' & Hfp').
  pose proof (edited_row_keys payload direction updates (_transaction_fingerprint x) c
                (_transaction_fingerprint c) Hb) as Hkeys. cbv zeta in Hkeys.
  set (t := apply_columns _ _) in *. cbn [Tx.id inserted_row] in Hid'.
  exists t. split; [done|]. split; [done|]. split; [|exact Hkeys].
  (* the second import *)
  unfold import_transactions.
  destruct (normalize_rows_uuid uuid1 uuid2 schema rows 0%nat 0%nat [c] Hnorm)
    as (cs' & -> & HF).
  apply Forall2_cons_inv_l in HF as (c' & rest & Hc & Hrest & ->).
  apply Forall2_nil_inv_l in Hrest as ->.
  cbn [mbind outcome_bind]. unfold reconcile. simpl import_rows.
  rewrite set_fingerprint_app, (set_fingerprint_other _ _ db0 Hno).
  assert (_transaction_fallback_key_with_method c' = _transaction_fallback_key_with_method c
          /\ _transaction_fallback_key c' = _transaction_fallback_key c
          /\ _transaction_fallback_key_without_amount c'
             = _transaction_fallback_key_without_amount c) as (K1 & K2 & K3).
  { pose proof Hc as Hc0. unfold _transaction_dedup_key in Hc0.
    injection Hc0 as E1 E2 E3 E4 E5 E6.
    unfold _transaction_fallback_key_with_method, _transaction_fallback_key,
      _transaction_fallback_key_without_amount. by rewrite E1, E2, E3, E4, E5. }
  (* a stored fingerprint of the candidate is that of the edited row *)
  assert (_transaction_fingerprint c ∈ seen_of (db0 ++ [t]) ->
          Tx.import_fingerprint t = Some (_transaction_fingerprint c)) as Hcarrier.
  { intros Hseen. apply elem_of_seen_of in Hseen as (u & f & Hu & Hf & Hstrip).
    apply elem_of_app in Hu as [Hu|Hu].
    { exfalso. apply Hfp0. rewrite <- Hstrip. apply (seen_of_elem db0 u f); [done..|].
      rewrite Hstrip. apply fingerprint_nonempty. }
    apply list_elem_of_singleton in Hu. subst u.
    rewrite Hfp' in Hf. injection Hf as <-. rewrite strip_fingerprint in Hstrip.
    by rewrite Hfp', Hstrip. }
  (* the levels of the cascade *)
  pose proof (open_batch_wf (db0 ++ [t])) as Hwf.
  pose proof (matched_existing_id_spec (open_batch (db0 ++ [t])) c') as Hspec.
  cbv zeta in Hspec. destruct Hwf as (W1 & W2 & W3).
  rewrite W1, W2, W3, conn_open_batch, K1, K2, K3 in Hspec.
  unfold import_row. rewrite seen_open_batch, <- (dedup_key_fingerprint _ _ Hc).
  case_decide as Hseen.
  - (* the fingerprint is stored: the row is skipped *)
    cbn [mbind outcome_bind]. rewrite conn_open_batch, skipped_open_batch.
    assert (set_fingerprint (_transaction_fingerprint c) (Row.id c) [t] = [t]) as ->.
    { rewrite <- Hid'. apply set_fingerprint_same. by apply Hcarrier. }
    split; [intros _; reflexivity|]. intros _. left. exists (_transaction_fingerprint c).
    split; [by apply Hcarrier|apply strip_fingerprint].
  - destruct (matched_existing_id (open_batch (db0 ++ [t])) c') as [i|].
    + (* a level has exactly one candidate: the edited row *)
      cbn [mbind outcome_bind]. rewrite conn_open_batch, skipped_open_batch.
      cbn [conn skipped_duplicates].
      assert (i = Tx.id t
              /\ (stored_key_with_method t = _transaction_fallback_key_with_method c
                  /\ (forall u, u ∈ db0 ->
                        stored_key_with_method u <> _transaction_fallback_key_with_method c)
                  \/ stored_key t = _transaction_fallback_key c
                     /\ (forall u, u ∈ db0 -> stored_key u <> _transaction_fallback_key c)
                  \/ stored_key_without_amount t = _transaction_fallback_key_without_amount c
                     /\ (forall u, u ∈ db0 ->
                           stored_key_without_amount u
                           <> _transaction_fallback_key_without_amount c))) as [-> Hlevel].
      { destruct Hspec as [E|[[_ E]|(_ & _ & E)]].
        - destruct (ids_with_snoc_one _ _ _ _ _ N1 E) as (-> & ? & ?). auto.
        - destruct (ids_with_snoc_one _ _ _ _ _ N2 E) as (-> & ? & ?). auto.
        - destruct (ids_with_snoc_one _ _ _ _ _ N3 E) as (-> & ? & ?). auto. }
      rewrite Hid', set_fingerprint_app, (set_fingerprint_other _ _ db0 Hno).
      split; [intros _; reflexivity|]. intros _. by right.
    + (* no level has exactly one candidate *)
      destruct Hspec as (M1 & M2 & M3).
      split.
      * intros [(f & Hf & Hstrip)|Hlevel].
        { exfalso. apply Hseen. rewrite <- Hstrip.
          apply (seen_of_elem _ t f); [apply elem_of_app; right; by left|done|].
          rewrite Hstrip. apply fingerprint_nonempty. }
        exfalso.
        destruct Hlevel as [[E Hnone]|[[E Hnone]|[E Hnone]]];
          [apply M1|apply M2|apply M3];
          rewrite ids_with_app, ids_with_singleton, (ids_with_none _ _ _ Hnone),
            decide_True by done; done.
      * unfold insert_transaction. case_decide; cbn [mbind outcome_bind]; [done|].
        rewrite skipped_register_keys, skipped_open_batch. cbn [skipped_duplicates].
        intros E. injection E as E1 E2. lia.
Qed.

End EditSurvival.

Lemma edit_survives_reimport_counterexample :
  (* an edit of the date *)
  (exists s1 s2 s3,
     import_transactions (H := plain_runtime) (uuids "a") true [mart_line] false None None []
     = (Return {| imported := 1; skipped := 0; deleted := 0 |}, s1)
     /\ update_expense_transaction "a0" (set_date "2026-02-16") s1 = (Return (), s2)
     /\ import_transactions (H := plain_runtime) (uuids "b") true [mart_line] false None None s2
        = (Return {| imported := 1; skipped := 0; deleted := 0 |}, s3)
     /\ length s3 = 2%nat)
  (* an edit of the amount, with two other purchases of the day at the same shop *)
  /\ (exists s1 s2 s3,
        import_transactions (H := plain_runtime) (uuids "a") true [mart_line] false None None
          [mart_70000; mart_80000]
        = (Return {| imported := 1; skipped := 0; deleted := 0 |}, s1)
        /\ update_expense_transaction "a0" (set_amount 60000) s1 = (Return (), s2)
        /\ import_transactions (H := plain_runtime) (uuids "b") true [mart_line] false None
             None s2
           = (Return {| imported := 1; skipped := 0; deleted := 0 |}, s3)
        /\ length s3 = 4%nat).
Proof.
  split; eexists _, _, _; (split; [vm_compute; reflexivity|]);
    (split; [vm_compute; reflexivity|]); (split; [vm_compute; reflexivity|]); reflexivity.
Qed.

Lemma edit_survives_reimport_witness :
  let db1 := (import_transactions (H := plain_runtime) (uuids "a") true [mart_line] false
                None None [coffee_morning]).2 in
  let db2 := (update_expense_transaction "a0" (set_amount 60000) db1).2 in
  map Tx.date db2 = ["2026-02-15"; "2026-02-15"]%string
  /\ map Tx.amount db2 = ["-4500"; "-60000"]%string
  /\ import_transactions (H := plain_runtime) (uuids "b") true [mart_line] false None None db2
     = (Return {| imported := 0; skipped := 1; deleted := 0 |},
        set_fingerprint (_transaction_fingerprint (mart_candidate "a0")) "a0" db2).
Proof.
  intros db1 db2. split; [vm_compute; reflexivity|]. split; [vm_compute; reflexivity|].
  destruct (edit_survives_reimport (H := plain_runtime) (uuids "a") (uuids "b") true [mart_line]
              (mart_candidate "a0") [coffee_morning] db1 db2 Expense (set_amount 60000))
    as (t & Hdb2 & _ & Hiff & _); [vm_compute; reflexivity ..|].
  apply Hiff. vm_compute in Hdb2. injection Hdb2 as <-.
  right; right; right. split; [vm_compute; reflexivity|].
  intros u Hu. apply list_elem_of_singleton in Hu. subst u. vm_compute. discriminate.
Defined.

(** ** Transfer pairing *)

Lemma find_some_split {A} (p : A -> bool) (l : list A) x :
  List.find p l = Some x ->
  exists l1 l2, l = l1 ++ x :: l2 /\ p x = true /\ forall y, y ∈ l1 -> p y = false.
Proof.
  induction l as [|a l IH]; [done|]. simpl.
  destruct (p a) eqn:Ea.
  - intros [= ->]. exists [], l. split; [done|]. split; [done|].
    intros y Hy. by apply elem_of_nil in Hy.
  - intros Hf. destruct (IH Hf) as (l1 & l2 & -> & Hx & Hl1).
    exists (a :: l1), l2. split; [done|]. split; [done|].
    intros y [->|Hy]%elem_of_cons; [done|by apply Hl1].
Qed.

Lemma find_none_all {A} (p : A -> bool) (l : list A) :
  List.find p l = None -> forall y, y ∈ l -> p y = false.
Proof.
  intros Hf y Hy. apply list_elem_of_In in Hy. by eapply find_none.
Qed.

Lemma counterpart_eligible (used : gset Z) (taken : list Z) l r :
  (forall x, x ∈ used <-> x ∈ taken) ->
  Ledger.counterpart used l r = true <-> eligible taken l r.
Proof.
  intros Hused. unfold Ledger.counterpart, eligible.
  rewrite !andb_true_iff, negb_true_iff, orb_false_iff, !bool_decide_eq_true,
    !bool_decide_eq_false, Z.leb_le, Hused.
  tauto.
Qed.

Lemma eligible_weaken taken taken' l r :
  (forall x, x ∈ taken' -> x ∈ taken) -> eligible taken l r -> eligible taken' l r.
Proof. intros Hsub (H1 & H2). split; [|done]. intros Hin. apply H1. by apply Hsub. Qed.

Lemma eligible_symmetric l r : eligible [] l r -> eligible [] r l.
Proof.
  intros (_ & H2 & H3 & H4 & H5). repeat split; try done; try lia.
  by intros ?%elem_of_nil.
Qed.

Lemma pair_ids_cons p ps :
  pair_ids (p :: ps) = Ledger.id p.1 :: Ledger.id p.2 :: pair_ids ps.
Proof. done. Qed.

Lemma pair_ids_app ps1 ps2 : pair_ids (ps1 ++ ps2) = pair_ids ps1 ++ pair_ids ps2.
Proof. unfold pair_ids. by rewrite List.map_app, concat_app. Qed.

Lemma elem_of_pair_ids x ps :
  x ∈ pair_ids ps <-> exists p, p ∈ ps /\ (x = Ledger.id p.1 \/ x = Ledger.id p.2).
Proof.
  induction ps as [|q ps IH].
  - split; [by intros ?%elem_of_nil|]. by intros (p & ?%elem_of_nil & _).
  - rewrite pair_ids_cons, !elem_of_cons, IH. split.
    + intros [->|[->|(p & Hp & Hx)]].
      * exists q. split; [by left|by left].
      * exists q. split; [by left|by right].
      * exists p. split; [by right|done].
    + intros (p & [->|Hp]%elem_of_cons & Hx); [tauto|].
      right; right. by exists p.
Qed.

(** The loop, pair by pair. *)
Lemma selected_pairs_spec cands lefts : forall (used : gset Z) (taken : list Z),
  (forall x, x ∈ used <-> x ∈ taken) ->
  let ps := selected_pairs cands lefts used in
  (forall pre l r post, ps = pre ++ (l, r) :: post ->
     l ∈ lefts /\ Ledger._is_internal_transfer (Ledger.content l) = true
     /\ (Ledger.id l ∉ taken ++ pair_ids pre)
     /\ exists c1 c2, cands = c1 ++ r :: c2
        /\ eligible (taken ++ pair_ids pre) l r
        /\ forall r0, r0 ∈ c1 -> ~ eligible (taken ++ pair_ids pre) l r0)
  /\ NoDup (pair_ids ps)
  /\ (forall x, x ∈ pair_ids ps -> x ∉ taken)
  /\ (forall l r, l ∈ lefts -> r ∈ cands ->
        Ledger._is_internal_transfer (Ledger.content l) = true ->
        Ledger.id l ∉ taken ++ pair_ids ps -> Ledger.id r ∉ taken ++ pair_ids ps ->
        ~ eligible [] l r).
Proof.
  induction lefts as [|l0 rest IH]; intros used taken Hused; cbv zeta.
  { simpl. split; [by intros [|? ?] ? ? ? ?|]. split; [constructor|].
    split; [by intros x ?%elem_of_nil|]. by intros l r ?%elem_of_nil. }
  simpl selected_pairs.
  assert (forall ps,
    (forall pre l r post, ps = pre ++ (l, r) :: post ->
       l ∈ rest /\ Ledger._is_internal_transfer (Ledger.content l) = true
       /\ (Ledger.id l ∉ taken ++ pair_ids pre)
       /\ exists c1 c2, cands = c1 ++ r :: c2
          /\ eligible (taken ++ pair_ids pre) l r
          /\ forall r0, r0 ∈ c1 -> ~ eligible (taken ++ pair_ids pre) l r0) ->
    (forall pre l r post, ps = pre ++ (l, r) :: post ->
       l ∈ l0 :: rest /\ Ledger._is_internal_transfer (Ledger.content l) = true
       /\ (Ledger.id l ∉ taken ++ pair_ids pre)
       /\ exists c1 c2, cands = c1 ++ r :: c2
          /\ eligible (taken ++ pair_ids pre) l r
          /\ forall r0, r0 ∈ c1 -> ~ eligible (taken ++ pair_ids pre) l r0)) as Hlift.
  { intros ps Hps pre l r post E. destruct (Hps pre l r post E) as (? & ?).
    split; [by right|done]. }
  destruct (decide (Ledger.id l0 ∈ used)) as [Hin|Hnotin].
  { destruct (IH used taken Hused) as (H1 & H2 & H3 & H4).
    split; [by apply Hlift|]. split; [done|]. split; [done|].
    intros l r [->|Hl]%elem_of_cons Hr Hint Hidl Hidr; [|by eapply H4].
    exfalso. apply Hidl, elem_of_app. left. by apply Hused. }
  destruct (Ledger._is_internal_transfer (Ledger.content l0)) eqn:Hint0; simpl negb; cbv iota.
  2: { destruct (IH used taken Hused) as (H1 & H2 & H3 & H4).
       split; [by apply Hlift|]. split; [done|]. split; [done|].
       intros l r [->|Hl]%elem_of_cons Hr Hint Hidl Hidr; [congruence|by eapply H4]. }
  destruct (List.find (Ledger.counterpart used l0) cands) as [r0|] eqn:Hfind.
  2: { destruct (IH used taken Hused) as (H1 & H2 & H3 & H4).
       split; [by apply Hlift|]. split; [done|]. split; [done|].
       intros l r [->|Hl]%elem_of_cons Hr Hint Hidl Hidr; [|by eapply H4].
       intros Hel. pose proof (find_none_all _ _ Hfind r Hr) as Hc.
       assert (Ledger.counterpart used l0 r = true) as Hc'; [|congruence].
       apply (counterpart_eligible used taken); [done|].
       destruct Hel as (_ & Hrest). split; [|done].
       intros Hin. apply Hidr, elem_of_app. by left. }
  (* a pair is chosen *)
  apply find_some_split in Hfind as (c1 & c2 & Hc & Hr0 & Hc1).
  apply (counterpart_eligible used taken _ _ Hused) in Hr0.
  set (used' := {[Ledger.id l0]} ∪ {[Ledger.id r0]} ∪ used).
  set (taken' := taken ++ [Ledger.id l0; Ledger.id r0]).
  assert (forall x, x ∈ used' <-> x ∈ taken') as Hused'.
  { intros x. unfold used', taken'.
    rewrite !elem_of_union, !elem_of_singleton, elem_of_app, !elem_of_cons, Hused.
    pose proof (not_elem_of_nil x). tauto. }
  destruct (IH used' taken' Hused') as (H1 & H2 & H3 & H4).
  assert (forall pre x, x ∈ taken' ++ pair_ids pre
                        <-> x ∈ taken ++ pair_ids ((l0, r0) :: pre)) as Hmem.
  { intros pre x. unfold taken'. rewrite pair_ids_cons. cbn [fst snd].
    by rewrite <- app_assoc. }
  split; [|split; [|split]].
  - intros pre l r post E. destruct pre as [|p pre]; simpl in E.
    + injection E as <- <- _. split; [by left|]. split; [done|].
      rewrite app_nil_r. split; [intros Hx; apply Hnotin; by apply Hused|].
      exists c1, c2. split; [done|]. split; [done|].
      intros r1 Hr1 Hel. apply (counterpart_eligible used taken _ _ Hused) in Hel.
      rewrite (Hc1 r1 Hr1) in Hel. done.
    + injection E as <- E2.
      destruct (H1 pre l r post E2) as (Hl & Hint & Hidl & d1 & d2 & Hd & Hel & Hfirst).
      split; [by right|]. split; [done|].
      split; [intros Hx; apply Hidl; by apply Hmem|].
      exists d1, d2. split; [done|]. split.
      * eapply eligible_weaken; [|exact Hel]. intros x. apply Hmem.
      * intros r1 Hr1 Hel1. apply (Hfirst r1 Hr1).
        eapply eligible_weaken; [|exact Hel1]. intros x. apply Hmem.
  - rewrite pair_ids_cons. simpl. destruct Hr0 as (Hr_taken & Hne & _).
    apply NoDup_cons. split.
    + intros [Hx|Hx]%elem_of_cons; [congruence|].
      apply (H3 _ Hx). unfold taken'. apply elem_of_app. right. by left.
    + apply NoDup_cons. split; [|done]. intros Hx.
      apply (H3 _ Hx). unfold taken'. apply elem_of_app. right. right. by left.
  - intros x. rewrite pair_ids_cons. simpl. destruct Hr0 as (Hr_taken & _).
    intros [->|[->|Hx]%elem_of_cons]%elem_of_cons.
    + intros Hx. apply Hnotin. by apply Hused.
    + done.
    + intros Hx'. apply (H3 _ Hx). unfold taken'. apply elem_of_app. by left.
  - intros l r [->|Hl]%elem_of_cons Hr Hint Hidl Hidr.
    + exfalso. apply Hidl. rewrite pair_ids_cons. simpl. apply elem_of_app. right. by left.
    + apply (H4 l r Hl Hr Hint).
      * intros Hx. apply Hidl. by apply (Hmem (selected_pairs cands rest used')).
      * intros Hx. apply Hidr. by apply (Hmem (selected_pairs cands rest used')).
Qed.

Lemma elem_of_insert_by_time x t l : x ∈ Ledger.insert_by_time t l <-> x = t \/ x ∈ l.
Proof.
  induction l as [|u l IH]; simpl.
  - by rewrite !elem_of_cons.
  - destruct (Ledger.occurred_at t <=? Ledger.occurred_at u).
    + by rewrite elem_of_cons.
    + rewrite !elem_of_cons, IH. tauto.
Qed.

Lemma elem_of_order_by_occurred_at x l : x ∈ Ledger.order_by_occurred_at l <-> x ∈ l.
Proof.
  unfold Ledger.order_by_occurred_at. induction l as [|t l IH]; [done|]. simpl.
  by rewrite elem_of_insert_by_time, elem_of_cons, IH.
Qed.

Lemma insert_by_time_sorted t l :
  StronglySorted not_later l -> StronglySorted not_later (Ledger.insert_by_time t l).
Proof.
  induction l as [|u l IH]; intros Hl; simpl.
  - by repeat constructor.
  - destruct (Z.leb_spec (Ledger.occurred_at t) (Ledger.occurred_at u)) as [Hle|Hgt].
    + constructor; [done|]. apply StronglySorted_inv in Hl as [_ Hu].
      constructor; [done|].
      eapply List.Forall_impl; [|exact Hu]. unfold not_later. intros; lia.
    + apply StronglySorted_inv in Hl as [Hl Hu]. constructor; [by apply IH|].
      apply Forall_forall. intros x [->|Hx]%elem_of_insert_by_time.
      * unfold not_later. lia.
      * rewrite Forall_forall in Hu. by apply Hu.
Qed.

Lemma order_by_occurred_at_sorted l : StronglySorted not_later (Ledger.order_by_occurred_at l).
Proof.
  unfold Ledger.order_by_occurred_at. induction l as [|t l IH]; simpl; [constructor|].
  by apply insert_by_time_sorted.
Qed.

Lemma elem_of_unmatched_transfers svc t :
  t ∈ Ledger.unmatched_transfers svc
  <-> t ∈ Ledger.view svc /\ Ledger.tx_type t = "transfer"%string
      /\ Ledger.transfer_group_id t = None.
Proof.
  unfold Ledger.unmatched_transfers. rewrite elem_of_order_by_occurred_at.
  rewrite list_elem_of_In, filter_In, <- list_elem_of_In.
  unfold Ledger.ungrouped_transfer. rewrite andb_true_iff, !bool_decide_eq_true. tauto.
Qed.

Lemma in_pair_grouped g t p : in_pair (grouped g t) p = in_pair t p.
Proof. done. Qed.

Lemma find_in_pair_none t ps :
  Ledger.id t ∉ pair_ids ps -> List.find (in_pair t) ps = None.
Proof.
  induction ps as [|p ps IH]; [done|]. rewrite pair_ids_cons. intros Hid. simpl.
  assert (in_pair t p = false) as ->.
  { unfold in_pair. apply orb_false_iff. rewrite !bool_decide_eq_false.
    split; intros E; apply Hid; rewrite E; [by left|right; by left]. }
  apply IH. intros Hx. apply Hid. by do 2 right.
Qed.

Lemma find_in_pair_some t p ps :
  NoDup (pair_ids ps) -> p ∈ ps -> in_pair t p = true -> List.find (in_pair t) ps = Some p.
Proof.
  induction ps as [|q ps IH]; [by intros _ ?%elem_of_nil|].
  rewrite pair_ids_cons. intros [Hq1 [Hq2 Hnd]%NoDup_cons]%NoDup_cons Hp Hin. simpl.
  apply elem_of_cons in Hp as [->|Hp]; [by rewrite Hin|].
  assert (in_pair t q = false) as ->; [|by apply IH].
  apply not_true_is_false. intros Hq.
  assert (Ledger.id t ∈ pair_ids ps) as Hps.
  { apply elem_of_pair_ids. exists p. split; [done|].
    unfold in_pair in Hin. apply orb_true_iff in Hin.
    rewrite !bool_decide_eq_true in Hin. done. }
  unfold in_pair in Hq. apply orb_true_iff in Hq. rewrite !bool_decide_eq_true in Hq.
  destruct Hq as [E|E]; rewrite E in Hps; [|done].
  apply Hq1. by right.
Qed.

Section PairingProps.
Context `{Runtime}.

Lemma pair_loop_selected cands lefts : forall used db,
  Ledger.pair_loop cands lefts used db
  = fold_left (fun db p => Ledger.set_group (group_of p) (Ledger.id p.1) (Ledger.id p.2) db)
      (selected_pairs cands lefts used) db.
Proof.
  induction lefts as [|l rest IH]; intros used db; simpl; [done|].
  case_decide; [apply IH|].
  destruct (Ledger._is_internal_transfer (Ledger.content l)); simpl; [|apply IH].
  destruct (List.find _ cands) as [r|]; simpl; [|apply IH].
  by rewrite IH.
Qed.

Lemma fold_set_group_regroup ps : NoDup (pair_ids ps) -> forall db,
  fold_left (fun db p => Ledger.set_group (group_of p) (Ledger.id p.1) (Ledger.id p.2) db) ps db
  = map (regroup ps) db.
Proof.
  induction ps as [|p ps IH]; intros Hnd db.
  - simpl. unfold regroup. simpl. by rewrite List.map_id.
  - rewrite pair_ids_cons in Hnd. apply NoDup_cons in Hnd as [Hp1 Hnd].
    apply NoDup_cons in Hnd as [Hp2 Hnd].
    simpl. rewrite (IH Hnd). unfold Ledger.set_group. rewrite List.map_map.
    apply List.map_ext. intros t. unfold regroup at 2. simpl.
    change (bool_decide (Ledger.id t = Ledger.id p.1) || bool_decide (Ledger.id t = Ledger.id p.2))
      with (in_pair t p).
    destruct (in_pair t p) eqn:Hin; [|done].
    unfold regroup. rewrite find_in_pair_none; [done|].
    change (Ledger.id (grouped (group_of p) t)) with (Ledger.id t).
    unfold in_pair in Hin. apply orb_true_iff in Hin. rewrite !bool_decide_eq_true in Hin.
    destruct Hin as [E|E]; rewrite E; [|done].
    intros Hx. apply Hp1. by right.
Qed.

End PairingProps.

Section PairingTheorem.
Context `{Runtime}.

(** C7, as amended.  The pairing pass takes as candidates the rows of type
    transfer without a group, in ascending time order, and goes through them
    as left rows in that order.  For a left row that is not yet in a pair and
    whose description contains a keyword of the internal-transfer list, the
    right row is the first candidate (hence itself a transfer row without
    group, not a row of any other type) that is not yet in a pair, is another
    row, has the same currency and the exactly opposite signed amount, and
    lies at most five minutes away; both rows receive the group identifier
    computed from the two identifiers and their review flag is cleared.  No
    row is in two pairs; every row outside the pairs is left as it was, in
    particular a row for which no candidate passes these tests; and the pass
    leaves no keyword row and counterpart behind that are both unpaired. *)
Theorem transfer_pairing (svc : Ledger.LedgerService) :
  NoDup (map Ledger.id (Ledger.view svc)) ->
  let cands := Ledger.unmatched_transfers svc in
  let ps := selected_pairs cands cands ∅ in
  let svc' := Ledger._pair_internal_transfers svc in
  (forall t, t ∈ cands <-> t ∈ Ledger.view svc /\ Ledger.tx_type t = "transfer"%string
                           /\ Ledger.transfer_group_id t = None)
  /\ StronglySorted not_later cands
  /\ Ledger.view svc' = map (regroup ps) (Ledger.view svc)
  /\ Ledger.committed svc' = Ledger.view svc'
  /\ (forall pre l r post, ps = pre ++ (l, r) :: post ->
        l ∈ cands /\ Ledger._is_internal_transfer (Ledger.content l) = true
        /\ (Ledger.id l ∉ pair_ids pre)
        /\ exists c1 c2, cands = c1 ++ r :: c2
           /\ eligible (pair_ids pre) l r
           /\ forall r0, r0 ∈ c1 -> ~ eligible (pair_ids pre) l r0)
  /\ NoDup (pair_ids ps)
  /\ (forall p t, p ∈ ps -> in_pair t p = true -> regroup ps t = grouped (group_of p) t)
  /\ (forall t, Ledger.id t ∉ pair_ids ps -> regroup ps t = t)
  /\ (forall t, t ∈ Ledger.view svc -> (forall u, u ∈ cands -> ~ eligible [] t u) ->
        Ledger.id t ∉ pair_ids ps)
  /\ (forall l r, l ∈ cands -> r ∈ cands ->
        Ledger._is_internal_transfer (Ledger.content l) = true -> eligible [] l r ->
        Ledger.id l ∈ pair_ids ps \/ Ledger.id r ∈ pair_ids ps).
Proof.
  intros Hnd cands ps svc'.
  destruct (selected_pairs_spec cands cands ∅ [])
    as (Hpairs & Hdisj & _ & Hmax); [intros x; set_solver|].
  fold ps in Hpairs, Hdisj, Hmax. cbn [app] in Hpairs, Hmax.
  split; [apply elem_of_unmatched_transfers|].
  split; [apply order_by_occurred_at_sorted|].
  split.
  { unfold svc', Ledger._pair_internal_transfers, Ledger.commit. cbn [Ledger.view].
    rewrite pair_loop_selected. by apply fold_set_group_regroup. }
  split; [done|].
  split; [exact Hpairs|].
  split; [exact Hdisj|].
  split.
  { intros p t Hp Hin. unfold regroup. by rewrite (find_in_pair_some t p ps). }
  split.
  { intros t Ht. unfold regroup. by rewrite find_in_pair_none. }
  split.
  - intros t Ht Hlone Hin.
    apply elem_of_pair_ids in Hin as ([l r] & Hp & Hid). cbn [fst snd] in Hid.
    apply list_elem_of_split in Hp as (pre & post & Hp).
    destruct (Hpairs pre l r post Hp) as (Hl & _ & _ & c1 & c2 & Hc & Hel & _).
    assert (r ∈ cands) as Hr by (rewrite Hc; apply elem_of_app; right; by left).
    assert (eligible [] l r) as Hel0.
    { eapply eligible_weaken; [|exact Hel]. by intros x ?%elem_of_nil. }
    assert (forall u, u ∈ cands -> u ∈ Ledger.view svc) as Hsub.
    { intros u Hu. by apply elem_of_unmatched_transfers in Hu as [? _]. }
    assert (forall (db : list Ledger.transaction) a b,
              NoDup (map Ledger.id db) -> a ∈ db -> b ∈ db -> Ledger.id a = Ledger.id b ->
              a = b) as Hsame.
    { clear. induction db as [|x db IH]; [by intros ? ? _ ?%elem_of_nil|].
      simpl. intros a b [Hx Hdb]%NoDup_cons [->|Ha]%elem_of_cons [->|Hb]%elem_of_cons E;
        try done.
      - exfalso. apply Hx. rewrite E. apply list_elem_of_In, in_map, list_elem_of_In. done.
      - exfalso. apply Hx. rewrite <- E. apply list_elem_of_In, in_map, list_elem_of_In. done.
      - by apply IH. }
    destruct Hid as [E|E].
    + assert (t = l) as -> by (apply (Hsame (Ledger.view svc)); auto).
      by apply (Hlone r).
    + assert (t = r) as -> by (apply (Hsame (Ledger.view svc)); auto).
      apply (Hlone l Hl). by apply eligible_symmetric.
  - intros l r Hl Hr Hint Hel.
    destruct (decide (Ledger.id l ∈ pair_ids ps)) as [?|Hnl]; [by left|].
    destruct (decide (Ledger.id r ∈ pair_ids ps)) as [?|Hnr]; [by right|].
    exfalso. by apply (Hmax l r).
Qed.

End PairingTheorem.

Lemma transfer_pairing_counterexample :
  (* a card payment is another ungrouped row with the same currency, the
     opposite amount and the same minute, and is not paired *)
  eligible [] safebox_in card_payment
  /\ Ledger._is_internal_transfer (Ledger.content safebox_in) = true
  /\ Ledger.view (Ledger._pair_internal_transfers (H := plain_runtime)
                    (service_of [safebox_in; card_payment]))
     = [safebox_in; card_payment]
  /\ Ledger.transfer_group_id safebox_in = None.
Proof.
  split.
  { repeat split; try done. by intros ?%elem_of_nil. }
  split; [vm_compute; reflexivity|].
  split; [vm_compute; reflexivity|reflexivity].
Qed.

Lemma transfer_pairing_witness :
  let svc := service_of [safebox_in; card_payment; safebox_out; lone_transfer] in
  let p := (safebox_in, safebox_out) in
  NoDup (map Ledger.id (Ledger.view svc))
  /\ selected_pairs (Ledger.unmatched_transfers svc) (Ledger.unmatched_transfers svc) ∅ = [p]
  /\ Ledger.view (Ledger._pair_internal_transfers (H := plain_runtime) svc)
     = [grouped (group_of (H := plain_runtime) p) safebox_in; card_payment;
        grouped (group_of (H := plain_runtime) p) safebox_out; lone_transfer].
Proof.
  intros svc p.
  assert (NoDup (map Ledger.id (Ledger.view svc))) as Hnd by compute_done.
  split; [exact Hnd|].
  assert (selected_pairs (Ledger.unmatched_transfers svc) (Ledger.unmatched_transfers svc) ∅
          = [p]) as Hps by (vm_compute; reflexivity).
  split; [exact Hps|].
  destruct (transfer_pairing (H := plain_runtime) svc Hnd) as (_ & _ & Hview & _).
  rewrite Hview, Hps. vm_compute; reflexivity.
Defined.

(** ** Importing a file twice into the ledger *)

Section LedgerIdempotence.
Context `{Runtime}.

Lemma insert_hashes normalized db db' :
  Ledger.insert normalized db = Some db' ->
  map Ledger.row_hash db' = map Ledger.row_hash db ++ [Ledger.row_hash normalized].
Proof.
  unfold Ledger.insert. case_decide; [done|]. intros [= <-]. by rewrite List.map_app.
Qed.

Lemma first_loop rows : forall acc db res db',
  Ledger.import_loop rows acc db = (Return res, db') ->
  (forall h, h ∈ map Ledger.row_hash db -> h ∈ map Ledger.row_hash db')
  /\ (forall row, row ∈ rows ->
        exists o, Ledger._normalize_row row = Return o
                  /\ forall n, o = Some n -> Ledger.row_hash n ∈ map Ledger.row_hash db')
  /\ Ledger.imported res + Ledger.skipped_duplicates res
     = Ledger.imported acc + Ledger.skipped_duplicates acc + kept_lines rows.
Proof.
  unfold kept_lines.
  induction rows as [|row rows IH]; intros acc db res db'; simpl.
  - intros [= <- <-]. split; [done|]. split; [by intros ? ?%elem_of_nil|lia].
  - destruct (Ledger._normalize_row row) as [[n|]|] eqn:En.
    3: { intros E. discriminate E. }
    + destruct (Ledger.insert n db) as [db1|] eqn:Ei; intros Hrun;
        destruct (IH _ _ _ _ Hrun) as (Hsub & Hall & Hcount); cbn in Hcount.
      * apply insert_hashes in Ei.
        assert (forall h, h ∈ map Ledger.row_hash db ++ [Ledger.row_hash n] ->
                          h ∈ map Ledger.row_hash db') as Hsub'
          by (intros h Hh; apply Hsub; by rewrite Ei).
        split; [intros h Hh; apply Hsub', elem_of_app; by left|].
        split; [|simpl length; lia].
        intros r [->|Hr]%elem_of_cons; [|by apply Hall].
        exists (Some n). split; [done|]. intros ? [= <-].
        apply Hsub', elem_of_app. right. by left.
      * split; [done|]. split; [|simpl length; lia].
        intros r [->|Hr]%elem_of_cons; [|by apply Hall].
        exists (Some n). split; [done|]. intros ? [= <-]. apply Hsub.
        unfold Ledger.insert in Ei. by case_decide.
    + intros Hrun. destruct (IH _ _ _ _ Hrun) as (Hsub & Hall & Hcount).
      split; [done|]. split; [|done].
      intros r [->|Hr]%elem_of_cons; [|by apply Hall]. by exists None.
Qed.

Lemma second_loop rows : forall acc db,
  (forall row, row ∈ rows ->
     exists o, Ledger._normalize_row row = Return o
               /\ forall n, o = Some n -> Ledger.row_hash n ∈ map Ledger.row_hash db) ->
  Ledger.import_loop rows acc db
  = (Return {| Ledger.imported := Ledger.imported acc;
               Ledger.skipped_duplicates := Ledger.skipped_duplicates acc + kept_lines rows;
               Ledger.review_required_count := Ledger.review_required_count acc |}, db).
Proof.
  unfold kept_lines.
  induction rows as [|row rows IH]; intros acc db Hall; simpl.
  - destruct acc. cbn. do 3 f_equal. lia.
  - destruct (Hall row ltac:(by left)) as (o & -> & Hn).
    assert (forall r, r ∈ rows ->
              exists o, Ledger._normalize_row r = Return o
                        /\ forall n, o = Some n -> Ledger.row_hash n ∈ map Ledger.row_hash db)
      as Hrest by (intros r Hr; apply Hall; by right).
    destruct o as [n|].
    + unfold Ledger.insert. rewrite decide_True by by apply Hn.
      rewrite IH by done. cbn. do 3 f_equal. simpl length. lia.
    + by rewrite IH.
Qed.

Lemma set_group_hashes g a b db :
  map Ledger.row_hash (Ledger.set_group g a b db) = map Ledger.row_hash db.
Proof.
  unfold Ledger.set_group. rewrite List.map_map. apply List.map_ext.
  intros t. by destruct (_ || _).
Qed.

Lemma pair_loop_hashes cands lefts : forall used db,
  map Ledger.row_hash (Ledger.pair_loop cands lefts used db) = map Ledger.row_hash db.
Proof.
  intros used db. rewrite pair_loop_selected.
  revert db. induction (selected_pairs cands lefts used) as [|p ps IH]; intros db; [done|].
  simpl. by rewrite IH, set_group_hashes.
Qed.

(** Importing a native file a second time into the ledger inserts nothing
    and skips every kept line: [row_hash] is unique and no operation removes
    a row or rewrites its hash. *)
Theorem ledger_import_idempotent (rows : list (gmap string (option string)))
    (svc svc1 : Ledger.LedgerService) (res : Ledger.ImportResult) :
  Ledger.import_tsv rows svc = (Return res, svc1) ->
  exists svc2,
    Ledger.import_tsv rows svc1
    = (Return {| Ledger.imported := 0; Ledger.skipped_duplicates := kept_lines rows;
                 Ledger.review_required_count := 0 |}, svc2)
    /\ kept_lines rows = Ledger.imported res + Ledger.skipped_duplicates res
    /\ length (Ledger.view svc2) = length (Ledger.view svc1).
Proof.
  unfold Ledger.import_tsv.
  destruct (Ledger.import_loop rows _ (Ledger.view svc)) as [[res1|] db1] eqn:Hrun; [|done].
  intros [= <- <-].
  destruct (first_loop _ _ _ _ _ Hrun) as (_ & Hall & Hcount). cbn in Hcount.
  unfold Ledger._pair_internal_transfers. cbn [Ledger.commit Ledger.view Ledger.committed].
  rewrite second_loop.
  - eexists. split; [reflexivity|]. split; [lia|].
    cbn [Ledger.view Ledger.commit Ledger.committed].
    rewrite <- !(length_map Ledger.row_hash), !pair_loop_hashes. done.
  - intros row Hrow. destruct (Hall row Hrow) as (o & Ho & Hn).
    exists o. split; [done|]. intros n ->. rewrite pair_loop_hashes. by apply Hn.
Qed.

End LedgerIdempotence.

(** * Further properties *)

Lemma strip_front_spec p2 p3 n : forall l, (length l <= n)%nat ->
  starts_plain p2 p3 (Py.strip_front p2 p3 l)
  /\ exists k, l = k ++ Py.strip_front p2 p3 l.
Proof.
  induction n as [|n IH]; intros l Hl.
  - destruct l; [|simpl in Hl; lia]. split; [done|by exists []].
  - destruct l as [|a l1]; [split; [done|by exists []]|].
    simpl in Hl. cbn [Py.strip_front].
    destruct (Py.is_space1 a) eqn:E1.
    { destruct (IH l1 ltac:(lia)) as [Hs [k Hk]]. split; [done|].
      exists (a :: k). simpl. by f_equal. }
    destruct l1 as [|b l2]; [split; [done|by exists []]|].
    simpl in Hl.
    destruct (p2 a b) eqn:E2.
    { destruct (IH l2 ltac:(lia)) as [Hs [k Hk]]. split; [done|].
      exists (a :: b :: k). simpl. by do 2 f_equal. }
    destruct l2 as [|c l3]; [split; [done|by exists []]|].
    simpl in Hl.
    destruct (p3 a b c) eqn:E3.
    { destruct (IH l3 ltac:(lia)) as [Hs [k Hk]]. split; [done|].
      exists (a :: b :: c :: k). simpl. by do 3 f_equal. }
    split; [done|by exists []].
Qed.

Lemma strip_front_starts_plain p2 p3 l : starts_plain p2 p3 (Py.strip_front p2 p3 l).
Proof. by apply (strip_front_spec p2 p3 (length l)). Qed.

Lemma strip_front_suffix p2 p3 l : exists k, l = k ++ Py.strip_front p2 p3 l.
Proof. by apply (strip_front_spec p2 p3 (length l)). Qed.

Lemma starts_plain_fixed p2 p3 l : starts_plain p2 p3 l -> Py.strip_front p2 p3 l = l.
Proof.
  destruct l as [|a [|b [|c l]]]; simpl; [done| | |].
  - by intros [-> _].
  - by intros [-> [-> _]].
  - by intros [-> [-> ->]].
Qed.

Lemma starts_plain_prefix p2 p3 l k : starts_plain p2 p3 (l ++ k) -> starts_plain p2 p3 l.
Proof.
  destruct l as [|a [|b [|c l]]]; simpl; [done| | |done].
  - by intros [? _].
  - by intros [? [? _]].
Qed.

Lemma starts_plain_app p2 p3 l k :
  l <> [] ->
  (forall a, p2 a ">"%char = false) ->
  (forall a b, p3 a ">"%char b = false) ->
  (forall a b, p3 a b ">"%char = false) ->
  starts_plain p2 p3 l -> starts_plain p2 p3 (l ++ ">"%char :: k).
Proof.
  intros Hl H2 H3 H3'.
  destruct l as [|a [|b [|c l]]]; simpl; [done| | |done].
  - intros [? _]. split; [done|]. split; [done|]. by destruct k.
  - intros [? [? _]]. done.
Qed.

Lemma list_ascii_of_string_app s1 s2 :
  String.list_ascii_of_string (s1 +:+ s2)
  = String.list_ascii_of_string s1 ++ String.list_ascii_of_string s2.
Proof. induction s1 as [|a s1 IH]; simpl; [done|by rewrite IH]. Qed.

Lemma list_ascii_nil s : String.list_ascii_of_string s = [] -> s = ""%string.
Proof. by destruct s. Qed.

(** [strip] leaves no whitespace at either end ... *)
Lemma stripped_strip s : stripped (Py.strip s).
Proof.
  unfold stripped, Py.strip. rewrite String.list_ascii_of_string_of_list_ascii.
  set (l1 := Py.lstrip (String.list_ascii_of_string s)).
  assert (starts_plain Py.is_space2 Py.is_space3 l1) as H1
    by apply strip_front_starts_plain.
  unfold Py.rstrip.
  set (p2 := fun a b => Py.is_space2 b a). set (p3 := fun a b c => Py.is_space3 c b a).
  destruct (strip_front_suffix p2 p3 (rev l1)) as [k Hk].
  split.
  - apply (starts_plain_prefix _ _ _ (rev k)).
    rewrite <- rev_app_distr, <- Hk, rev_involutive. exact H1.
  - rewrite rev_involutive. apply strip_front_starts_plain.
Qed.

(** ... and changes no text that has none. *)
Lemma strip_stripped s : stripped s -> Py.strip s = s.
Proof.
  intros [H1 H2]. unfold Py.strip, Py.lstrip, Py.rstrip.
  rewrite (starts_plain_fixed _ _ _ H1), (starts_plain_fixed _ _ _ H2), rev_involutive.
  apply String.string_of_list_ascii_of_string.
Qed.

Lemma strip_idempotent s : Py.strip (Py.strip s) = Py.strip s.
Proof. apply strip_stripped, stripped_strip. Qed.

(** Joining two such texts with [>] gives such a text. *)
Ltac space_false :=
  intros; unfold Py.is_space2, Py.is_space3; cbv zeta; change (Py.byte ">") with 62;
  simpl; rewrite ?andb_false_r; reflexivity.

Lemma stripped_joined main sub :
  stripped main -> main <> ""%string -> stripped sub -> sub <> ""%string ->
  stripped (main +:+ ">" +:+ sub).
Proof.
  intros [Hm _] Hmn [_ Hs] Hsn. unfold stripped.
  rewrite !list_ascii_of_string_app. cbn [String.list_ascii_of_string app].
  split.
  - apply starts_plain_app; [|space_false|space_false|space_false|exact Hm].
    intros E. by apply Hmn, list_ascii_nil.
  - rewrite rev_app_distr. simpl rev at 1. rewrite <- app_assoc. simpl.
    apply starts_plain_app; [|space_false|space_false|space_false|exact Hs].
    intros E. apply Hsn, list_ascii_nil. by rewrite <- (rev_involutive _), E.
Qed.

(** ** The major category *)

Lemma contains_gt s :
  Py.contains s ">" = true <-> ">"%char ∈ String.list_ascii_of_string s.
Proof.
  induction s as [|a s IH].
  - simpl. split; [done|by intros ?%elem_of_nil].
  - cbn [Py.contains Py.startswith String.list_ascii_of_string].
    rewrite orb_true_iff, IH, elem_of_cons.
    assert (Py.startswith s "" = true) as -> by by destruct s.
    rewrite andb_true_r. destruct (Ascii.eqb_spec ">" a) as [<-|Hne]; [tauto|].
    split; [intros [?|?]; [done|by right]|intros [?|?]; [done|by right]].
Qed.

Lemma contains_gt_false s :
  Py.contains s ">" = false <-> ">"%char ∉ String.list_ascii_of_string s.
Proof. rewrite <- contains_gt. by destruct (Py.contains s ">"). Qed.

Lemma before_no_gt s : Py.contains (Py.before ">" s) ">" = false.
Proof.
  apply contains_gt_false. induction s as [|a s IH]; simpl; [by intros ?%elem_of_nil|].
  destruct (Ascii.eqb_spec a ">") as [->|Hne]; simpl; [by intros ?%elem_of_nil|].
  intros [E|Hin]%elem_of_cons; [by subst|done].
Qed.

Lemma before_joined main rest :
  Py.contains main ">" = false -> Py.before ">" (main +:+ ">" +:+ rest) = main.
Proof.
  rewrite contains_gt_false. change (">" +:+ rest) with (String ">" rest).
  induction main as [|a main IH]; simpl; [done|].
  intros Hin. destruct (Ascii.eqb_spec a ">") as [->|Hne].
  - exfalso. apply Hin. by left.
  - f_equal. apply IH. intros Hx. apply Hin. by right.
Qed.

Lemma before_whole s : Py.contains s ">" = false -> Py.before ">" s = s.
Proof.
  rewrite contains_gt_false.
  induction s as [|a s IH]; simpl; [done|].
  intros Hin. destruct (Ascii.eqb_spec a ">") as [->|Hne].
  - exfalso. apply Hin. by left.
  - f_equal. apply IH. intros Hx. apply Hin. by right.
Qed.

Lemma elem_of_rev {A} (x : A) l : x ∈ rev l <-> x ∈ l.
Proof. rewrite !list_elem_of_In. symmetry. apply in_rev. Qed.

(** [strip] only removes bytes. *)
Lemma elem_of_strip x s :
  x ∈ String.list_ascii_of_string (Py.strip s) -> x ∈ String.list_ascii_of_string s.
Proof.
  unfold Py.strip, Py.rstrip, Py.lstrip.
  rewrite String.list_ascii_of_string_of_list_ascii.
  set (l := String.list_ascii_of_string s).
  destruct (strip_front_suffix Py.is_space2 Py.is_space3 l) as [k Hk].
  set (l1 := Py.strip_front Py.is_space2 Py.is_space3 l) in *.
  destruct (strip_front_suffix (fun a b => Py.is_space2 b a) (fun a b c => Py.is_space3 c b a)
              (rev l1)) as [k' Hk'].
  intros Hx. rewrite Hk. apply elem_of_app. right.
  apply elem_of_rev. rewrite Hk'. apply elem_of_app. right. by apply elem_of_rev.
Qed.

Lemma strip_no_gt s : Py.contains s ">" = false -> Py.contains (Py.strip s) ">" = false.
Proof. rewrite !contains_gt_false. intros Hs Hx. by apply Hs, elem_of_strip. Qed.

Lemma or_else_some s d : s <> ""%string -> Py.or_else (Some s) d = s.
Proof. intros Hs. unfold Py.or_else. by rewrite decide_False. Qed.

Lemma or_else_blank d : Py.or_else (Some ""%string) d = d.
Proof. done. Qed.

Lemma major_category_cases raw_category :
  let major := Py.strip (Py.before ">" raw_category) in
  (major = ""%string /\ _major_category raw_category = "미분류"%string)
  \/ (major <> ""%string /\ _major_category raw_category = major).
Proof.
  intros major. unfold _major_category. fold major.
  destruct (decide (major = ""%string)) as [E|Hne].
  - left. split; [done|]. by rewrite E.
  - right. split; [done|]. by apply or_else_some.
Qed.

(** X1.  The major category of any category text is never blank, holds no
    [>], has no whitespace at its ends, and is its own major category. *)
Theorem major_category_fixed (raw_category : string) :
  _major_category raw_category <> ""%string
  /\ Py.contains (_major_category raw_category) ">" = false
  /\ Py.strip (_major_category raw_category) = _major_category raw_category
  /\ _major_category (_major_category raw_category) = _major_category raw_category.
Proof.
  destruct (major_category_cases raw_category) as [[_ ->]|[Hne ->]].
  - split; [discriminate|]. split; [vm_compute; reflexivity|].
    split; vm_compute; reflexivity.
  - set (major := Py.strip (Py.before ">" raw_category)) in *.
    assert (Py.contains major ">" = false) as Hgt by apply strip_no_gt, before_no_gt.
    assert (Py.strip major = major) as Hst by apply strip_idempotent.
    split; [exact Hne|]. split; [exact Hgt|]. split; [exact Hst|].
    unfold _major_category. rewrite (before_whole _ Hgt), Hst. by apply or_else_some.
Qed.

Section NativeCategory.
Context `{Runtime}.

Lemma native_raw_category uuid4 row r :
  _normalize_tsv_row uuid4 row = Return (Some r) ->
  Row.raw_category r
  = (let main_category := Py.strip (Py.or_else (get row "대분류") "") in
     let sub_category := Py.strip (Py.or_else (get row "소분류") "") in
     if bool_decide (main_category ≠ ""%string) && bool_decide (sub_category ≠ ""%string)
     then main_category +:+ ">" +:+ sub_category else "미분류"%string).
Proof.
  unfold _normalize_tsv_row, _parse_amount_to_signed_int.
  case_decide; [done|].
  destruct (decimal_to_int _) as [amount| |]; simpl; [|done|done].
  case_decide; [done|]. by intros [= <-].
Qed.

(** X2.  The category text that the native normalizer builds from a main
    and a sub category gives the main category back as its major category,
    when the main category holds no [>]; a row without one of the two is of
    the default category, at both levels. *)
Theorem major_category_of_native_row (uuid4 : string) (row : gmap string (option string))
    (r : Row.t) :
  _normalize_tsv_row uuid4 row = Return (Some r) ->
  let main_category := Py.strip (Py.or_else (get row "대분류") "") in
  let sub_category := Py.strip (Py.or_else (get row "소분류") "") in
  (main_category <> ""%string -> sub_category <> ""%string ->
   Py.contains main_category ">" = false ->
   Row.raw_category r = main_category +:+ ">" +:+ sub_category
   /\ _major_category (Row.raw_category r) = main_category)
  /\ (main_category = ""%string \/ sub_category = ""%string ->
      Row.raw_category r = "미분류"%string
      /\ _major_category (Row.raw_category r) = "미분류"%string).
Proof.
  intros Hn main_category sub_category.
  rewrite (native_raw_category _ _ _ Hn). cbv zeta. fold main_category sub_category.
  split.
  - intros Hm Hs Hgt.
    rewrite !bool_decide_eq_true_2 by done. cbn [andb]. split; [done|].
    unfold _major_category. rewrite (before_joined _ _ Hgt).
    unfold main_category at 1. rewrite strip_idempotent. by apply or_else_some.
  - intros Hblank.
    assert (bool_decide (main_category ≠ ""%string) && bool_decide (sub_category ≠ ""%string)
            = false) as ->.
    { apply andb_false_iff. rewrite !bool_decide_eq_false. destruct Hblank; [left|right]; tauto. }
    split; [done|]. vm_compute. reflexivity.
Qed.

Lemma native_category_not_auto_excluded uuid4 row r :
  _normalize_tsv_row uuid4 row = Return (Some r) ->
  Py.strip (Row.raw_category r) ∉ AUTO_EXCLUDED_CATEGORIES.
Proof.
  intros Hn. rewrite (native_raw_category _ _ _ Hn). cbv zeta.
  set (main_category := Py.strip (Py.or_else (get row "대분류") "")).
  set (sub_category := Py.strip (Py.or_else (get row "소분류") "")).
  destruct (bool_decide_reflect (main_category ≠ ""%string)) as [Hm|_]; cbn [andb].
  1: destruct (bool_decide_reflect (sub_category ≠ ""%string)) as [Hs|_].
  - rewrite strip_stripped by (apply stripped_joined; try done; apply stripped_strip).
    assert (Py.contains (main_category +:+ ">" +:+ sub_category) ">" = true) as Hgt.
    { apply contains_gt. rewrite list_ascii_of_string_app. apply elem_of_app. right. by left. }
    intros Hin. unfold AUTO_EXCLUDED_CATEGORIES in Hin.
    repeat (apply elem_of_cons in Hin as [E|Hin];
            [rewrite E in Hgt; vm_compute in Hgt; discriminate Hgt|]).
    by apply elem_of_nil in Hin.
  - assert (Py.strip "미분류" = "미분류"%string) as -> by (vm_compute; reflexivity).
    intros Hin. unfold AUTO_EXCLUDED_CATEGORIES in Hin.
    repeat (apply elem_of_cons in Hin as [E|Hin]; [discriminate E|]).
    by apply elem_of_nil in Hin.
  - assert (Py.strip "미분류" = "미분류"%string) as -> by (vm_compute; reflexivity).
    intros Hin. unfold AUTO_EXCLUDED_CATEGORIES in Hin.
    repeat (apply elem_of_cons in Hin as [E|Hin]; [discriminate E|]).
    by apply elem_of_nil in Hin.
Qed.

Lemma normalize_rows_native uuid4 rows : forall i cs,
  normalize_rows uuid4 false i rows = Return cs ->
  forall c, c ∈ cs -> exists u row, _normalize_tsv_row u row = Return (Some c).
Proof.
  induction rows as [|row rows IH]; intros i cs; simpl.
  - intros [= <-] c Hc. by apply elem_of_nil in Hc.
  - destruct (_normalize_tsv_row (uuid4 i) row) as [o|] eqn:En; simpl; [|done].
    destruct (normalize_rows uuid4 false (S i) rows) as [others|] eqn:Er; simpl; [|done].
    intros [= <-] c Hc. destruct o as [r|].
    + apply elem_of_cons in Hc as [->|Hc]; [by eauto|by eapply IH].
    + by eapply IH.
Qed.

End NativeCategory.

(** ** What an import leaves in the table *)

Lemma stored_candidate_inserted c fp :
  forget_fingerprint (inserted_row c fp) = stored_candidate c.
Proof. done. Qed.

Lemma import_rows_shape cs : forall st st',
  import_rows st cs = Return st' ->
  exists ins,
    sublist ins cs
    /\ map forget_fingerprint (conn st')
       = map forget_fingerprint (conn st) ++ map stored_candidate ins
    /\ skipped_duplicates st'
       = skipped_duplicates st + Z.of_nat (length cs) - Z.of_nat (length ins).
Proof.
  induction cs as [|c cs IH]; intros st st'; simpl.
  - intros [= <-]. exists []. split; [done|]. rewrite app_nil_r. split; [done|]. simpl. lia.
  - destruct (import_row st c) as [st1|] eqn:Hstep; cbn [mbind outcome_bind]; [|done].
    intros Hrest. destruct (IH _ _ Hrest) as (ins & Hsub & Hconn & Hskip).
    apply import_row_cases in Hstep.
    destruct Hstep as [[_ ->]|[(_ & i & _ & ->)|(_ & _ & _ & ->)]].
    + exists ins. split; [by apply sublist_cons|]. split; [done|]. cbn in Hskip. lia.
    + exists ins. split; [by apply sublist_cons|]. cbn [conn] in Hconn.
      rewrite forget_set_fingerprint in Hconn. split; [done|]. cbn in Hskip. lia.
    + exists (c :: ins). split; [by apply sublist_skip|].
      rewrite conn_register_keys in Hconn. cbn [conn] in Hconn.
      rewrite skipped_register_keys in Hskip. cbn [skipped_duplicates] in Hskip.
      split; [|simpl length; lia].
      rewrite Hconn, List.map_app. simpl. by rewrite <- app_assoc.
Qed.

Section ImportShape.
Context `{Runtime}.

Lemma import_transactions_shape uuid4 schema rows replace_month year month db res db' :
  import_transactions uuid4 schema rows replace_month year month db = (Return res, db') ->
  exists cs db1 ins,
    normalize_rows uuid4 schema 0 rows = Return cs
    /\ (if replace_month
        then exists y m, target_month year month cs = Return (y, m)
                          /\ db1 = delete_month (_month_prefix y m) db
        else db1 = db)
    /\ sublist ins cs
    /\ map forget_fingerprint db' = map forget_fingerprint db1 ++ map stored_candidate ins
    /\ imported res = Z.of_nat (length ins)
    /\ skipped res = Z.of_nat (length cs) - Z.of_nat (length ins)
    /\ deleted res = Z.of_nat (length db) - Z.of_nat (length db1).
Proof.
  unfold import_transactions.
  destruct (normalize_rows uuid4 schema 0 rows) as [cs|] eqn:En; [|done].
  destruct cs as [|c0 cs0]; [done|]. set (cs := c0 :: cs0) in *.
  assert (forall d db1 r,
            match reconcile cs db1 with
            | Return st =>
                (Return {| imported := Z.of_nat (length cs) - skipped_duplicates st;
                           skipped := skipped_duplicates st; deleted := d |}, conn st)
            | Raise e => (Raise e, db1)
            end = (Return r, db') ->
            exists ins, sublist ins cs
              /\ map forget_fingerprint db' = map forget_fingerprint db1 ++ map stored_candidate ins
              /\ imported r = Z.of_nat (length ins)
              /\ skipped r = Z.of_nat (length cs) - Z.of_nat (length ins)
              /\ deleted r = d) as Hloop.
  { intros d db1 r. unfold reconcile.
    destruct (import_rows (open_batch db1) cs) as [st|] eqn:Hrun; [|done].
    intros [= <- <-]. destruct (import_rows_shape _ _ _ Hrun) as (ins & Hsub & Hconn & Hskip).
    rewrite conn_open_batch in Hconn. rewrite skipped_open_batch in Hskip.
    exists ins. cbn [imported skipped deleted].
    split; [done|]. split; [done|].
    unfold cs in Hskip |- *. simpl length in Hskip |- *. split; [lia|]. split; [lia|done]. }
  destruct replace_month; cbn [mbind outcome_bind].
  - destruct (target_month year month cs) as [[y m]|] eqn:Et; cbn [mbind outcome_bind]; [|done].
    cbn [fst snd]. intros Hres.
    destruct (Hloop _ _ _ Hres) as (ins & Hsub & Hconn & Hi & Hs & Hd).
    exists cs, (delete_month (_month_prefix y m) db), ins.
    split; [done|]. split; [by exists y, m|]. by do 4 (split; [done|]).
  - intros Hres. destruct (Hloop _ _ _ Hres) as (ins & Hsub & Hconn & Hi & Hs & Hd).
    exists cs, db, ins. do 6 (split; [done|]). lia.
Qed.

End ImportShape.

Lemma length_delete_month prefix db :
  Z.of_nat (length db) - Z.of_nat (length (delete_month prefix db))
  = Z.of_nat (length (List.filter (fun t => Py.startswith (Tx.date t) prefix) db)).
Proof.
  unfold delete_month. induction db as [|t db IH]; simpl; [done|].
  destruct (Py.startswith (Tx.date t) prefix); simpl length; lia.
Qed.

Lemma elem_of_map_forget t db :
  forget_fingerprint t ∈ map forget_fingerprint db ->
  exists t0, t0 ∈ db /\ forget_fingerprint t0 = forget_fingerprint t.
Proof.
  rewrite list_elem_of_In, in_map_iff. intros (t0 & E & Hin).
  exists t0. by rewrite list_elem_of_In.
Qed.

Section ImportTheorems.
Context `{Runtime}.

(** X3.  An import without month replacement deletes nothing and changes no
    stored field other than fingerprints: the table afterwards is the table
    before, in its order, followed by one new row for each imported
    candidate, in the order of the file; the candidates that are not
    imported are the skipped duplicates. *)
Theorem import_only_appends (uuid4 : nat -> string) (schema : bool)
    (rows : list (gmap string (option string))) (year month : option Z) (db db' : list Tx.t)
    (res : ImportResponse) :
  import_transactions uuid4 schema rows false year month db = (Return res, db') ->
  exists cs ins,
    normalize_rows uuid4 schema 0 rows = Return cs
    /\ sublist ins cs
    /\ map forget_fingerprint db' = map forget_fingerprint db ++ map stored_candidate ins
    /\ imported res = Z.of_nat (length ins)
    /\ skipped res = Z.of_nat (length cs) - Z.of_nat (length ins)
    /\ deleted res = 0
    /\ Z.of_nat (length db') = Z.of_nat (length db) + imported res.
Proof.
  intros Hrun.
  destruct (import_transactions_shape _ _ _ _ _ _ _ _ _ Hrun)
    as (cs & db1 & ins & Hn & -> & Hsub & Hconn & Hi & Hs & Hd).
  exists cs, ins. do 5 (split; [done|]). split; [lia|].
  rewrite Hi, <- (length_map forget_fingerprint db'), Hconn, length_app, !length_map. lia.
Qed.

(** X4.  A month replacement that succeeds leaves in the target month only
    rows of the uploaded file: the stored rows of that month are deleted and
    counted in [deleted], the rows of the other months keep their place and
    every field but the fingerprint, and each row of the target month in the
    table afterwards is the row stored for a candidate of the file. *)
Theorem month_replacement_keeps_file_rows_only (uuid4 : nat -> string) (schema : bool)
    (rows : list (gmap string (option string))) (year month : option Z) (db db' : list Tx.t)
    (res : ImportResponse) :
  import_transactions uuid4 schema rows true year month db = (Return res, db') ->
  exists cs y m ins,
    normalize_rows uuid4 schema 0 rows = Return cs
    /\ target_month year month cs = Return (y, m)
    /\ sublist ins cs
    /\ map forget_fingerprint db'
       = map forget_fingerprint (delete_month (_month_prefix y m) db) ++ map stored_candidate ins
    /\ deleted res
       = Z.of_nat (length (List.filter
                             (fun t => Py.startswith (Tx.date t) (_month_prefix y m)) db))
    /\ imported res = Z.of_nat (length ins)
    /\ forall t, t ∈ db' -> Py.startswith (Tx.date t) (_month_prefix y m) = true ->
         exists c, c ∈ ins /\ forget_fingerprint t = stored_candidate c.
Proof.
  intros Hrun.
  destruct (import_transactions_shape _ _ _ _ _ _ _ _ _ Hrun)
    as (cs & db1 & ins & Hn & (y & m & Ht & ->) & Hsub & Hconn & Hi & Hs & Hd).
  exists cs, y, m, ins. do 4 (split; [done|]).
  split; [by rewrite Hd, length_delete_month|]. split; [done|].
  intros t Ht' Hdate.
  assert (forget_fingerprint t ∈ map forget_fingerprint db') as Hin.
  { apply list_elem_of_In, in_map, list_elem_of_In, Ht'. }
  rewrite Hconn in Hin. apply elem_of_app in Hin as [Hold|Hnew].
  - apply elem_of_map_forget in Hold as (t0 & Ht0 & E).
    unfold delete_month in Ht0. apply list_elem_of_In, filter_In in Ht0 as [_ Hkeep].
    assert (Tx.date t0 = Tx.date t) as Ed by (by injection E).
    rewrite Ed, Hdate in Hkeep. done.
  - apply list_elem_of_In, in_map_iff in Hnew as (c & E & Hc).
    exists c. by rewrite list_elem_of_In.
Qed.

(** X5.  An import of a native file marks no row as excluded: the category
    text it builds is [main>sub] or the default category, never one of the
    four transfer categories that the loop excludes.  Every excluded row
    of the table afterwards was in the table before. *)
Theorem native_import_excludes_nothing (uuid4 : nat -> string)
    (rows : list (gmap string (option string))) (replace_month : bool) (year month : option Z)
    (db db' : list Tx.t) (res : ImportResponse) :
  import_transactions uuid4 false rows replace_month year month db = (Return res, db') ->
  forall t, t ∈ db' -> Tx.is_excluded t <> 0 ->
    exists t0, t0 ∈ db /\ forget_fingerprint t0 = forget_fingerprint t.
Proof.
  intros Hrun t Ht Hx.
  destruct (import_transactions_shape _ _ _ _ _ _ _ _ _ Hrun)
    as (cs & db1 & ins & Hn & Hdb1 & Hsub & Hconn & _).
  assert (forget_fingerprint t ∈ map forget_fingerprint db') as Hin.
  { apply list_elem_of_In, in_map, list_elem_of_In, Ht. }
  rewrite Hconn in Hin. apply elem_of_app in Hin as [Hold|Hnew].
  - apply elem_of_map_forget in Hold as (t0 & Ht0 & E). exists t0. split; [|done].
    destruct replace_month; [|by subst].
    destruct Hdb1 as (y & m & _ & ->). unfold delete_month in Ht0.
    by apply list_elem_of_In, filter_In in Ht0 as [?%list_elem_of_In _].
  - exfalso. apply list_elem_of_In, in_map_iff in Hnew as (c & E & Hc).
    assert (c ∈ cs) as Hc' by (eapply elem_of_sublist; [apply list_elem_of_In, Hc|done]).
    destruct (normalize_rows_native _ _ _ _ Hn c Hc') as (u & row & Hrow).
    pose proof (native_category_not_auto_excluded _ _ _ Hrow) as Hcat.
    apply Hx. assert (Tx.is_excluded t = Tx.is_excluded (stored_candidate c)) as ->
      by (by rewrite E).
    unfold stored_candidate, inserted_row, forget_fingerprint. cbn [Tx.is_excluded].
    by rewrite decide_False.
Qed.

End ImportTheorems.

Lemma import_only_appends_witness :
  let run := import_transactions (H := plain_runtime) (uuids "a") true
               [mart_line; mart_line; snack_60000_line] false None None [lunch] in
  run.1 = Return {| imported := 2; skipped := 1; deleted := 0 |}
  /\ map Tx.id run.2 = ["a1"; "a0"; "a2"]%string
  /\ exists cs ins,
       normalize_rows (H := plain_runtime) (uuids "a") true 0
         [mart_line; mart_line; snack_60000_line] = Return cs
       /\ sublist ins cs
       /\ map forget_fingerprint run.2 = map forget_fingerprint [lunch] ++ map stored_candidate ins
       /\ 2 = Z.of_nat (length ins)
       /\ 1 = Z.of_nat (length cs) - Z.of_nat (length ins)
       /\ 0 = 0
       /\ Z.of_nat (length run.2) = Z.of_nat (length [lunch]) + 2.
Proof.
  intros run. split; [vm_compute; reflexivity|]. split; [vm_compute; reflexivity|].
  apply (import_only_appends (H := plain_runtime) (uuids "a") true
           [mart_line; mart_line; snack_60000_line] None None [lunch] run.2
           {| imported := 2; skipped := 1; deleted := 0 |}).
  vm_compute; reflexivity.
Defined.

Lemma month_replacement_keeps_file_rows_only_witness :
  let file := [mart_line; snack_60000_line] in
  let run := import_transactions (H := plain_runtime) (uuids "r") true file true None None
               [lunch; march_rent] in
  run.1 = Return {| imported := 2; skipped := 0; deleted := 1 |}
  /\ map Tx.id run.2 = ["b1"; "r0"; "r1"]%string
  /\ exists cs y m ins,
       normalize_rows (H := plain_runtime) (uuids "r") true 0 file = Return cs
       /\ target_month (H := plain_runtime) None None cs = Return (y, m)
       /\ sublist ins cs
       /\ map forget_fingerprint run.2
          = map forget_fingerprint (delete_month (_month_prefix y m) [lunch; march_rent])
            ++ map stored_candidate ins
       /\ 1 = Z.of_nat (length (List.filter
                                  (fun t => Py.startswith (Tx.date t) (_month_prefix y m))
                                  [lunch; march_rent]))
       /\ 2 = Z.of_nat (length ins)
       /\ forall t, t ∈ run.2 -> Py.startswith (Tx.date t) (_month_prefix y m) = true ->
            exists c, c ∈ ins /\ forget_fingerprint t = stored_candidate c.
Proof.
  intros file run. split; [vm_compute; reflexivity|]. split; [vm_compute; reflexivity|].
  apply (month_replacement_keeps_file_rows_only (H := plain_runtime) (uuids "r") true file
           None None [lunch; march_rent] run.2
           {| imported := 2; skipped := 0; deleted := 1 |}).
  vm_compute; reflexivity.
Defined.

Lemma native_import_excludes_nothing_witness :
  let run := import_transactions (H := plain_runtime) (uuids "n") false
               [transfer_line; snack_line] false None None [excluded_lunch] in
  run.1 = Return {| imported := 2; skipped := 0; deleted := 0 |}
  /\ map Tx.raw_category run.2
     = [Some "food"; Some "내계좌이체>미분류"; Some "미분류"]%string
  /\ map Tx.is_excluded run.2 = [1; 0; 0]
  /\ forall t, t ∈ run.2 -> Tx.is_excluded t <> 0 ->
       exists t0, t0 ∈ [excluded_lunch] /\ forget_fingerprint t0 = forget_fingerprint t.
Proof.
  intros run. split; [vm_compute; reflexivity|]. split; [vm_compute; reflexivity|].
  split; [vm_compute; reflexivity|].
  apply (native_import_excludes_nothing (H := plain_runtime) (uuids "n")
           [transfer_line; snack_line] false None None [excluded_lunch] run.2
           {| imported := 2; skipped := 0; deleted := 0 |}).
  vm_compute; reflexivity.
Defined.

Lemma major_category_of_native_row_witness :
  exists r,
    _normalize_tsv_row (H := plain_runtime) "u" transfer_line = Return (Some r)
    /\ Row.raw_category r = "내계좌이체>미분류"%string
    /\ _major_category (Row.raw_category r) = "내계좌이체"%string.
Proof.
  eexists. split; [vm_compute; reflexivity|].
  refine (proj1 (major_category_of_native_row (H := plain_runtime) "u" transfer_line _ _) _ _ _);
    vm_compute; reflexivity || discriminate.
Defined.

(** ** Dicts and sorting *)

Lemma sum_app l1 l2 : Py.sum (l1 ++ l2) = Py.sum l1 + Py.sum l2.
Proof. unfold Py.sum. induction l1 as [|x l1 IH]; simpl; lia. Qed.

Lemma sum_perm l1 l2 : l1 ≡ₚ l2 -> Py.sum l1 = Py.sum l2.
Proof. unfold Py.sum. induction 1; simpl; lia. Qed.

Lemma sum_nonneg l : Forall (fun x => 0 <= x) l -> 0 <= Py.sum l.
Proof. unfold Py.sum. induction 1; simpl; lia. Qed.

Lemma insert_desc_perm {A} (key : A -> Z) x l : Py.insert_desc key x l ≡ₚ x :: l.
Proof.
  induction l as [|y l IH]; simpl; [done|].
  destruct (key y <=? key x); [done|]. rewrite IH. apply Permutation_swap.
Qed.

Lemma sorted_desc_perm {A} (key : A -> Z) l : Py.sorted_desc key l ≡ₚ l.
Proof.
  unfold Py.sorted_desc. induction l as [|x l IH]; simpl; [done|].
  by rewrite insert_desc_perm, IH.
Qed.

Lemma insert_desc_sorted {A} (key : A -> Z) x l :
  StronglySorted (fun a b => key b <= key a) l ->
  StronglySorted (fun a b => key b <= key a) (Py.insert_desc key x l).
Proof.
  induction 1 as [|y l Hs IH Hall]; simpl.
  - by repeat constructor.
  - destruct (Z.leb_spec (key y) (key x)) as [Hle|Hgt].
    + constructor; [by constructor|]. constructor; [done|].
      eapply List.Forall_impl; [|exact Hall]. simpl. intros; lia.
    + constructor; [done|].
      rewrite (insert_desc_perm key x l). constructor; [lia|done].
Qed.

Lemma sorted_desc_sorted {A} (key : A -> Z) l :
  StronglySorted (fun a b => key b <= key a) (Py.sorted_desc key l).
Proof.
  unfold Py.sorted_desc. induction l as [|x l IH]; simpl; [constructor|].
  by apply insert_desc_sorted.
Qed.

Lemma dict_add_keys k v d :
  map fst (Py.dict_add k v d) = if decide (k ∈ map fst d) then map fst d else map fst d ++ [k].
Proof.
  induction d as [|[k' v'] d IH]; cbn [Py.dict_add map fst].
  - destruct (decide (k ∈ [])) as [Hin|_]; [by apply elem_of_nil in Hin|done].
  - destruct (decide (k' = k)) as [->|Hne]; cbn [map fst].
    + rewrite decide_True; [done|]. by left.
    + rewrite IH. destruct (decide (k ∈ map fst d)) as [Hin|Hin].
      * rewrite decide_True; [done|]. by right.
      * rewrite decide_False; [done|]. intros [?|?]%elem_of_cons; [congruence|done].
Qed.

Lemma dict_add_nodup k v d : NoDup (map fst d) -> NoDup (map fst (Py.dict_add k v d)).
Proof.
  intros Hnd. rewrite dict_add_keys. case_decide; [done|].
  apply NoDup_app. split; [done|]. split; [|apply NoDup_singleton].
  intros x Hx Hx'. apply list_elem_of_singleton in Hx'. by subst.
Qed.

Lemma dict_add_sum k v d : Py.sum (map snd (Py.dict_add k v d)) = Py.sum (map snd d) + v.
Proof.
  unfold Py.sum. induction d as [|[k' v'] d IH]; simpl; [lia|].
  case_decide; simpl; lia.
Qed.

Lemma value_of_cons c k v d :
  value_of c ((k, v) :: d) = (if decide (k = c) then v else 0) + value_of c d.
Proof.
  unfold value_of. simpl. case_bool_decide; case_decide; try congruence; simpl; [done|lia].
Qed.

Lemma value_of_absent c d : c ∉ map fst d -> value_of c d = 0.
Proof.
  induction d as [|[k v] d IH]; [done|]. simpl. intros Hc.
  rewrite value_of_cons, IH; [|intros Hin; apply Hc; by right].
  rewrite decide_False; [done|]. intros ->. apply Hc. by left.
Qed.

Lemma dict_add_value c k v d :
  value_of c (Py.dict_add k v d) = value_of c d + (if decide (c = k) then v else 0).
Proof.
  induction d as [|[k' v'] d IH]; cbn [Py.dict_add].
  - rewrite value_of_cons. unfold value_of. simpl.
    repeat case_decide; try congruence; unfold Py.sum; simpl; lia.
  - destruct (decide (k' = k)) as [->|Hne].
    + rewrite !value_of_cons. repeat case_decide; try congruence; lia.
    + rewrite !value_of_cons, IH. lia.
Qed.

(** In a dict every key has its value. *)
Lemma elem_of_dict k v d :
  NoDup (map fst d) -> (k, v) ∈ d <-> k ∈ map fst d /\ v = value_of k d.
Proof.
  induction d as [|[k' v'] d IH]; simpl.
  - intros _. split; [by intros ?%elem_of_nil|by intros [?%elem_of_nil _]].
  - intros [Hk' Hnd]%NoDup_cons. rewrite !elem_of_cons, (IH Hnd), value_of_cons.
    destruct (decide (k' = k)) as [->|Hne].
    + rewrite (value_of_absent k d Hk'). split.
      * intros [[= ->]|[Hin _]]; [|done]. split; [by left|lia].
      * intros [_ ->]. left. f_equal. lia.
    + split.
      * intros [[= <- _]|[Hin ->]]; [done|]. split; [by right|lia].
      * intros [[?|Hin] ->]; [congruence|]. right. split; [done|lia].
Qed.

Lemma dict_elem_nodup (d : list (string * Z)) : NoDup (map fst d) -> NoDup d.
Proof.
  induction d as [|[k v] d IH]; simpl; [constructor|].
  intros [Hk Hnd]%NoDup_cons. constructor; [|by apply IH].
  intros Hin. apply Hk. change k with (k, v).1.
  apply list_elem_of_In, in_map, list_elem_of_In, Hin.
Qed.

Lemma dict_append_keys {A} k (x : A) d :
  map fst (Py.dict_append k x d)
  = if decide (k ∈ map fst d) then map fst d else map fst d ++ [k].
Proof.
  induction d as [|[k' l] d IH]; cbn [Py.dict_append map fst].
  - destruct (decide (k ∈ [])) as [Hin|_]; [by apply elem_of_nil in Hin|done].
  - destruct (decide (k' = k)) as [->|Hne]; cbn [map fst].
    + rewrite decide_True; [done|]. by left.
    + rewrite IH. destruct (decide (k ∈ map fst d)) as [Hin|Hin].
      * rewrite decide_True; [done|]. by right.
      * rewrite decide_False; [done|]. intros [?|?]%elem_of_cons; [congruence|done].
Qed.

Lemma dict_append_nodup {A} k (x : A) d :
  NoDup (map fst d) -> NoDup (map fst (Py.dict_append k x d)).
Proof.
  intros Hnd. rewrite dict_append_keys. case_decide; [done|].
  apply NoDup_app. split; [done|]. split; [|apply NoDup_singleton].
  intros y Hy Hy'. apply list_elem_of_singleton in Hy'. by subst.
Qed.

Lemma dict_append_items {A} k (x : A) d :
  concat (map snd (Py.dict_append k x d)) ≡ₚ concat (map snd d) ++ [x].
Proof.
  induction d as [|[k' l] d IH]; simpl; [done|].
  case_decide; simpl.
  - rewrite <- !app_assoc. apply Permutation_app_head, Permutation_app_comm.
  - by rewrite IH, app_assoc.
Qed.

Lemma filter_perm {A} (f : A -> bool) l1 l2 : l1 ≡ₚ l2 -> List.filter f l1 ≡ₚ List.filter f l2.
Proof.
  induction 1 as [|x l1 l2 _ IH|x y l|l1 l2 l3 _ IH1 _ IH2]; simpl.
  - done.
  - destruct (f x); [by constructor|done].
  - destruct (f x), (f y); try done. apply Permutation_swap.
  - by rewrite IH1.
Qed.

Lemma existsb_perm {A} (f : A -> bool) l1 l2 : l1 ≡ₚ l2 -> existsb f l1 = existsb f l2.
Proof.
  induction 1 as [|x l1 l2 _ IH|x y l|l1 l2 l3 _ IH1 _ IH2]; simpl.
  - done.
  - by rewrite IH.
  - by destruct (f x), (f y).
  - by rewrite IH1.
Qed.

Lemma existsb_filter {A} (f g : A -> bool) l :
  existsb f l = false -> existsb f (List.filter g l) = false.
Proof.
  induction l as [|x l IH]; simpl; [done|].
  intros [Hx Hl]%orb_false_iff. destruct (g x); simpl; [by rewrite Hx, IH|by apply IH].
Qed.

Section ReportLoops.
Context `{Runtime}.

Lemma parse_abs t :
  _parse_amount_to_abs_int (Tx.amount t)
  = if overflows t then Raise OverflowError else Return (abs_amount t).
Proof. unfold _parse_amount_to_abs_int, overflows, abs_amount. by destruct (decimal_to_int _). Qed.

Lemma abs_amount_nonneg t a : abs_amount t = Some a -> 0 <= a.
Proof. unfold abs_amount. destruct (decimal_to_int _); intros [= <-]. lia. Qed.

Lemma amounts_cons t rows : amounts (t :: rows) = default 0 (abs_amount t) + amounts rows.
Proof. unfold amounts. simpl. by destruct (abs_amount t). Qed.

Lemma amounts_nil : amounts [] = 0.
Proof. done. Qed.

Lemma amounts_perm rows rows' : rows ≡ₚ rows' -> amounts rows = amounts rows'.
Proof. intros Hp. unfold amounts. apply sum_perm. by rewrite Hp. Qed.

Lemma amounts_nonneg rows : 0 <= amounts rows.
Proof.
  induction rows as [|t rows IH]; [done|]. rewrite amounts_cons.
  destruct (abs_amount t) eqn:E; simpl; [|lia]. apply abs_amount_nonneg in E. lia.
Qed.

(** The loops as folds. *)
Lemma breakdown_loop_fold rows : forall totals,
  breakdown_loop totals rows
  = if existsb overflows rows then Raise OverflowError
    else Return (fold_left (totals_step stored_category) rows totals).
Proof.
  induction rows as [|t rows IH]; intros totals; simpl; [done|].
  rewrite parse_abs. unfold totals_step at 2.
  destruct (overflows t); simpl; [done|].
  destruct (abs_amount t); apply IH.
Qed.

Lemma listing_loop_fold group_level rows : forall grouped,
  listing_loop group_level grouped rows
  = if existsb overflows rows then Raise OverflowError
    else Return (fold_left (listing_step group_level) rows grouped).
Proof.
  induction rows as [|t rows IH]; intros grouped; simpl; [done|].
  rewrite parse_abs. unfold listing_step at 2.
  destruct (overflows t); simpl; [done|].
  destruct (abs_amount t); apply IH.
Qed.

(** The dict of totals after the loop. *)
Lemma totals_fold_nodup category rows : forall totals,
  NoDup (map fst totals) -> NoDup (map fst (fold_left (totals_step category) rows totals)).
Proof.
  induction rows as [|t rows IH]; intros totals Hnd; simpl; [done|].
  apply IH. unfold totals_step. destruct (abs_amount t); [by apply dict_add_nodup|done].
Qed.

Lemma totals_fold_sum category rows : forall totals,
  Py.sum (map snd (fold_left (totals_step category) rows totals))
  = Py.sum (map snd totals) + amounts rows.
Proof.
  induction rows as [|t rows IH]; intros totals; simpl.
  - rewrite amounts_nil. lia.
  - rewrite IH, amounts_cons. unfold totals_step.
    destruct (abs_amount t); simpl; [rewrite dict_add_sum|]; lia.
Qed.

Lemma totals_fold_value category c rows : forall totals,
  value_of c (fold_left (totals_step category) rows totals)
  = value_of c totals + amounts (of_category category c rows).
Proof.
  unfold of_category.
  induction rows as [|t rows IH]; intros totals; simpl.
  - rewrite amounts_nil. lia.
  - rewrite IH. unfold totals_step.
    destruct (abs_amount t) as [a|] eqn:Ea.
    + rewrite dict_add_value. case_bool_decide as E; case_decide; try congruence.
      * rewrite amounts_cons, Ea. simpl. lia.
      * lia.
    + case_bool_decide; [rewrite amounts_cons, Ea; simpl; lia|done].
Qed.

Lemma totals_fold_keys category c rows : forall totals,
  c ∈ map fst (fold_left (totals_step category) rows totals)
  <-> c ∈ map fst totals \/ exists t, t ∈ rows /\ is_Some (abs_amount t) /\ category t = c.
Proof.
  induction rows as [|t rows IH]; intros totals; simpl.
  - split; [by left|]. intros [?|(t & ?%elem_of_nil & _)]; done.
  - rewrite IH. unfold totals_step. destruct (abs_amount t) as [a|] eqn:Ea.
    + rewrite dict_add_keys. split.
      * intros [Hin|(u & Hu & Hs & Hc)].
        -- case_decide; [by left|]. apply elem_of_app in Hin as [?|Hin]; [by left|].
           apply list_elem_of_singleton in Hin. right. exists t. split; [by left|].
           by rewrite Ea.
        -- right. exists u. split; [by right|done].
      * intros [Hin|(u & [->|Hu]%elem_of_cons & Hs & Hc)].
        -- left. case_decide; [done|]. apply elem_of_app. by left.
        -- left. case_decide; [by subst|]. apply elem_of_app. right. subst. by left.
        -- right. by exists u.
    + split.
      * intros [?|(u & Hu & Hs & Hc)]; [by left|]. right. exists u. split; [by right|done].
      * intros [?|(u & [->|Hu]%elem_of_cons & Hs & Hc)]; [by left| |].
        -- rewrite Ea in Hs. by destruct Hs.
        -- right. by exists u.
Qed.

Lemma totals_fold_perm category rows rows' :
  rows ≡ₚ rows' ->
  fold_left (totals_step category) rows [] ≡ₚ fold_left (totals_step category) rows' [].
Proof.
  intros Hp.
  assert (NoDup (map fst (fold_left (totals_step category) rows []))) as Hn1
    by (apply totals_fold_nodup; constructor).
  assert (NoDup (map fst (fold_left (totals_step category) rows' []))) as Hn2
    by (apply totals_fold_nodup; constructor).
  apply NoDup_Permutation; [by apply dict_elem_nodup|by apply dict_elem_nodup|].
  intros [c v]. rewrite !elem_of_dict by done.
  rewrite !totals_fold_keys, !totals_fold_value.
  unfold of_category. rewrite (amounts_perm _ _ (filter_perm _ _ _ Hp)).
  split; intros [[?|(t & Ht & Hs)] ->]; (split; [|done]); try (by left);
    right; exists t; (split; [|done]); [by rewrite <- Hp|by rewrite Hp].
Qed.

(** The groups of a transaction list, seen as totals. *)
Lemma group_totals_append k x grouped :
  group_totals (Py.dict_append k x grouped) = Py.dict_add k (item_amount x) (group_totals grouped).
Proof.
  unfold group_totals. induction grouped as [|[k' l] grouped IH]; simpl.
  - unfold Py.sum. simpl. by rewrite Z.add_0_r.
  - case_decide; simpl; [|by rewrite IH].
    rewrite List.map_app, sum_app. unfold Py.sum at 2. simpl. by rewrite Z.add_0_r.
Qed.

Lemma group_totals_fold group_level rows : forall grouped,
  group_totals (fold_left (listing_step group_level) rows grouped)
  = fold_left (totals_step (fun t => grouping_category group_level (stored_category t))) rows
      (group_totals grouped).
Proof.
  induction rows as [|t rows IH]; intros grouped; simpl; [done|].
  rewrite IH. f_equal. unfold listing_step, totals_step.
  destruct (abs_amount t); [|done]. by rewrite group_totals_append.
Qed.

Lemma listing_fold_items group_level rows : forall grouped,
  concat (map snd (fold_left (listing_step group_level) rows grouped))
  ≡ₚ concat (map snd grouped) ++ items_of rows.
Proof.
  unfold items_of.
  induction rows as [|t rows IH]; intros grouped; simpl; [by rewrite app_nil_r|].
  rewrite IH. unfold listing_step. destruct (abs_amount t); simpl; [|done].
  by rewrite dict_append_items, <- app_assoc.
Qed.

End ReportLoops.

Lemma concat_perm {A} (l1 l2 : list (list A)) : l1 ≡ₚ l2 -> concat l1 ≡ₚ concat l2.
Proof.
  induction 1 as [|x l1 l2 _ IH|x y l|l1 l2 l3 _ IH1 _ IH2]; simpl.
  - done.
  - by rewrite IH.
  - rewrite !app_assoc. apply Permutation_app_tail, Permutation_app_comm.
  - by rewrite IH1.
Qed.

Lemma filter_filter {A} (f g : A -> bool) l :
  List.filter f (List.filter g l) = List.filter (fun x => g x && f x) l.
Proof.
  induction l as [|x l IH]; simpl; [done|].
  destruct (g x); simpl; [|done]. destruct (f x); by rewrite IH.
Qed.

Lemma insert_by_date_perm t l : insert_by_date t l ≡ₚ t :: l.
Proof.
  induction l as [|u l IH]; simpl; [done|].
  destruct (String.leb _ _); [done|]. rewrite IH. apply Permutation_swap.
Qed.

Lemma order_by_date_desc_perm l : order_by_date_desc l ≡ₚ l.
Proof.
  unfold order_by_date_desc. induction l as [|t l IH]; simpl; [done|].
  by rewrite insert_by_date_perm, IH.
Qed.

Lemma stored_category_nonblank t : stored_category t <> ""%string.
Proof.
  unfold stored_category, Py.or_else. case_decide as E; [discriminate|done].
Qed.

Section SummaryClosed.
Context `{Runtime}.

#[local] Arguments summary_step : simpl never.

Ltac same_triple :=
  unfold id; f_equal; apply pair_equal_spec; split; [apply pair_equal_spec; split|]; lia.

Lemma summary_step_closed i e c t :
  summary_step (i, e, c) t
  = if overflows t then Raise OverflowError
    else Return (i + amounts (List.filter (counted_as "income") [t]),
                 e + amounts (List.filter (counted_as "expense") [t]),
                 c + Z.of_nat (length (omap abs_amount [t]))).
Proof.
  unfold summary_step. rewrite parse_abs. destruct (overflows t); [done|].
  cbn [mbind outcome_bind]. unfold amounts. cbn [List.filter].
  unfold counted_as. fold (summary_direction t).
  assert (forall b : bool, Py.sum (omap abs_amount (if b then [t] else []))
                           = if b then default 0 (abs_amount t) else 0) as Hsum.
  { intros [|]; [|done]. simpl. destruct (abs_amount t); unfold Py.sum; simpl; lia. }
  rewrite !Hsum.
  assert (Z.of_nat (length (omap abs_amount [t])) = match abs_amount t with Some _ => 1 | None => 0 end) as ->.
  { simpl. by destruct (abs_amount t). }
  destruct (abs_amount t) as [a|] eqn:Ea; cbn [default].
  - generalize (summary_direction t). intros d. unfold is_income_or_expense.
    destruct (bool_decide_reflect (Tx.is_excluded t ≠ 0)) as [Hx|Hx].
    + rewrite (bool_decide_eq_false_2 (Tx.is_excluded t = 0)) by done.
      rewrite !andb_false_r.
      destruct (bool_decide_reflect (d = "income"%string)) as [->|Hi]; cbn [orb andb].
      { same_triple. }
      destruct (bool_decide_reflect (d = "expense"%string)) as [->|He]; cbn [orb andb].
      { same_triple. }
      rewrite !decide_False by done. same_triple.
    + rewrite (bool_decide_eq_true_2 (Tx.is_excluded t = 0)) by lia.
      rewrite !andb_true_r. cbn [andb].
      destruct (decide (d = "income"%string)) as [->|Hi].
      { rewrite bool_decide_eq_true_2 by done. rewrite bool_decide_eq_false_2 by done.
        same_triple. }
      rewrite (bool_decide_eq_false_2 (d = "income"%string)) by done.
      destruct (decide (d = "expense"%string)) as [->|He].
      { rewrite bool_decide_eq_true_2 by done. same_triple. }
      rewrite bool_decide_eq_false_2 by done. same_triple.
  - repeat case_match; same_triple.
Qed.

Lemma summary_loop_closed rows : forall i e c,
  summary_loop (i, e, c) rows
  = if existsb overflows rows then Raise OverflowError
    else Return (i + amounts (List.filter (counted_as "income") rows),
                 e + amounts (List.filter (counted_as "expense") rows),
                 c + Z.of_nat (length (omap abs_amount rows))).
Proof.
  induction rows as [|t rows IH]; intros i e c.
  - simpl. rewrite amounts_nil. same_triple.
  - cbn [summary_loop existsb]. rewrite summary_step_closed.
    destruct (overflows t); [done|]. cbn [mbind outcome_bind orb]. rewrite IH.
    destruct (existsb overflows rows); [done|].
    change (t :: rows) with ([t] ++ rows).
    rewrite !List.filter_app, omap_app, length_app. unfold amounts.
    rewrite !omap_app, !sum_app. same_triple.
Qed.

End SummaryClosed.

Section ReportTheorems.
Context `{Runtime}.

Lemma summary_direction_stored db t (direction : Direction) :
  directions_as_stored db -> t ∈ db ->
  bool_decide (summary_direction t = direction_str direction)
  = bool_decide (Tx.direction t = Some (direction_str direction)).
Proof.
  intros Hdb Ht. unfold summary_direction.
  destruct (Tx.direction t) as [d|] eqn:Ed.
  - assert (Py.or_else (Some d) "" = d) as ->.
    { unfold Py.or_else. by case_decide. }
    rewrite (Hdb t d Ht Ed). apply bool_decide_ext. split; [by intros ->|by intros [= ->]].
  - rewrite !bool_decide_eq_false_2; [done|done|]. by destruct direction.
Qed.

(** The rows that a report selects, among the rows of the month. *)
Lemma listed_rows_counted db direction prefix :
  directions_as_stored db ->
  List.filter (listed_row direction prefix false) db
  = List.filter (counted_as (direction_str direction))
      (List.filter (fun t => Py.startswith (Tx.date t) prefix) db).
Proof.
  intros Hdb. rewrite filter_filter. apply filter_ext_in. intros t Ht%list_elem_of_In.
  unfold listed_row, counted_as. rewrite (summary_direction_stored db t direction Hdb Ht).
  cbn [orb]. by rewrite andb_assoc.
Qed.

Lemma spending_row_listed prefix t : spending_row prefix t = listed_row Expense prefix false t.
Proof. done. Qed.

(** X6.  The monthly summary does not depend on the order of the rows of
    the table, which the query leaves to the engine. *)
Theorem summary_order_independent (year month : Z) (db db' : list Tx.t) :
  db ≡ₚ db' -> summary year month db = summary year month db'.
Proof.
  intros Hp. unfold summary. rewrite !summary_loop_closed.
  set (rows := List.filter _ db). set (rows' := List.filter _ db').
  assert (rows ≡ₚ rows') as Hr by by apply filter_perm.
  rewrite (existsb_perm _ _ _ Hr).
  rewrite (amounts_perm _ _ (filter_perm (counted_as "income") _ _ Hr)).
  rewrite (amounts_perm _ _ (filter_perm (counted_as "expense") _ _ Hr)).
  assert (length (omap abs_amount rows) = length (omap abs_amount rows')) as ->; [|done].
  apply Permutation_length. by rewrite Hr.
Qed.

(** X7.  The category breakdown of a month adds up to the expense of the
    monthly summary: on a table whose directions are stored in lower case
    without surrounding whitespace, when the summary of the month is [s], the
    breakdown returns items whose amounts sum to [sum_expense s]. *)
Theorem breakdown_adds_up_to_summary (year month : Z) (db : list Tx.t) (s : MonthlySummary) :
  directions_as_stored db ->
  summary year month db = Return s ->
  exists items,
    category_breakdown year month db = Return items
    /\ Py.sum (map breakdown_amount items) = sum_expense s.
Proof.
  intros Hdb. unfold summary, category_breakdown. rewrite summary_loop_closed.
  set (prefix := _month_prefix year month).
  destruct (existsb overflows _) eqn:Hov; [done|]. cbn [mbind outcome_bind].
  intros [= <-]. cbn [sum_expense].
  rewrite (filter_ext _ _ (spending_row_listed prefix)), (listed_rows_counted db Expense _ Hdb).
  rewrite breakdown_loop_fold, (existsb_filter _ _ _ Hov). cbn [mbind outcome_bind].
  eexists. split; [reflexivity|].
  rewrite List.map_map. cbn [breakdown_amount].
  change (map (fun x : string * Z => x.2)) with (map (@snd string Z)).
  rewrite (sum_perm _ _ (Permutation_map _ (sorted_desc_perm _ _))).
  rewrite totals_fold_sum. done.
Qed.

(** X8.  The transaction list of a direction, without the excluded rows
    and at either grouping level, adds up to the total of that direction in
    the monthly summary. *)
Theorem listing_adds_up_to_summary (order_by : list Tx.t -> list Tx.t) (direction : Direction)
    (year month : Z) (group_level : string) (db : list Tx.t) (s : MonthlySummary) :
  (forall l, order_by l ≡ₚ l) ->
  directions_as_stored db ->
  summary year month db = Return s ->
  exists groups,
    transactions_by_category order_by direction year month group_level false db = Return groups
    /\ Py.sum (map group_total_amount groups)
       = match direction with
         | Income => sum_income s
         | Expense => sum_expense s
         end.
Proof.
  intros Hob Hdb. unfold summary, transactions_by_category. rewrite summary_loop_closed.
  set (prefix := _month_prefix year month).
  destruct (existsb overflows _) eqn:Hov; [done|]. cbn [mbind outcome_bind].
  intros [= <-]. cbn [sum_expense sum_income].
  rewrite (listed_rows_counted db direction _ Hdb).
  set (rows := List.filter (counted_as _) _).
  rewrite listing_loop_fold, (existsb_perm _ _ _ (Hob rows)).
  unfold rows at 1. rewrite (existsb_filter _ _ _ Hov). cbn [mbind outcome_bind].
  eexists. split; [reflexivity|].
  rewrite (sum_perm _ _ (Permutation_map _ (sorted_desc_perm _ _))).
  rewrite List.map_map.
  transitivity (amounts rows); [|by destruct direction].
  set (g := fold_left _ _ _).
  assert (map (fun x => group_total_amount (category_transactions x)) g
          = map snd (group_totals g)) as ->.
  { unfold group_totals. rewrite List.map_map. done. }
  unfold g. rewrite group_totals_fold, totals_fold_sum. cbn.
  by rewrite (amounts_perm _ _ (Hob rows)).
Qed.

End ReportTheorems.

Lemma fold_left_ext {A B} (f g : A -> B -> A) l : forall a,
  (forall a b, f a b = g a b) -> fold_left f l a = fold_left g l a.
Proof. induction l as [|b l IH]; intros a Hfg; simpl; [done|]. rewrite Hfg. by apply IH. Qed.

Lemma map_pair_eta {A B} (l : list (A * B)) : map (fun x => (x.1, x.2)) l = l.
Proof. induction l as [|[a b] l IH]; simpl; [done|]. by rewrite IH. Qed.

Lemma elem_of_dict_append {A} k (x : A) d e :
  e ∈ Py.dict_append k x d ->
  e ∈ d \/ (e.1 = k /\ exists l, e.2 = l ++ [x] /\ (l = [] \/ (k, l) ∈ d)).
Proof.
  induction d as [|[k' l'] d IH]; cbn [Py.dict_append].
  - intros He%list_elem_of_singleton. subst e. right. split; [done|]. exists [].
    split; [done|by left].
  - case_decide as E.
    + subst k'. intros [->|Hin]%elem_of_cons.
      * right. split; [done|]. exists l'. split; [done|]. right. by left.
      * left. by right.
    + intros [->|Hin]%elem_of_cons; [left; by left|].
      destruct (IH Hin) as [?|(? & l & ? & [?|?])].
      * left. by right.
      * right. split; [done|]. exists l. split; [done|by left].
      * right. split; [done|]. exists l. split; [done|]. right. by right.
Qed.

Section ReportShape.
Context `{Runtime}.

Lemma listing_fold_groups group_level rows : forall grouped,
  (forall e, e ∈ grouped ->
     e.2 <> [] /\ forall item, item ∈ e.2 ->
                    grouping_category group_level (item_category item) = e.1) ->
  forall e, e ∈ fold_left (listing_step group_level) rows grouped ->
    e.2 <> [] /\ forall item, item ∈ e.2 ->
                   grouping_category group_level (item_category item) = e.1.
Proof.
  induction rows as [|t rows IH]; intros grouped Hok; simpl; [done|].
  apply IH. unfold listing_step. destruct (abs_amount t) as [a|]; [|done].
  intros e [Hin|(Hk & l & Hl & Hprev)]%elem_of_dict_append; [by apply Hok|].
  rewrite Hl, Hk. split; [by destruct l|].
  intros item [Hitem|Hitem]%elem_of_app;
    [|apply list_elem_of_singleton in Hitem; by subst item].
  destruct Hprev as [->|Hprev]; [by apply elem_of_nil in Hitem|].
  by apply (Hok _ Hprev).
Qed.

Lemma listing_fold_nodup group_level rows : forall grouped,
  NoDup (map fst grouped) ->
  NoDup (map fst (fold_left (listing_step group_level) rows grouped)).
Proof.
  induction rows as [|t rows IH]; intros grouped Hnd; simpl; [done|].
  apply IH. unfold listing_step. destruct (abs_amount t); [by apply dict_append_nodup|done].
Qed.

(** X9.  The transaction list of the expenses, with the full categories
    and without the excluded rows, shows for each category the amount that
    the category breakdown shows: the two reports hold the same categories
    with the same totals. *)
Theorem listing_matches_breakdown (order_by : list Tx.t -> list Tx.t) (year month : Z)
    (group_level : string) (db : list Tx.t) (items : list CategoryBreakdownItem) :
  (forall l, order_by l ≡ₚ l) ->
  group_level <> "major"%string ->
  category_breakdown year month db = Return items ->
  exists groups,
    expense_transactions order_by year month group_level false db = Return groups
    /\ map (fun g => (group_category g, group_total_amount g)) groups
       ≡ₚ map (fun item => (breakdown_category item, breakdown_amount item)) items.
Proof.
  intros Hob Hlevel.
  unfold category_breakdown, expense_transactions, transactions_by_category.
  set (prefix := _month_prefix year month).
  change (List.filter (listed_row Expense prefix false) db)
    with (List.filter (spending_row prefix) db).
  set (rows := List.filter (spending_row prefix) db).
  rewrite breakdown_loop_fold, listing_loop_fold, (existsb_perm _ _ _ (Hob rows)).
  destruct (existsb overflows rows); [done|]. cbn [mbind outcome_bind].
  intros [= <-]. eexists. split; [reflexivity|].
  rewrite (Permutation_map _ (sorted_desc_perm _ _)), List.map_map.
  change (map (fun x => (group_category (category_transactions x),
                         group_total_amount (category_transactions x))))
    with group_totals.
  rewrite group_totals_fold. cbn [group_totals map].
  rewrite (fold_left_ext _ (totals_step stored_category)).
  2: { intros totals t. unfold totals_step, grouping_category. by rewrite decide_False. }
  rewrite (totals_fold_perm _ _ _ (Hob rows)).
  rewrite List.map_map. cbn [breakdown_category breakdown_amount].
  by rewrite map_pair_eta, sorted_desc_perm.
Qed.

(** X10.  The category breakdown holds each category once, in descending
    order of amount: a category is listed exactly when a spending row of the
    month with an amount has it, none is blank, and its amount is the sum over
    these rows, which is not negative. *)
Theorem category_breakdown_sorted (year month : Z) (db : list Tx.t)
    (items : list CategoryBreakdownItem) :
  category_breakdown year month db = Return items ->
  let rows := List.filter (spending_row (_month_prefix year month)) db in
  StronglySorted (fun a b => breakdown_amount b <= breakdown_amount a) items
  /\ NoDup (map breakdown_category items)
  /\ (forall c, c ∈ map breakdown_category items
                <-> exists t, t ∈ rows /\ is_Some (abs_amount t) /\ stored_category t = c)
  /\ (forall item, item ∈ items ->
        breakdown_category item <> ""%string
        /\ 0 <= breakdown_amount item
        /\ breakdown_amount item
           = amounts (of_category stored_category (breakdown_category item) rows)).
Proof.
  intros Hrun rows. unfold category_breakdown in Hrun. cbv zeta in Hrun. fold rows in Hrun.
  rewrite breakdown_loop_fold in Hrun.
  destruct (existsb overflows rows); [done|]. cbn [mbind outcome_bind] in Hrun.
  injection Hrun as <-.
  set (totals := fold_left (totals_step stored_category) rows []).
  assert (NoDup (map fst totals)) as Hnd by (apply totals_fold_nodup; constructor).
  assert (forall c, c ∈ map fst totals
                    <-> exists t, t ∈ rows /\ is_Some (abs_amount t) /\ stored_category t = c)
    as Hkeys.
  { intros c. unfold totals. rewrite totals_fold_keys. split; [|by right].
    intros [?%elem_of_nil|?]; done. }
  assert (map fst (Py.sorted_desc snd totals) ≡ₚ map fst totals) as Hperm
    by apply Permutation_map, sorted_desc_perm.
  split.
  { apply (StronglySorted_fmap _ (fun a b : string * Z => b.2 <= a.2)); [done|].
    apply sorted_desc_sorted. }
  rewrite List.map_map. cbn [breakdown_category].
  change (map (fun x : string * Z => x.1)) with (map (@fst string Z)).
  split; [by rewrite Hperm|].
  split; [intros c; by rewrite Hperm|].
  intros item Hitem. apply list_elem_of_In, in_map_iff in Hitem as ([c v] & <- & Hin).
  cbn [breakdown_category breakdown_amount fst snd].
  apply list_elem_of_In in Hin. rewrite sorted_desc_perm in Hin.
  apply elem_of_dict in Hin as [Hc ->]; [|done].
  unfold totals. rewrite totals_fold_value.
  assert (value_of c [] = 0) as -> by done.
  split.
  { apply Hkeys in Hc as (t & _ & _ & <-). apply stored_category_nonblank. }
  split; [|lia]. pose proof (amounts_nonneg (of_category stored_category c rows)). lia.
Qed.

(** X11.  The groups of a transaction list: each category is one group,
    the groups are in descending order of their total, every row of the month
    and direction that has an amount is an item of exactly one group, the one
    of its category at the grouping level, and a group states the number and
    the sum of its items.  Unless asked for, no item is excluded. *)
Theorem transaction_list_groups (order_by : list Tx.t -> list Tx.t) (direction : Direction)
    (year month : Z) (group_level : string) (include_excluded : bool) (db : list Tx.t)
    (groups : list CategoryTransactions) :
  (forall l, order_by l ≡ₚ l) ->
  transactions_by_category order_by direction year month group_level include_excluded db
  = Return groups ->
  let rows := List.filter (listed_row direction (_month_prefix year month) include_excluded) db in
  StronglySorted (fun a b => group_total_amount b <= group_total_amount a) groups
  /\ NoDup (map group_category groups)
  /\ concat (map group_items groups) ≡ₚ items_of rows
  /\ (forall g, g ∈ groups ->
        group_items g <> []
        /\ group_count g = Z.of_nat (length (group_items g))
        /\ group_total_amount g = Py.sum (map item_amount (group_items g))
        /\ forall item, item ∈ group_items g ->
             grouping_category group_level (item_category item) = group_category g
             /\ (include_excluded = false -> item_excluded item = false)).
Proof.
  intros Hob Hrun rows. unfold transactions_by_category in Hrun. cbv zeta in Hrun.
  fold rows in Hrun. rewrite listing_loop_fold in Hrun.
  destruct (existsb overflows (order_by rows)); [done|]. cbn [mbind outcome_bind] in Hrun.
  injection Hrun as <-.
  set (grouped := fold_left (listing_step group_level) (order_by rows) []).
  assert (NoDup (map fst grouped)) as Hnd by (apply listing_fold_nodup; constructor).
  assert (concat (map snd grouped) ≡ₚ items_of rows) as Hitems.
  { unfold grouped. rewrite listing_fold_items. cbn [map concat app].
    unfold items_of. by rewrite (Hob rows). }
  pose proof (sorted_desc_perm group_total_amount (map category_transactions grouped)) as Hperm.
  split; [apply sorted_desc_sorted|].
  split.
  { rewrite (Permutation_map group_category Hperm), List.map_map. exact Hnd. }
  split.
  { rewrite (concat_perm _ _ (Permutation_map group_items Hperm)), List.map_map.
    exact Hitems. }
  intros g Hg. rewrite Hperm in Hg.
  apply list_elem_of_In, in_map_iff in Hg as ([c l] & <- & Hin).
  apply list_elem_of_In in Hin. cbn [category_transactions group_items group_count
    group_total_amount group_category fst snd].
  destruct (listing_fold_groups group_level (order_by rows) [] ltac:(by intros ? ?%elem_of_nil)
              _ Hin) as [Hne Hcat].
  split; [exact Hne|]. split; [done|]. split; [done|].
  intros item Hitem. split; [by apply Hcat|].
  intros ->.
  assert (item ∈ items_of rows) as Hrow.
  { rewrite <- Hitems. apply list_elem_of_In, in_concat. exists l.
    split; [|by apply list_elem_of_In].
    change l with (c, l).2. by apply in_map, list_elem_of_In. }
  unfold items_of in Hrow. apply list_elem_of_omap in Hrow as (t & Ht & Hit).
  destruct (abs_amount t) as [a|]; [|done]. injection Hit as <-. cbn [item_of item_excluded].
  unfold rows in Ht. apply list_elem_of_In, filter_In in Ht as [_ Hl].
  unfold listed_row in Hl. cbn [orb] in Hl.
  apply andb_true_iff in Hl as [_ Hx%bool_decide_eq_true].
  apply bool_decide_eq_false_2. intros Hn. by apply Hn.
Qed.

End ReportShape.

Section TrendLoops.
Context `{Runtime}.

Lemma trend_loop_fold group_level rows : forall tc tmc,
  trend_loop group_level tc tmc rows
  = if existsb overflows rows then Raise OverflowError
    else Return (fold_left (trend_step group_level) rows (tc, tmc)).
Proof.
  induction rows as [|t rows IH]; intros tc tmc; simpl; [done|].
  rewrite parse_abs. unfold trend_step at 2. fold (month_of t).
  destruct (overflows t); simpl; [done|].
  destruct (abs_amount t); [|apply IH]. destruct (month_of t); apply IH.
Qed.

(** The ranking counts the rows that have a month, whatever the month. *)
Lemma trend_fold_categories group_level rows : forall totals,
  (fold_left (trend_step group_level) rows totals).1
  = fold_left (totals_step (fun t => grouping_category group_level (stored_category t)))
      (List.filter (fun t => bool_decide (is_Some (month_of t))) rows) totals.1.
Proof.
  induction rows as [|t rows IH]; intros totals; [done|].
  cbn [fold_left List.filter]. rewrite IH. unfold trend_step, totals_step.
  destruct (month_of t) as [m|].
  - rewrite bool_decide_eq_true_2 by done. cbn [fold_left]. by destruct (abs_amount t).
  - rewrite bool_decide_eq_false_2 by (by intros [? ?]). by destruct (abs_amount t).
Qed.

Lemma trend_fold_cell group_level m c rows : forall totals,
  default 0 ((fold_left (trend_step group_level) rows totals).2 !! (m, c))
  = default 0 (totals.2 !! (m, c)) + amounts (of_month_category group_level m c rows).
Proof.
  unfold of_month_category.
  induction rows as [|t rows IH]; intros totals.
  - cbn [fold_left List.filter]. change (amounts []) with 0. lia.
  - cbn [fold_left List.filter]. rewrite IH. unfold trend_step.
    destruct (abs_amount t) as [a|] eqn:Ea; destruct (month_of t) as [m'|] eqn:Em;
      cbn [fst snd].
    + destruct (decide ((m', grouping_category group_level (stored_category t)) = (m, c)))
        as [E|Hne].
      * injection E as -> ->. rewrite lookup_insert_eq.
        rewrite !bool_decide_eq_true_2 by done. cbn [andb default].
        rewrite amounts_cons, Ea. cbn [default]. unfold id. lia.
      * rewrite lookup_insert_ne by done.
        assert (bool_decide (Some m' = Some m)
                && bool_decide (grouping_category group_level (stored_category t) = c)
                = false) as ->; [|done].
        apply andb_false_iff. rewrite !bool_decide_eq_false.
        destruct (decide (m' = m)) as [->|?]; [right|left]; congruence.
    + rewrite (bool_decide_eq_false_2 (None = Some m)) by done. done.
    + case_match; [|done]. by rewrite amounts_cons, Ea.
    + rewrite (bool_decide_eq_false_2 (None = Some m)) by done. done.
Qed.

Lemma trend_row_spec (incl : bool) (cats : list string) (tmc : gmap (Z * string) Z) (m : Z)
    (row : CategoryMonthlyTrendRow) :
  trend_row incl cats tmc m = Some row ->
  trend_month row = m
  /\ trend_values row = map (fun c => (c, default 0 (tmc !! (m, c)))) cats
  /\ (incl = false -> exists c v, (c, v) ∈ trend_values row /\ v <> 0).
Proof.
  unfold trend_row. destruct (negb incl && forallb _ _) eqn:E; [done|].
  intros [= <-]. cbn [trend_month trend_values]. do 2 (split; [done|]).
  intros ->. cbn [negb andb] in E.
  apply not_true_iff_false in E. rewrite forallb_forall in E.
  destruct (decide (Exists (fun cv : string * Z => cv.2 <> 0)
                      (map (fun c => (c, default 0 (tmc !! (m, c)))) cats))) as [Hex|Hnex].
  - apply Exists_exists in Hex as ([c v] & Hin & Hv). by exists c, v.
  - exfalso. apply E. intros [c v] Hin%list_elem_of_In. apply Z.eqb_eq.
    destruct (decide (v = 0)) as [->|Hv]; [done|].
    exfalso. apply Hnex, Exists_exists. by exists (c, v).
Qed.

Lemma trend_row_omitted (incl : bool) (cats : list string) (tmc : gmap (Z * string) Z)
    (m : Z) :
  trend_row incl cats tmc m = None ->
  incl = false /\ forall c, c ∈ cats -> default 0 (tmc !! (m, c)) = 0.
Proof.
  unfold trend_row. destruct (negb incl && forallb _ _) eqn:E; [|done].
  intros _. apply andb_true_iff in E as [Hi Hall]. split; [by destruct incl|].
  rewrite forallb_forall in Hall. intros c Hc.
  apply Z.eqb_eq, (Hall (c, default 0 (tmc !! (m, c)))).
  apply in_map_iff. exists c. by rewrite <- list_elem_of_In.
Qed.

Lemma omap_months_sublist {A} (f : Z -> option A) (g : A -> Z) (l : list Z) :
  (forall m y, f m = Some y -> g y = m) -> sublist (map g (omap f l)) l.
Proof.
  intros Hfg. induction l as [|m l IH]; simpl; [constructor|].
  destruct (f m) as [y|] eqn:E; simpl.
  - rewrite (Hfg _ _ E). by apply sublist_skip.
  - by apply sublist_cons.
Qed.

Lemma omap_months_all {A} (f : Z -> option A) (g : A -> Z) (l : list Z) :
  (forall m, exists y, f m = Some y /\ g y = m) -> map g (omap f l) = l.
Proof.
  intros Hfg. induction l as [|m l IH]; simpl; [done|].
  destruct (Hfg m) as (y & E & Hg). rewrite E. simpl. f_equal; [done|apply IH].
Qed.

Lemma list_prefix_sublist {A} n (l : list A) : sublist (Py.list_prefix n l) l.
Proof. unfold Py.list_prefix. destruct (0 <=? n); apply sublist_take. Qed.

Lemma list_prefix_length {A} n (l : list A) :
  0 <= n -> Z.of_nat (length (Py.list_prefix n l)) <= n.
Proof.
  intros Hn. unfold Py.list_prefix. rewrite (proj2 (Z.leb_le 0 n) Hn).
  pose proof (firstn_le_length (Z.to_nat n) l). lia.
Qed.

End TrendLoops.

Lemma list_prefix_split {A} n (l : list A) : exists rest, l = Py.list_prefix n l ++ rest.
Proof.
  unfold Py.list_prefix. destruct (0 <=? n); eexists; symmetry; apply take_drop.
Qed.

Section TrendTheorems.
Context `{Runtime}.

(** X12.  The categories of the trend are the top of the ranking of the
    year: no category twice, at most [top] of them, in descending order of
    their total over the rows of the year that have an amount and a month, and
    no category that is left out has a larger total than one that is
    listed. *)
Theorem trend_categories_ranked (year top : Z) (include_empty_months : bool)
    (group_level : string) (db : list Tx.t) (r : CategoryMonthlyTrendResponse) :
  category_monthly_trend year top include_empty_months group_level db = Return r ->
  let rows := List.filter (spending_row (Py.format_0d 4 year +:+ "-")) db in
  trend_year r = year
  /\ NoDup (trend_categories r)
  /\ (0 <= top -> Z.of_nat (length (trend_categories r)) <= top)
  /\ StronglySorted (fun c c' => ranked_total group_level c' rows
                                 <= ranked_total group_level c rows) (trend_categories r)
  /\ (forall c c', c ∈ trend_categories r -> c' ∉ trend_categories r ->
        ranked_total group_level c' rows <= ranked_total group_level c rows)
  /\ (forall c, c ∈ trend_categories r ->
        exists t, t ∈ rows /\ is_Some (abs_amount t) /\ is_Some (month_of t)
                  /\ grouping_category group_level (stored_category t) = c).
Proof.
  intros Hrun rows. unfold category_monthly_trend in Hrun. cbv zeta in Hrun. fold rows in Hrun.
  rewrite trend_loop_fold in Hrun.
  destruct (existsb overflows rows); [done|]. cbn [mbind outcome_bind] in Hrun.
  remember months as ms eqn:Ems in *. clear Ems.
  injection Hrun as <-. cbn [trend_year trend_categories].
  rewrite trend_fold_categories. cbn [fst].
  set (category := fun t => grouping_category group_level (stored_category t)).
  set (dated := List.filter (fun t => bool_decide (is_Some (month_of t))) rows).
  set (totals := fold_left (totals_step category) dated []).
  assert (NoDup (map fst totals)) as Hnd by (apply totals_fold_nodup; constructor).
  assert (forall c, value_of c totals = ranked_total group_level c rows) as Hval.
  { intros c. unfold totals. by rewrite totals_fold_value. }
  assert (forall c, c ∈ map fst totals
                    <-> exists t, t ∈ dated /\ is_Some (abs_amount t) /\ category t = c)
    as Hkeys.
  { intros c. unfold totals. rewrite totals_fold_keys. split; [|by right].
    intros [?%elem_of_nil|?]; done. }
  set (sorted := Py.sorted_desc snd totals).
  assert (sorted ≡ₚ totals) as Hperm by apply sorted_desc_perm.
  assert (NoDup (map fst sorted)) as Hnds by by rewrite Hperm.
  assert (forall c v, (c, v) ∈ sorted -> v = ranked_total group_level c rows) as Hsv.
  { intros c v Hin. rewrite Hperm in Hin. apply elem_of_dict in Hin as [_ ->]; [|done].
    apply Hval. }
  destruct (list_prefix_split top sorted) as [rest Hsplit].
  set (kept := Py.list_prefix top sorted) in *.
  assert (StronglySorted (fun a b : string * Z => b.2 <= a.2) (kept ++ rest)) as Hsorted.
  { rewrite <- Hsplit. apply sorted_desc_sorted. }
  split; [done|].
  split.
  { eapply sublist_NoDup; [exact Hnds|]. apply fmap_sublist, list_prefix_sublist. }
  split.
  { intros Htop. rewrite length_map. by apply list_prefix_length. }
  split.
  { apply StronglySorted_app_1_l in Hsorted.
    assert (forall x, x ∈ kept -> x.2 = ranked_total group_level x.1 rows) as Hk.
    { intros [c v] Hin. apply (Hsv c v). rewrite Hsplit. apply elem_of_app. by left. }
    clear -Hsorted Hk. induction Hsorted as [|x l Hs IH Hall]; [constructor|].
    simpl. constructor.
    - apply IH. intros y Hy. apply Hk. by right.
    - rewrite List.Forall_map. rewrite List.Forall_forall in Hall |- *.
      intros y Hy. rewrite <- (Hk x) by by left.
      rewrite <- (Hk y) by (right; by apply list_elem_of_In). by apply Hall. }
  split.
  { intros c c' Hc Hc'.
    apply list_elem_of_In, in_map_iff in Hc as ([c0 v] & E & Hin). cbn in E. subst c0.
    apply list_elem_of_In in Hin.
    assert (v = ranked_total group_level c rows) as <-.
    { apply Hsv. rewrite Hsplit. apply elem_of_app. by left. }
    destruct (decide (c' ∈ map fst totals)) as [Hin'|Hout].
    - assert ((c', ranked_total group_level c' rows) ∈ kept ++ rest) as Hc2.
      { rewrite <- Hsplit, Hperm. apply elem_of_dict; [done|]. by rewrite Hval. }
      apply elem_of_app in Hc2 as [Hk|Hr].
      + exfalso. apply Hc'. change c' with (c', ranked_total group_level c' rows).1.
        apply list_elem_of_In, in_map, list_elem_of_In, Hk.
      + apply (StronglySorted_app_1_elem_of _ _ _ _ _ Hsorted Hin Hr).
    - rewrite <- (Hval c'), (value_of_absent _ _ Hout).
      assert ((c, v) ∈ totals) as Hct.
      { rewrite <- Hperm, Hsplit. apply elem_of_app. by left. }
      apply elem_of_dict in Hct as [_ ->]; [|done]. rewrite Hval. apply amounts_nonneg. }
  intros c Hc.
  assert (c ∈ map fst totals) as Hct.
  { rewrite <- Hperm, Hsplit, List.map_app. apply elem_of_app. by left. }
  apply Hkeys in Hct as (t & Ht & Ha & Hcat). exists t.
  unfold dated in Ht. apply list_elem_of_In, filter_In in Ht as [Ht Hm].
  split; [by apply list_elem_of_In|]. split; [done|]. split; [|done].
  by apply bool_decide_eq_true in Hm.
Qed.

(** X13.  The rows of the trend: the months are months of the year in
    ascending order, all twelve when the empty months are asked for; a row
    holds one value per category, in the order of the categories, and the
    value is the sum of the amounts of the rows of the year that have this
    month and this category; a month is left out only when all its values are
    zero. *)
Theorem trend_rows_by_month (year top : Z) (include_empty_months : bool)
    (group_level : string) (db : list Tx.t) (r : CategoryMonthlyTrendResponse) :
  category_monthly_trend year top include_empty_months group_level db = Return r ->
  let rows := List.filter (spending_row (Py.format_0d 4 year +:+ "-")) db in
  sublist (map trend_month (trend_rows r)) months
  /\ (include_empty_months = true -> map trend_month (trend_rows r) = months)
  /\ (forall row, row ∈ trend_rows r ->
        trend_values row
        = map (fun c => (c, amounts (of_month_category group_level (trend_month row) c rows)))
            (trend_categories r)
        /\ (include_empty_months = false -> exists c v, (c, v) ∈ trend_values row /\ v <> 0))
  /\ (forall m c, m ∈ months -> m ∉ map trend_month (trend_rows r) ->
        c ∈ trend_categories r -> amounts (of_month_category group_level m c rows) = 0).
Proof.
  intros Hrun rows. unfold category_monthly_trend in Hrun. cbv zeta in Hrun. fold rows in Hrun.
  rewrite trend_loop_fold in Hrun.
  destruct (existsb overflows rows); [done|]. cbn [mbind outcome_bind] in Hrun.
  remember months as ms eqn:Ems in *. clear Ems.
  injection Hrun as <-. cbn [trend_rows trend_categories].
  set (totals := fold_left (trend_step group_level) rows ([], ∅)).
  set (cats := map fst (Py.list_prefix top (Py.sorted_desc snd totals.1))).
  assert (forall m c, default 0 (totals.2 !! (m, c))
                      = amounts (of_month_category group_level m c rows)) as Hcell.
  { intros m c. unfold totals. rewrite trend_fold_cell. cbn [snd].
    rewrite lookup_empty. cbn [default]. lia. }
  split.
  { apply omap_months_sublist. intros m y Hy. by apply trend_row_spec in Hy as [? _]. }
  split.
  { intros ->. apply omap_months_all. intros m. eexists. split; [reflexivity|done]. }
  split.
  { intros row (m & Hm & Hrow)%list_elem_of_omap.
    apply trend_row_spec in Hrow as (<- & Hv & Hnz). split; [|done].
    rewrite Hv. apply List.map_ext. intros c. by rewrite Hcell. }
  intros m c Hm Hout Hc.
  destruct (trend_row include_empty_months cats totals.2 m) as [row|] eqn:Erow.
  - exfalso. apply Hout. apply list_elem_of_In, in_map_iff. exists row.
    split; [by apply trend_row_spec in Erow as [? _]|].
    apply list_elem_of_In, list_elem_of_omap. by exists m.
  - apply trend_row_omitted in Erow as [_ Hzero]. rewrite <- Hcell. by apply Hzero.
Qed.

End TrendTheorems.

Lemma startswith_app s p q : Py.startswith s (p +:+ q) = true -> Py.startswith s p = true.
Proof.
  revert s. induction p as [|a p IH]; intros s; simpl; [by destruct s|].
  destruct s as [|b s]; [done|]. intros [Hab Hs]%andb_true_iff.
  apply andb_true_iff. split; [done|]. by apply IH.
Qed.

Lemma append_assoc (a b c : string) : (a +:+ b) +:+ c = a +:+ (b +:+ c).
Proof.
  induction a as [|x a IH]; [done|].
  change (String x a +:+ b) with (String x (a +:+ b)).
  change (String x (a +:+ b) +:+ c) with (String x ((a +:+ b) +:+ c)).
  change (String x a +:+ (b +:+ c)) with (String x (a +:+ (b +:+ c))).
  by rewrite IH.
Qed.

Lemma month_prefix_year year month s :
  Py.startswith s (_month_prefix year month) = true ->
  Py.startswith s (Py.format_0d 4 year +:+ "-") = true.
Proof.
  unfold _month_prefix. rewrite <- append_assoc. apply startswith_app.
Qed.

Section TrendAndBreakdown.
Context `{Runtime}.

(** The rows of a month among the rows of the year. *)
Lemma month_rows_of_year rows_of year m c (group_level : string) db :
  group_level <> "major"%string ->
  dates_canonical year db -> 1 <= m <= 12 ->
  rows_of = (fun prefix => List.filter (spending_row prefix) db) ->
  of_month_category group_level m c (rows_of (Py.format_0d 4 year +:+ "-"))
  = of_category stored_category c (rows_of (_month_prefix year m))
  /\ rows_of (_month_prefix year m)
     = List.filter (fun t => bool_decide (month_of t = Some m))
         (rows_of (Py.format_0d 4 year +:+ "-")).
Proof.
  intros Hlevel Hdates Hm ->. unfold of_month_category, of_category.
  rewrite !filter_filter.
  assert (forall t, t ∈ db ->
            spending_row (Py.format_0d 4 year +:+ "-") t && bool_decide (month_of t = Some m)
            = spending_row (_month_prefix year m) t) as Hrow.
  { intros t Ht. unfold spending_row.
    destruct (Py.startswith (Tx.date t) (Py.format_0d 4 year +:+ "-")) eqn:Ey.
    - specialize (Hdates t m Ht Hm Ey).
      destruct (Py.startswith (Tx.date t) (_month_prefix year m)) eqn:Em.
      + rewrite (bool_decide_eq_true_2 _ (proj2 Hdates eq_refl)). cbn [andb].
        by rewrite andb_true_r.
      + assert (bool_decide (month_of t = Some m) = false) as ->.
        { apply bool_decide_eq_false_2. intros Hmo. apply Hdates in Hmo. congruence. }
        by rewrite andb_false_r.
    - destruct (Py.startswith (Tx.date t) (_month_prefix year m)) eqn:Em; [|done].
      apply month_prefix_year in Em. congruence. }
  split.
  - apply filter_ext_in. intros t Ht%list_elem_of_In. rewrite <- (Hrow t Ht).
    unfold grouping_category. rewrite decide_False by done. by rewrite andb_assoc.
  - apply filter_ext_in. intros t Ht%list_elem_of_In. by rewrite (Hrow t Ht).
Qed.

(** X14.  A cell of the trend is what the category breakdown of that month
    shows: with the full categories and on dates that hold the month as two
    digits, the value of a category in the row of a month is the amount of
    that category in the breakdown of the month, and zero when the breakdown
    of the month does not list the category. *)
Theorem trend_matches_breakdown (year top : Z) (include_empty_months : bool)
    (group_level : string) (db : list Tx.t) (r : CategoryMonthlyTrendResponse) :
  group_level <> "major"%string ->
  dates_canonical year db ->
  category_monthly_trend year top include_empty_months group_level db = Return r ->
  forall row, row ∈ trend_rows r ->
    exists items,
      category_breakdown year (trend_month row) db = Return items
      /\ forall c v, (c, v) ∈ trend_values row ->
           {| breakdown_category := c; breakdown_amount := v |} ∈ items
           \/ (v = 0 /\ c ∉ map breakdown_category items).
Proof.
  intros Hlevel Hdates Hrun row Hrow.
  unfold category_monthly_trend in Hrun. cbv zeta in Hrun.
  set (rows_of := fun prefix => List.filter (spending_row prefix) db).
  change (List.filter (spending_row (Py.format_0d 4 year +:+ "-")) db)
    with (rows_of (Py.format_0d 4 year +:+ "-")) in Hrun.
  rewrite trend_loop_fold in Hrun.
  destruct (existsb overflows (rows_of _)) eqn:Hov; [done|]. cbn [mbind outcome_bind] in Hrun.
  assert (forall m, m ∈ months -> 1 <= m <= 12) as Hmonths.
  { intros m Hm. unfold months in Hm.
    repeat (apply elem_of_cons in Hm as [->|Hm]; [lia|]). by apply elem_of_nil in Hm. }
  remember months as ms eqn:Ems in *. clear Ems.
  injection Hrun as <-. cbn [trend_rows] in Hrow.
  apply list_elem_of_omap in Hrow as (m & Hm & Hrow).
  apply trend_row_spec in Hrow as (<- & Hv & _). apply Hmonths in Hm.
  destruct (month_rows_of_year rows_of year (trend_month row) ""%string group_level db
              Hlevel Hdates Hm eq_refl) as [_ Hsub].
  unfold category_breakdown. cbv zeta.
  change (List.filter (spending_row (_month_prefix year (trend_month row))) db)
    with (rows_of (_month_prefix year (trend_month row))).
  rewrite breakdown_loop_fold.
  assert (existsb overflows (rows_of (_month_prefix year (trend_month row))) = false) as ->.
  { rewrite Hsub. by apply existsb_filter. }
  cbn [mbind outcome_bind]. eexists. split; [reflexivity|].
  set (totals := fold_left (totals_step stored_category) _ []).
  assert (NoDup (map fst totals)) as Hnd by (apply totals_fold_nodup; constructor).
  intros c v Hcv. rewrite Hv in Hcv.
  apply list_elem_of_In, in_map_iff in Hcv as (c0 & [= -> <-] & _).
  rewrite trend_fold_cell. cbn [snd]. rewrite lookup_empty. cbn [default].
  destruct (month_rows_of_year rows_of year (trend_month row) c group_level db
              Hlevel Hdates Hm eq_refl) as [-> _].
  assert (value_of c totals
          = amounts (of_category stored_category c
                       (rows_of (_month_prefix year (trend_month row))))) as Hval.
  { unfold totals. by rewrite totals_fold_value. }
  rewrite Z.add_0_l, <- Hval.
  destruct (decide (c ∈ map fst totals)) as [Hin|Hout].
  - left. apply list_elem_of_In, in_map_iff. exists (c, value_of c totals).
    split; [done|]. apply list_elem_of_In. rewrite sorted_desc_perm.
    by apply elem_of_dict.
  - right. split; [by apply value_of_absent|].
    rewrite List.map_map. cbn [breakdown_category].
    change (map (fun x : string * Z => x.1)) with (map (@fst string Z)).
    by rewrite (Permutation_map fst (sorted_desc_perm snd totals)).
Qed.

End TrendAndBreakdown.

(** ** Updates *)

Lemma update_target_unique transaction_id direction (db : list Tx.t) t :
  NoDup (map Tx.id db) ->
  List.find (update_target transaction_id direction) db = Some t ->
  exists pre post,
    db = pre ++ t :: post
    /\ Tx.id t = transaction_id
    /\ Tx.direction t = Some (direction_str direction)
    /\ List.filter (update_target transaction_id direction) db = [t]
    /\ forall f, map (fun u => if update_target transaction_id direction u then f u else u) db
                 = pre ++ f t :: post.
Proof.
  intros Hnd Hfind. destruct (find_some_split _ _ _ Hfind) as (pre & post & -> & Ht & Hpre).
  pose proof Ht as Ht'. unfold update_target in Ht'.
  apply andb_true_iff in Ht' as [Hid%bool_decide_eq_true Hdir%bool_decide_eq_true].
  assert (forall u, u ∈ post -> update_target transaction_id direction u = false) as Hpost.
  { intros u Hu. unfold update_target. rewrite bool_decide_eq_false_2; [done|].
    intros Hu'. rewrite List.map_app in Hnd. apply NoDup_app in Hnd as (_ & _ & Hnd).
    simpl in Hnd. apply NoDup_cons in Hnd as [Hnot _]. apply Hnot.
    rewrite Hid, <- Hu'. apply list_elem_of_In, in_map, list_elem_of_In, Hu. }
  assert (forall l : list Tx.t,
            (forall u, u ∈ l -> update_target transaction_id direction u = false) ->
            List.filter (update_target transaction_id direction) l = []
            /\ forall f, map (fun u => if update_target transaction_id direction u
                                       then f u else u) l = l) as Hnone.
  { clear. induction l as [|u l IH]; intros Hl; [done|]. simpl.
    rewrite (Hl u) by by left.
    destruct IH as [-> Hmap]; [intros v Hv; apply Hl; by right|].
    split; [done|]. intros f. by rewrite Hmap. }
  destruct (Hnone pre Hpre) as [Hf1 Hm1]. destruct (Hnone post Hpost) as [Hf2 Hm2].
  exists pre, post. do 3 (split; [done|]). split.
  - rewrite List.filter_app. simpl. by rewrite Ht, Hf1, Hf2.
  - intros f. rewrite List.map_app. simpl. by rewrite Ht, Hm1, Hm2.
Qed.

Lemma no_target_no_change transaction_id direction updates (db : list Tx.t) :
  (_apply_transaction_update transaction_id updates direction db).1 = 0 ->
  (_apply_transaction_update transaction_id updates direction db).2 = db.
Proof.
  unfold _apply_transaction_update. cbn [fst snd].
  induction db as [|t db IH]; [done|]. simpl.
  destruct (update_target transaction_id direction t); simpl; [lia|].
  intros Hz. by rewrite IH.
Qed.

Section UpdateTheorems.
Context `{Runtime}.

(** X15.  A write that is refused writes nothing: after a create, an update
    by identifier, an update by snapshot or an import without month
    replacement that does not succeed, the table is as it was. *)
Theorem refused_write_changes_nothing (db : list Tx.t) :
  (forall transaction_id payload,
     (create_transaction transaction_id payload db).1 = Return transaction_id
     \/ (create_transaction transaction_id payload db).2 = db)
  /\ (forall direction transaction_id payload,
        (update_transaction direction transaction_id payload db).1 = Return ()
        \/ (update_transaction direction transaction_id payload db).2 = db)
  /\ (forall direction payload,
        (update_transaction_by_match direction payload db).1 = Return ()
        \/ (update_transaction_by_match direction payload db).2 = db)
  /\ (forall uuid4 schema rows year month,
        (exists res, (import_transactions uuid4 schema rows false year month db).1 = Return res)
        \/ (import_transactions uuid4 schema rows false year month db).2 = db).
Proof.
  split; [|split; [|split]].
  - intros transaction_id payload. unfold create_transaction.
    destruct (_ <=? 0); [by right|]. case_decide; [by right|]. case_decide; [by right|].
    destruct (insert_transaction _ db); [by left|by right].
  - intros direction transaction_id payload. unfold update_transaction.
    destruct (_build_transaction_updates payload direction) as [updates|]; [|by right].
    case_decide; [by right|]. destruct (find _ db) as [row|]; [|by right].
    match goal with
    | |- context [_apply_transaction_update ?i ?u ?d ?db] =>
        pose proof (no_target_no_change i d u db) as Hz;
        destruct (_apply_transaction_update i u d db) as [rowcount db']
    end.
    cbn [fst snd] in Hz. destruct (Z.eqb_spec rowcount 0) as [E|_]; [right|by left].
    by apply Hz.
  - intros direction payload. unfold update_transaction_by_match.
    destruct (_build_transaction_updates (updated payload) direction) as [updates|];
      [|by right].
    case_decide; [by right|]. destruct (_ <=? 0); [by right|].
    destruct (matched_ids _ _) as [[|matched [|? ?]]|]; try by right.
    match goal with
    | |- context [_apply_transaction_update ?i ?u ?d ?db] =>
        pose proof (no_target_no_change i d u db) as Hz;
        destruct (_apply_transaction_update i u d db) as [rowcount db']
    end.
    cbn [fst snd] in Hz. destruct (Z.eqb_spec rowcount 0) as [E|_]; [right|by left].
    by apply Hz.
  - intros uuid4 schema rows year month.
    destruct (import_transactions uuid4 schema rows false year month db) as [[res|e] db']
      eqn:Hrun; [left; by exists res|right].
    destruct (failed_import_store _ _ _ _ _ _ _ _ _ Hrun) as [->|[? _]]; done.
Qed.

(** X16.  An update by identifier that succeeds changes one row, the row
    of that identifier and direction, and nothing else: the row keeps its
    identifier, direction and memo, each field of the request that is given
    replaces the stored one (texts without the whitespace at their ends, a
    blank category as the default one, the amount with the sign of the
    direction), and the stored fingerprint is the fingerprint of the row as
    it now is. *)
Theorem update_by_id_result (direction : Direction) (transaction_id : string)
    (payload : TransactionUpdateRequest) (db db' : list Tx.t) :
  NoDup (map Tx.id db) ->
  update_transaction direction transaction_id payload db = (Return (), db') ->
  exists pre t post t',
    db = pre ++ t :: post /\ db' = pre ++ t' :: post
    /\ Tx.id t = transaction_id /\ Tx.direction t = Some (direction_str direction)
    /\ Tx.id t' = transaction_id /\ Tx.direction t' = Tx.direction t
    /\ Tx.memo t' = Tx.memo t
    /\ Tx.date t' = default (Tx.date t) (Py.strip <$> upd_date payload)
    /\ Tx.raw_category t'
       = match upd_category payload with
         | Some c => Some (Py.or_else (Some (Py.strip c)) "미분류")
         | None => Tx.raw_category t
         end
    /\ Tx.description t' = default (Tx.description t) (Py.strip <$> upd_description payload)
    /\ Tx.merchant t' = default (Tx.merchant t) (Py.strip <$> upd_description payload)
    /\ Tx.method t' = default (Tx.method t) (Py.strip <$> upd_method payload)
    /\ Tx.amount t'
       = default (Tx.amount t)
           ((fun a => Py.str_of_int (signed_for direction a)) <$> upd_amount payload)
    /\ Tx.is_excluded t'
       = match upd_excluded payload with
         | Some e => if e then 1 else 0
         | None => Tx.is_excluded t
         end
    /\ Tx.import_fingerprint t' = Some (_transaction_fingerprint (existing_model t')).
Proof.
  intros Hnd. unfold update_transaction.
  destruct (_build_transaction_updates payload direction) as [updates|] eqn:Eb; [|done].
  case_decide; [done|].
  destruct (find _ db) as [t|] eqn:Hfind; [|done].
  destruct (update_target_unique _ _ _ _ Hnd Hfind) as (pre & post & Hdb & Hid & Hdir & Hf & Hm).
  unfold _apply_transaction_update. rewrite Hf, Hm. cbn [length Z.of_nat Z.eqb Pos.of_succ_nat].
  intros [= <-].
  destruct (build_updates_columns _ _ _ Eb) as (Hd & Hc & Hde & Hme & Hmt & Ha & Hx & _ & _).
  eexists pre, t, post, _. split; [done|]. split; [reflexivity|].
  unfold apply_columns.
  cbn [Tx.id Tx.direction Tx.memo Tx.date Tx.raw_category Tx.description Tx.merchant
       Tx.method Tx.amount Tx.is_excluded Tx.import_fingerprint].
  rewrite !lookup_insert_ne by done. rewrite lookup_insert_eq.
  rewrite Hd, Hc, Hde, Hme, Hmt, Ha, Hx.
  do 5 (split; [done|]).
  split; [by destruct (upd_date payload)|].
  split; [by destruct (upd_category payload)|].
  split; [by destruct (upd_description payload)|].
  split; [by destruct (upd_description payload)|].
  split; [by destruct (upd_method payload)|].
  split; [by destruct (upd_amount payload)|].
  split; [by destruct (upd_excluded payload) as [[|]|]|].
  f_equal. unfold existing_model. cbn [Tx.date Tx.amount Tx.description Tx.method
    Tx.direction Tx.raw_category].
  rewrite Hdir. cbn [Py.str default].
  destruct (upd_date payload), (upd_category payload), (upd_description payload),
    (upd_method payload), (upd_amount payload); done.
Qed.

End UpdateTheorems.

Section MatchTheorems.
Context `{Runtime}.

Lemma matched_ids_filter o rows :
  existsb overflows rows = false ->
  matched_ids o rows
  = Return (map Tx.id
              (List.filter (fun t => bool_decide (abs_amount t = Some (orig_amount o))) rows)).
Proof.
  induction rows as [|t rows IH]; [done|]. cbn [existsb matched_ids List.filter].
  intros [Ht Hrows]%orb_false_iff. rewrite parse_abs, Ht, (IH Hrows).
  cbn [mbind outcome_bind]. by case_decide; case_bool_decide.
Qed.

(** X17.  An update by snapshot with a valid request acts by the number of
    stored rows that match the snapshot (direction, date, category,
    description, method, excluded flag, and the amount without its sign): no
    row, and the request is refused as not found; two rows or more, and it is
    refused as ambiguous, the table left as it was; exactly one row, and this
    row alone receives the requested columns, its fingerprint staying as it
    was. *)
Theorem update_by_match_outcome (direction : Direction)
    (payload : TransactionUpdateByMatchRequest) (db : list Tx.t)
    (updates : gmap string string) :
  NoDup (map Tx.id db) ->
  _build_transaction_updates (updated payload) direction = Return updates ->
  updates <> ∅ ->
  0 < orig_amount (original payload) ->
  existsb overflows (List.filter (snapshot_row direction (original payload)) db) = false ->
  let matching := List.filter (matches_snapshot direction (original payload)) db in
  (matching = [] ->
   update_transaction_by_match direction payload db = (Raise (HTTPException 404), db))
  /\ (forall t, matching = [t] ->
        exists pre post,
          db = pre ++ t :: post
          /\ update_transaction_by_match direction payload db
             = (Return (), pre ++ apply_columns updates t :: post)
          /\ Tx.id (apply_columns updates t) = Tx.id t
          /\ Tx.import_fingerprint (apply_columns updates t) = Tx.import_fingerprint t)
  /\ ((2 <= length matching)%nat ->
      update_transaction_by_match direction payload db = (Raise (HTTPException 409), db)).
Proof.
  intros Hnd Hb Hne Hpos Hov matching.
  assert (update_transaction_by_match direction payload db
          = match map Tx.id matching with
            | [] => (Raise (HTTPException 404), db)
            | [matched] =>
                let '(rowcount, db') :=
                  _apply_transaction_update matched updates direction db in
                if rowcount =? 0 then (Raise (HTTPException 404), db') else (Return (), db')
            | _ => (Raise (HTTPException 409), db)
            end) as Hrun.
  { unfold update_transaction_by_match. rewrite Hb, decide_False by done.
    rewrite (proj2 (Z.leb_gt _ _) Hpos), (matched_ids_filter _ _ Hov), filter_filter.
    done. }
  rewrite Hrun. split; [by intros ->|]. split.
  - intros t Ht. rewrite Ht. cbn [map].
    assert (t ∈ db /\ matches_snapshot direction (original payload) t = true) as [Hin Hm].
    { assert (In t matching) as Hin by (rewrite Ht; by left).
      apply filter_In in Hin as [Hin Hm]. by apply list_elem_of_In in Hin. }
    assert (List.find (update_target (Tx.id t) direction) db <> None) as Hfind.
    { intros Hno. apply list_elem_of_In in Hin. apply (find_none _ _ Hno) in Hin.
      unfold update_target in Hin. rewrite bool_decide_eq_true_2 in Hin by done.
      unfold matches_snapshot, snapshot_row in Hm.
      rewrite !andb_true_iff in Hm. destruct Hm as [[[[[[Hd _] _] _] _] _] _].
      cbn [andb] in Hin. congruence. }
    destruct (find _ db) as [u|] eqn:Hu; [|done].
    destruct (update_target_unique _ _ _ _ Hnd Hu) as (pre & post & Hdb & Hid & _ & Hf & Hmap).
    assert (u = t) as ->.
    { eapply nodup_same_id; [exact Hnd| |exact Hin|exact Hid].
      rewrite Hdb. apply elem_of_app. right. by left. }
    exists pre, post. split; [done|].
    unfold _apply_transaction_update. rewrite Hf, Hmap.
    split; [done|]. split; [done|].
    destruct (build_updates_columns _ _ _ Hb) as (_ & _ & _ & _ & _ & _ & _ & Hfp & _).
    unfold apply_columns. cbn [Tx.import_fingerprint]. by rewrite Hfp.
  - intros Hlen. destruct matching as [|t1 [|t2 l]]; simpl in Hlen; try lia. done.
Qed.

(** X18.  A transaction that is created shows in the summary of its
    month: the count rises by one, and unless the transaction is created as
    excluded its amount is added to the income or to the expense, by its
    direction. *)
Theorem created_transaction_in_summary (transaction_id : string)
    (payload : CreateTransactionRequest) (db db' : list Tx.t) (year month : Z)
    (s : MonthlySummary) :
  (forall z, decimal_to_int (Py.str_of_int z) = Converted z) ->
  create_transaction transaction_id payload db = (Return transaction_id, db') ->
  Py.startswith (Py.strip (new_date payload)) (_month_prefix year month) = true ->
  summary year month db = Return s ->
  let counted := if new_excluded payload then 0 else new_amount payload in
  summary year month db'
  = Return {| sum_year := year; sum_month := month;
              sum_income := sum_income s
                            + match new_direction payload with
                              | Income => counted
                              | Expense => 0
                              end;
              sum_expense := sum_expense s
                             + match new_direction payload with
                               | Income => 0
                               | Expense => counted
                               end;
              net_cashflow := net_cashflow s
                              + match new_direction payload with
                                | Income => counted
                                | Expense => - counted
                                end;
              transaction_count := transaction_count s + 1 |}.
Proof.
  intros Hread. unfold create_transaction.
  destruct (Z.leb_spec (new_amount payload) 0) as [|Hpos]; [done|].
  case_decide; [done|]. case_decide; [done|].
  unfold insert_transaction. case_decide; [done|]. intros [= <-] Hmonth.
  unfold summary. rewrite !summary_loop_closed, List.filter_app.
  set (t := Tx.mk _ _ _ _ _ _ _ _ _ _ _).
  cbn [List.filter]. change (Tx.date t) with (Py.strip (new_date payload)). rewrite Hmonth.
  rewrite existsb_app. destruct (existsb overflows _); [done|].
  cbn [mbind outcome_bind orb]. intros [= <-].
  cbn [sum_income sum_expense net_cashflow transaction_count].
  assert (abs_amount t = Some (new_amount payload)) as Ha.
  { unfold abs_amount. change (Tx.amount t) with (Py.str_of_int
      match new_direction payload with
      | Income => Z.abs (new_amount payload)
      | Expense => - Z.abs (new_amount payload)
      end). rewrite Hread. f_equal. destruct (new_direction payload); lia. }
  assert (overflows t = false) as Ho.
  { unfold overflows. unfold abs_amount in Ha. by destruct (decimal_to_int _). }
  cbn [existsb]. rewrite Ho. cbn [orb].
  rewrite !List.filter_app, omap_app, length_app. unfold amounts.
  rewrite !omap_app, !sum_app. cbn [List.filter].
  assert (forall d, counted_as d t
                    = bool_decide (direction_str (new_direction payload) = d)
                      && negb (new_excluded payload)) as Hc.
  { intros d. unfold counted_as, summary_direction.
    change (Tx.direction t) with (Some (direction_str (new_direction payload))).
    change (Tx.is_excluded t) with (if new_excluded payload then 1 else 0).
    assert (Py.lower (Py.strip (Py.or_else (Some (direction_str (new_direction payload))) ""))
            = direction_str (new_direction payload)) as ->
      by (destruct (new_direction payload); vm_compute; reflexivity).
    by destruct (new_excluded payload). }
  rewrite !Hc.
  assert (forall i e n c i' e' n' c',
            i = i' -> e = e' -> n = n' -> c = c' ->
            @Return MonthlySummary
              {| sum_year := year; sum_month := month; sum_income := i; sum_expense := e;
                 net_cashflow := n; transaction_count := c |}
            = Return {| sum_year := year; sum_month := month; sum_income := i';
                        sum_expense := e'; net_cashflow := n'; transaction_count := c' |})
    as Hrecord by (intros; by subst).
  destruct (new_direction payload), (new_excluded payload);
    cbn [direction_str bool_decide andb negb omap list_omap length];
    unfold Py.sum; simpl; rewrite ?Ha; simpl; apply Hrecord; lia.
Qed.

End MatchTheorems.

(** ** The ledger: rows, identifiers and hashes *)

Section LedgerRows.
Context `{Runtime}.

(** X19.  A row that the ledger normalizer returns satisfies the
    constraints of the table: its type is one of the three of the [CHECK],
    the currency is not blank, the amount is the absolute value of the signed
    amount, and it has no group.  It is flagged for review exactly when it is
    an expense with a positive or an income with a negative signed amount, so
    a transfer is never flagged; it is marked external exactly when it is a
    transfer whose description holds no keyword of an internal transfer. *)
Theorem normalized_row_valid (row : gmap string (option string)) (n : Ledger.transaction) :
  Ledger._normalize_row row = Return (Some n) ->
  Ledger.tx_type n ∈ ["income"; "expense"; "transfer"]%string
  /\ Ledger.currency n <> ""%string
  /\ Ledger.amount n = Z.abs (Ledger.signed_amount n)
  /\ Ledger.transfer_group_id n = None
  /\ (Ledger.review_required n = 1 \/ Ledger.review_required n = 0)
  /\ (Ledger.review_required n = 1
      <-> (Ledger.tx_type n = "expense"%string /\ 0 < Ledger.signed_amount n)
          \/ (Ledger.tx_type n = "income"%string /\ Ledger.signed_amount n < 0))
  /\ (Ledger.transfer_external n = 1 \/ Ledger.transfer_external n = 0)
  /\ (Ledger.transfer_external n = 1
      <-> Ledger.tx_type n = "transfer"%string
          /\ Ledger._is_internal_transfer (Ledger.content n) = false).
Proof.
  unfold Ledger._normalize_row. case_decide; [done|].
  destruct (strptime _); [|done]. destruct (int_of_str _) as [signed|]; [|done].
  intros [= <-].
  cbn [Ledger.tx_type Ledger.currency Ledger.amount Ledger.signed_amount
       Ledger.transfer_group_id Ledger.review_required Ledger.transfer_external
       Ledger.content].
  set (ty := Py.strip (Py.or_else (get row "타입") "")).
  rewrite type_map_lookup.
  set (content := Ledger._none_if_blank (get row "내용")).
  split.
  { repeat case_decide; cbn [default]; [by left|right; by left|do 2 right; by left..]. }
  split.
  { unfold Py.or_else at 1. case_decide; [discriminate|done]. }
  split; [done|]. split; [done|].
  assert (forall ty' : string,
            ty' ∈ ["income"; "expense"; "transfer"]%string ->
            let review := if bool_decide (ty' = "expense"%string) && (0 <? signed) then 1
                          else if bool_decide (ty' = "income"%string) && (signed <? 0) then 1
                          else 0 in
            let external := if bool_decide (ty' = "transfer"%string)
                               && negb (Ledger._is_internal_transfer content) then 1 else 0 in
            (review = 1 \/ review = 0)
            /\ (review = 1 <-> (ty' = "expense"%string /\ 0 < signed)
                               \/ (ty' = "income"%string /\ signed < 0))
            /\ (external = 1 \/ external = 0)
            /\ (external = 1 <-> ty' = "transfer"%string
                                 /\ Ledger._is_internal_transfer content = false)) as Hall.
  { intros ty' Hty. cbv zeta.
    destruct (Ledger._is_internal_transfer content);
      repeat (apply elem_of_cons in Hty as [->|Hty]);
      try (by apply elem_of_nil in Hty);
      destruct (Z.ltb_spec 0 signed), (Z.ltb_spec signed 0);
      cbn [bool_decide decide_rel andb negb]; simpl;
      repeat split; try (intros [[? ?]|[? ?]]); try (intros [? ?]); try intros ?;
        try congruence; try lia; auto. }
  apply Hall. repeat case_decide; cbn [default]; [by left|right; by left|do 2 right; by left..].
Qed.

End LedgerRows.

Lemma next_id_fresh db : Ledger.next_id db ∉ map Ledger.id db.
Proof.
  unfold Ledger.next_id.
  assert (forall x, x ∈ map Ledger.id db -> x <= foldr Z.max 0 (map Ledger.id db)) as Hmax.
  { induction db as [|t db IH]; simpl; [by intros x ?%elem_of_nil|].
    intros x [->|Hx]%elem_of_cons; [lia|]. specialize (IH x Hx). lia. }
  intros Hin. apply Hmax in Hin. lia.
Qed.

Lemma insert_ids normalized db db' :
  Ledger.insert normalized db = Some db' ->
  map Ledger.id db' = map Ledger.id db ++ [Ledger.next_id db]
  /\ (Ledger.row_hash normalized ∉ map Ledger.row_hash db)
  /\ length db' = S (length db).
Proof.
  unfold Ledger.insert. case_decide; [done|]. intros [= <-].
  rewrite List.map_app, length_app. simpl. split; [done|]. split; [done|lia].
Qed.

Lemma set_group_ids g a b db :
  map Ledger.id (Ledger.set_group g a b db) = map Ledger.id db.
Proof.
  unfold Ledger.set_group. rewrite List.map_map. apply List.map_ext.
  intros t. by destruct (_ || _).
Qed.

Section LedgerImport.
Context `{Runtime}.

Lemma pair_loop_ids cands lefts : forall used db,
  map Ledger.id (Ledger.pair_loop cands lefts used db) = map Ledger.id db.
Proof.
  intros used db. rewrite pair_loop_selected.
  revert db. induction (selected_pairs cands lefts used) as [|p ps IH]; intros db; [done|].
  simpl. by rewrite IH, set_group_ids.
Qed.

Lemma import_loop_invariants rows : forall acc db res db',
  NoDup (map Ledger.id db) -> NoDup (map Ledger.row_hash db) ->
  0 <= Ledger.review_required_count acc <= Ledger.imported acc ->
  Ledger.import_loop rows acc db = (Return res, db') ->
  NoDup (map Ledger.id db') /\ NoDup (map Ledger.row_hash db')
  /\ Z.of_nat (length db') - Z.of_nat (length db) = Ledger.imported res - Ledger.imported acc
  /\ 0 <= Ledger.review_required_count res <= Ledger.imported res
  /\ prefix (map Ledger.row_hash db) (map Ledger.row_hash db')
  /\ prefix (map Ledger.id db) (map Ledger.id db').
Proof.
  induction rows as [|row rows IH]; intros acc db res db' Hid Hhash Hacc; simpl.
  - intros [= <- <-]. do 2 (split; [done|]). split; [lia|]. split; [done|]. split; done.
  - destruct (Ledger._normalize_row row) as [[n|]|] eqn:En; [| |done].
    + destruct (Ledger.insert n db) as [db1|] eqn:Ei.
      * destruct (insert_ids _ _ _ Ei) as (Hids & Hfresh & Hlen).
        pose proof (insert_hashes _ _ _ Ei) as Hhashes.
        intros Hrun. apply IH in Hrun as (H1 & H2 & H4 & H5 & H6 & H7).
        -- do 2 (split; [done|]).
           cbn [Ledger.imported] in H4. split; [lia|]. split; [done|].
           split.
           ++ etrans; [|exact H6]. rewrite Hhashes. by apply prefix_app_r.
           ++ etrans; [|exact H7]. rewrite Hids. by apply prefix_app_r.
        -- rewrite Hids. apply NoDup_app. split; [done|]. split; [|apply NoDup_singleton].
           intros x Hx Hx'%list_elem_of_singleton. subst. by apply (next_id_fresh db).
        -- rewrite Hhashes. apply NoDup_app. split; [done|]. split; [|apply NoDup_singleton].
           intros x Hx Hx'%list_elem_of_singleton. by subst.
        -- cbn [Ledger.imported Ledger.review_required_count]. case_decide; lia.
      * intros Hrun. apply IH in Hrun as (H1 & H2 & H4 & H5 & H6 & H7); try done.
    + by apply IH.
Qed.

(** X20.  An import into the ledger keeps the identifiers and the row
    hashes of the table distinct, removes no row and reorders none, adds
    exactly [imported] rows and commits: the number of rows rises by
    [imported], the imported and the skipped lines are the lines that the
    normalizer keeps, and the rows flagged for review are among the
    imported. *)
Theorem ledger_import_accounting (rows : list (gmap string (option string)))
    (svc svc' : Ledger.LedgerService) (res : Ledger.ImportResult) :
  NoDup (map Ledger.id (Ledger.view svc)) ->
  NoDup (map Ledger.row_hash (Ledger.view svc)) ->
  Ledger.import_tsv rows svc = (Return res, svc') ->
  NoDup (map Ledger.id (Ledger.view svc'))
  /\ NoDup (map Ledger.row_hash (Ledger.view svc'))
  /\ prefix (map Ledger.id (Ledger.view svc)) (map Ledger.id (Ledger.view svc'))
  /\ prefix (map Ledger.row_hash (Ledger.view svc)) (map Ledger.row_hash (Ledger.view svc'))
  /\ Ledger.committed svc' = Ledger.view svc'
  /\ Z.of_nat (length (Ledger.view svc'))
     = Z.of_nat (length (Ledger.view svc)) + Ledger.imported res
  /\ Ledger.imported res + Ledger.skipped_duplicates res = kept_lines rows
  /\ 0 <= Ledger.review_required_count res <= Ledger.imported res.
Proof.
  intros Hid Hhash. unfold Ledger.import_tsv.
  destruct (Ledger.import_loop rows _ (Ledger.view svc)) as [[res1|] db1] eqn:Hrun; [|done].
  intros [= <- <-].
  destruct (first_loop _ _ _ _ _ Hrun) as (_ & _ & Hcount).
  apply import_loop_invariants in Hrun as (H1 & H2 & H4 & H5 & H6 & H7);
    [|done|done|cbn; lia].
  unfold Ledger._pair_internal_transfers.
  cbn [Ledger.view Ledger.commit Ledger.committed Ledger.imported
       Ledger.skipped_duplicates] in *.
  rewrite pair_loop_ids, pair_loop_hashes.
  do 4 (split; [done|]). split; [done|].
  rewrite <- (length_map Ledger.id (Ledger.pair_loop _ _ _ _)), pair_loop_ids, length_map.
  split; [lia|]. split; [lia|done].
Qed.

End LedgerImport.

(** ** A second pairing pass *)

Lemma find_in_pair_iff t ps :
  List.find (in_pair t) ps = None <-> Ledger.id t ∉ pair_ids ps.
Proof.
  split; [|apply find_in_pair_none].
  induction ps as [|p ps IH]; [intros _ ?%elem_of_nil; done|]. simpl.
  destruct (in_pair t p) eqn:Hp; [done|]. intros Hf. rewrite pair_ids_cons.
  unfold in_pair in Hp. apply orb_false_iff in Hp. rewrite !bool_decide_eq_false in Hp.
  intros [E|[E|Hin]%elem_of_cons]%elem_of_cons; [tauto|tauto|]. by apply (IH Hf).
Qed.

Section SecondPass.
Context `{Runtime}.

Lemma ungrouped_after_pass ps t :
  Ledger.ungrouped_transfer (regroup ps t) = true ->
  regroup ps t = t /\ Ledger.ungrouped_transfer t = true /\ Ledger.id t ∉ pair_ids ps.
Proof.
  unfold regroup. destruct (List.find (in_pair t) ps) as [p|] eqn:Hf.
  - unfold Ledger.ungrouped_transfer, grouped. cbn [Ledger.transfer_group_id].
    rewrite (bool_decide_eq_false_2 (Some _ = None)) by done. by rewrite andb_false_r.
  - intros Hu. split; [done|]. split; [done|]. by apply find_in_pair_iff.
Qed.

Lemma no_pair_left cands2 lefts :
  (forall l r, l ∈ lefts -> r ∈ cands2 ->
     Ledger._is_internal_transfer (Ledger.content l) = true -> ~ eligible [] l r) ->
  selected_pairs cands2 lefts ∅ = [].
Proof.
  induction lefts as [|l lefts IH]; intros Hno; [done|]. simpl.
  assert (selected_pairs cands2 lefts ∅ = []) as Hrest.
  { apply IH. intros l' r Hl'. apply Hno. by right. }
  rewrite decide_False by apply not_elem_of_empty.
  destruct (Ledger._is_internal_transfer (Ledger.content l)) eqn:Hint; [|done]. simpl.
  destruct (List.find (Ledger.counterpart ∅ l) cands2) as [r|] eqn:Hfind; [|done].
  exfalso. apply find_some in Hfind as [Hr Hc].
  apply (counterpart_eligible ∅ []) in Hc;
    [|intros x; split; [by intros ?%elem_of_empty|by intros ?%elem_of_nil]].
  apply (Hno l r); [by left|by apply list_elem_of_In|done|done].
Qed.

(** After a pass a second pass finds no pair. *)
Lemma second_pass_selects_nothing svc :
  let svc1 := Ledger._pair_internal_transfers svc in
  selected_pairs (Ledger.unmatched_transfers svc1) (Ledger.unmatched_transfers svc1) ∅ = [].
Proof.
  intros svc1. set (cands := Ledger.unmatched_transfers svc).
  set (ps := selected_pairs cands cands ∅).
  destruct (selected_pairs_spec cands cands ∅ [])
    as (_ & Hdisj & _ & Hmax); [intros x; set_solver|].
  fold ps in Hdisj, Hmax. cbn [app] in Hmax.
  assert (Ledger.view svc1 = map (regroup ps) (Ledger.view svc)) as Hview.
  { unfold svc1, Ledger._pair_internal_transfers, Ledger.commit. cbn [Ledger.view].
    rewrite pair_loop_selected. by apply fold_set_group_regroup. }
  assert (forall t, t ∈ Ledger.unmatched_transfers svc1 ->
            t ∈ cands /\ Ledger.id t ∉ pair_ids ps) as Hsub.
  { intros t. unfold Ledger.unmatched_transfers. rewrite elem_of_order_by_occurred_at, Hview.
    intros [Ht Hu]%list_elem_of_In%filter_In.
    apply in_map_iff in Ht as (t0 & <- & Ht0).
    destruct (ungrouped_after_pass _ _ Hu) as (-> & Hu0 & Hid). split; [|done].
    unfold cands, Ledger.unmatched_transfers. rewrite elem_of_order_by_occurred_at.
    by apply list_elem_of_In, filter_In. }
  apply no_pair_left.
  intros l r Hl Hr Hint. destruct (Hsub l Hl) as [Hl1 Hl2]. destruct (Hsub r Hr) as [Hr1 Hr2].
  by apply Hmax.
Qed.

(** X21.  The pairing pass is idempotent: a second pass right after a pass
    finds no pair and leaves the service as it is. *)
Theorem pairing_idempotent (svc : Ledger.LedgerService) :
  Ledger._pair_internal_transfers (Ledger._pair_internal_transfers svc)
  = Ledger._pair_internal_transfers svc.
Proof.
  pose proof (second_pass_selects_nothing svc) as Hnone. cbv zeta in Hnone.
  set (svc1 := Ledger._pair_internal_transfers svc) in *.
  unfold Ledger._pair_internal_transfers at 1.
  change (Ledger.order_by_occurred_at (List.filter Ledger.ungrouped_transfer (Ledger.view svc1)))
    with (Ledger.unmatched_transfers svc1).
  rewrite pair_loop_selected, Hnone. cbn [fold_left]. done.
Qed.

(** X22.  Importing a native file again into the ledger changes nothing:
    after an import that succeeds, a second import of the same lines inserts
    no row, skips every line that the normalizer keeps, flags none, and
    leaves the service, pairs included, exactly as the first import left
    it. *)
Theorem ledger_reimport_changes_nothing (rows : list (gmap string (option string)))
    (svc svc1 : Ledger.LedgerService) (res : Ledger.ImportResult) :
  Ledger.import_tsv rows svc = (Return res, svc1) ->
  Ledger.import_tsv rows svc1
  = (Return {| Ledger.imported := 0; Ledger.skipped_duplicates := kept_lines rows;
               Ledger.review_required_count := 0 |}, svc1).
Proof.
  unfold Ledger.import_tsv.
  destruct (Ledger.import_loop rows _ (Ledger.view svc)) as [[res1|] db1] eqn:Hrun; [|done].
  intros [= <- <-].
  destruct (first_loop _ _ _ _ _ Hrun) as (_ & Hall & _).
  set (svc0 := Ledger.commit {| Ledger.committed := Ledger.committed svc; Ledger.view := db1 |}).
  set (svc1 := Ledger._pair_internal_transfers svc0).
  rewrite second_loop.
  - cbn [Z.add]. f_equal.
    assert (Ledger.commit {| Ledger.committed := Ledger.committed svc1;
                             Ledger.view := Ledger.view svc1 |} = svc1) as -> by done.
    pose proof (second_pass_selects_nothing svc0) as Hnone. cbv zeta in Hnone. fold svc1 in Hnone.
    unfold Ledger._pair_internal_transfers at 1.
    change (Ledger.order_by_occurred_at
              (List.filter Ledger.ungrouped_transfer (Ledger.view svc1)))
      with (Ledger.unmatched_transfers svc1).
    rewrite pair_loop_selected, Hnone. cbn [fold_left]. done.
  - intros row Hrow. destruct (Hall row Hrow) as (o & Ho & Hn).
    exists o. split; [done|]. intros n ->.
    unfold svc1, Ledger._pair_internal_transfers. cbn [Ledger.view Ledger.commit].
    rewrite pair_loop_hashes. by apply Hn.
Qed.

End SecondPass.

Lemma monthly_summary_fold rows : forall i e u,
  fold_left monthly_summary_step rows (i, e, u)
  = (i + Py.sum (map income_part rows), e + Py.sum (map expense_part rows),
     u + Py.sum (map unmatched_part rows)).
Proof.
  induction rows as [|t rows IH]; intros i e u.
  - unfold Py.sum. simpl. by rewrite !Z.add_0_r.
  - cbn [fold_left map]. unfold monthly_summary_step at 2.
    unfold Py.sum. cbn [foldr]. fold (Py.sum (map income_part rows)).
    fold (Py.sum (map expense_part rows)). fold (Py.sum (map unmatched_part rows)).
    unfold income_part at 1. unfold expense_part at 1. unfold unmatched_part at 1.
    repeat case_decide; rewrite IH; try congruence;
      repeat (apply pair_equal_spec; split); lia.
Qed.

Lemma fits_c_int_spec z : fits_c_int z = true <-> - 2 ^ 31 <= z < 2 ^ 31.
Proof. unfold fits_c_int. rewrite andb_true_iff, Z.leb_le, Z.ltb_lt. done. Qed.

Lemma first_of_month_calendar year month :
  1 <= year <= 9999 -> 1 <= month <= 12 ->
  first_of_month year month = Return (days_from_civil year month 1 * 86400).
Proof.
  intros Hy Hm. unfold first_of_month.
  rewrite (proj2 (fits_c_int_spec year)), (proj2 (fits_c_int_spec month)) by lia.
  cbn [andb negb]. repeat (rewrite (proj2 (Z.leb_le _ _)) by lia). done.
Qed.

Lemma first_of_month_raises year month :
  ~ (1 <= year <= 9999 /\ 1 <= month <= 12) ->
  first_of_month year month
  = Raise (if fits_c_int year && fits_c_int month then ValueError else OverflowError).
Proof.
  intros Hout. unfold first_of_month. destruct (fits_c_int year && fits_c_int month); [|done].
  cbn [negb].
  destruct ((1 <=? year) && (year <=? 9999) && (1 <=? month) && (month <=? 12)) eqn:E; [|done].
  exfalso. apply Hout.
  apply andb_true_iff in E as [[[E1 E2]%andb_true_iff E3]%andb_true_iff E4].
  apply Z.leb_le in E1, E2, E3, E4. lia.
Qed.

Lemma monthly_summary_bounds year month :
  month_in_calendar year month ->
  exists start end_,
    first_of_month year month = Return start
    /\ (if month =? 12 then first_of_month (year + 1) 1 else first_of_month year (month + 1))
       = Return end_.
Proof.
  intros (Hy & Hm & Hlast).
  destruct (month =? 12) eqn:E.
  - apply Z.eqb_eq in E. assert (year <> 9999) by tauto.
    eexists _, _. split; apply first_of_month_calendar; lia.
  - apply Z.eqb_neq in E.
    eexists _, _. split; apply first_of_month_calendar; lia.
Qed.

(** Outside the calendar the error is that of the first bound, or for
    December 9999 that of the second. *)
Lemma monthly_summary_outside year month svc :
  ~ month_in_calendar year month ->
  monthly_summary year month svc
  = Raise (if fits_c_int year && fits_c_int month then ValueError else OverflowError).
Proof.
  intros Hout. unfold monthly_summary.
  destruct (decide (1 <= year <= 9999 /\ 1 <= month <= 12)) as [[Hy Hm]|Hno].
  - assert (year = 9999 /\ month = 12) as [-> ->].
    { destruct (decide (year = 9999 /\ month = 12)) as [?|?]; [done|].
      exfalso. apply Hout. unfold month_in_calendar. tauto. }
    done.
  - by rewrite (first_of_month_raises _ _ Hno).
Qed.

Lemma monthly_summary_closed year month svc start end_ :
  first_of_month year month = Return start ->
  (if month =? 12 then first_of_month (year + 1) 1 else first_of_month year (month + 1))
  = Return end_ ->
  monthly_summary year month svc
  = Return {| LedgerSummary.income := Py.sum (map income_part (in_window start end_ (Ledger.view svc)));
              LedgerSummary.expense := Py.sum (map expense_part (in_window start end_ (Ledger.view svc)));
              LedgerSummary.transfer_unmatched :=
                Py.sum (map unmatched_part (in_window start end_ (Ledger.view svc)));
              LedgerSummary.net_cashflow :=
                Py.sum (map income_part (in_window start end_ (Ledger.view svc)))
                - Py.sum (map expense_part (in_window start end_ (Ledger.view svc))) |}.
Proof.
  intros Hs He. unfold monthly_summary. rewrite Hs, He. cbn [mbind outcome_bind].
  fold (in_window start end_ (Ledger.view svc)). by rewrite monthly_summary_fold.
Qed.

Lemma in_window_app start end_ l1 l2 :
  in_window start end_ (l1 ++ l2) = in_window start end_ l1 ++ in_window start end_ l2.
Proof. unfold in_window. apply List.filter_app. Qed.

Lemma sum_map_nonneg {A} (f : A -> Z) l : (forall x, 0 <= f x) -> 0 <= Py.sum (map f l).
Proof.
  intros Hf. induction l as [|x l IH]; unfold Py.sum; simpl; [done|].
  fold (Py.sum (map f l)). specialize (Hf x). lia.
Qed.

Lemma sum_map_le {A} (f g : A -> Z) l :
  (forall x, f x <= g x) -> Py.sum (map f l) <= Py.sum (map g l).
Proof.
  intros Hf. induction l as [|x l IH]; unfold Py.sum; simpl; [done|].
  fold (Py.sum (map f l)). fold (Py.sum (map g l)). specialize (Hf x). lia.
Qed.

Lemma sum_map_ext {A} (f g : A -> Z) l :
  (forall x, f x = g x) -> Py.sum (map f l) = Py.sum (map g l).
Proof. intros Hf. f_equal. apply List.map_ext. done. Qed.

Lemma income_part_nonneg t : 0 <= income_part t.
Proof. unfold income_part. case_decide; lia. Qed.

Lemma expense_part_nonneg t : 0 <= expense_part t.
Proof. unfold expense_part. case_decide; lia. Qed.

Lemma unmatched_part_nonneg t : 0 <= unmatched_part t.
Proof. unfold unmatched_part. repeat case_decide; lia. Qed.

Section LedgerSummaryFacts.
Context `{Runtime}.

Lemma paired_view svc :
  Ledger.view (Ledger._pair_internal_transfers svc)
  = map (regroup (selected_pairs (Ledger.unmatched_transfers svc)
                    (Ledger.unmatched_transfers svc) ∅)) (Ledger.view svc).
Proof.
  destruct (selected_pairs_spec (Ledger.unmatched_transfers svc)
              (Ledger.unmatched_transfers svc) ∅ [])
    as (_ & Hdisj & _); [intros x; set_solver|].
  unfold Ledger._pair_internal_transfers, Ledger.commit. cbn [Ledger.view].
  rewrite pair_loop_selected. by apply fold_set_group_regroup.
Qed.

Lemma regroup_fields ps t :
  Ledger.occurred_at (regroup ps t) = Ledger.occurred_at t
  /\ Ledger.tx_type (regroup ps t) = Ledger.tx_type t
  /\ Ledger.signed_amount (regroup ps t) = Ledger.signed_amount t
  /\ (Ledger.transfer_group_id (regroup ps t) = Ledger.transfer_group_id t
      \/ is_Some (Ledger.transfer_group_id (regroup ps t))).
Proof.
  unfold regroup. destruct (List.find (in_pair t) ps); [|by auto].
  cbn. repeat split; try done. right. by eexists.
Qed.

Lemma in_window_regroup start end_ ps db :
  in_window start end_ (map (regroup ps) db) = map (regroup ps) (in_window start end_ db).
Proof.
  unfold in_window. induction db as [|t db IH]; [done|]. cbn [map List.filter].
  destruct (regroup_fields ps t) as (-> & _). rewrite IH. by destruct (_ && _).
Qed.

Lemma flagged_row_sign row n :
  Ledger._normalize_row row = Return (Some n) ->
  Ledger.review_required n = 1 ->
  (Ledger.tx_type n = "expense"%string /\ 0 < Ledger.signed_amount n)
  \/ (Ledger.tx_type n = "income"%string /\ Ledger.signed_amount n < 0).
Proof.
  unfold Ledger._normalize_row. case_decide; [done|].
  destruct (strptime _); [|done]. destruct (int_of_str _) as [signed|]; [|done].
  intros [= <-]. cbn [Ledger.tx_type Ledger.signed_amount Ledger.review_required].
  case_bool_decide as E1; cbn [andb].
  - destruct (Z.ltb_spec 0 signed); [by left|].
    case_bool_decide as E2; cbn [andb]; [|done].
    destruct (Z.ltb_spec signed 0); [by right|done].
  - case_bool_decide as E2; cbn [andb]; [|done].
    destruct (Z.ltb_spec signed 0); [by right|done].
Qed.

(** X23.  The ledger's monthly summary exists exactly for the months that
    [datetime] can bound on both sides, the years 1 to 9999 without December
    9999.  For any other year or month it raises: [OverflowError] when the
    year or the month does not fit a C [int], and [ValueError] when both
    do.  When the summary exists, its three sums are not negative and the
    net cash flow is income minus expense. *)
Theorem ledger_summary_defined (year month : Z) (svc : Ledger.LedgerService) :
  (month_in_calendar year month ->
     exists s, monthly_summary year month svc = Return s
               /\ 0 <= LedgerSummary.income s /\ 0 <= LedgerSummary.expense s
               /\ 0 <= LedgerSummary.transfer_unmatched s
               /\ LedgerSummary.net_cashflow s
                  = LedgerSummary.income s - LedgerSummary.expense s)
  /\ (~ month_in_calendar year month ->
      (- 2 ^ 31 <= year < 2 ^ 31 /\ - 2 ^ 31 <= month < 2 ^ 31 ->
       monthly_summary year month svc = Raise ValueError)
      /\ (~ (- 2 ^ 31 <= year < 2 ^ 31 /\ - 2 ^ 31 <= month < 2 ^ 31) ->
          monthly_summary year month svc = Raise OverflowError)).
Proof.
  split.
  - intros Hin. destruct (monthly_summary_bounds _ _ Hin) as (start & end_ & Hs & He).
    eexists. split; [by apply (monthly_summary_closed _ _ _ start end_)|].
    cbn. split; [apply sum_map_nonneg, income_part_nonneg|].
    split; [apply sum_map_nonneg, expense_part_nonneg|].
    split; [apply sum_map_nonneg, unmatched_part_nonneg|done].
  - intros Hout. rewrite (monthly_summary_outside _ _ svc Hout). split.
    + intros [Hy Hm]. apply fits_c_int_spec in Hy, Hm. by rewrite Hy, Hm.
    + intros Hno. destruct (fits_c_int year) eqn:Ey; [|done].
      destruct (fits_c_int month) eqn:Em; [|done].
      exfalso. apply Hno. by split; apply fits_c_int_spec.
Qed.

(** X24.  Pairing internal transfers changes neither the income nor the
    expense nor the net cash flow of any monthly summary, and it never raises
    the sum of unmatched transfers. *)
Theorem pairing_keeps_income_and_expense (year month : Z) (svc : Ledger.LedgerService)
    (s : LedgerSummary.t) :
  monthly_summary year month svc = Return s ->
  exists s', monthly_summary year month (Ledger._pair_internal_transfers svc) = Return s'
    /\ LedgerSummary.income s' = LedgerSummary.income s
    /\ LedgerSummary.expense s' = LedgerSummary.expense s
    /\ LedgerSummary.net_cashflow s' = LedgerSummary.net_cashflow s
    /\ LedgerSummary.transfer_unmatched s' <= LedgerSummary.transfer_unmatched s.
Proof.
  intros Hrun.
  destruct (decide (month_in_calendar year month)) as [Hin|Hout];
    [|by rewrite monthly_summary_outside in Hrun].
  destruct (monthly_summary_bounds _ _ Hin) as (start & end_ & Hs & He).
  rewrite (monthly_summary_closed _ _ _ start end_ Hs He) in Hrun. injection Hrun as <-.
  eexists. split; [by apply (monthly_summary_closed _ _ _ start end_)|].
  rewrite paired_view, in_window_regroup. cbn. rewrite !List.map_map.
  set (ps := selected_pairs _ _ _). set (rows := in_window _ _ _).
  assert (Py.sum (map (fun t => income_part (regroup ps t)) rows)
          = Py.sum (map income_part rows)) as ->.
  { apply sum_map_ext. intros t. unfold income_part.
    destruct (regroup_fields ps t) as (_ & -> & -> & _). done. }
  assert (Py.sum (map (fun t => expense_part (regroup ps t)) rows)
          = Py.sum (map expense_part rows)) as ->.
  { apply sum_map_ext. intros t. unfold expense_part.
    destruct (regroup_fields ps t) as (_ & -> & -> & _). done. }
  repeat split. apply sum_map_le. intros t. unfold unmatched_part.
  destruct (regroup_fields ps t) as (_ & -> & -> & [->|[g ->]]); [done|].
  repeat case_decide; try done; lia.
Qed.

(** X25.  A line that the import flags for review is stored, but counts
    in no monthly summary: with the row of a flagged line added to the table,
    every monthly summary is what it was without it. *)
Theorem flagged_row_outside_summary (row : gmap string (option string))
    (n : Ledger.transaction) (svc : Ledger.LedgerService) (db' : list Ledger.transaction)
    (year month : Z) :
  Ledger._normalize_row row = Return (Some n) ->
  Ledger.review_required n = 1 ->
  Ledger.insert n (Ledger.view svc) = Some db' ->
  monthly_summary year month (with_view svc db') = monthly_summary year month svc.
Proof.
  intros Hn Hflag Hins.
  destruct (decide (month_in_calendar year month)) as [Hin|Hout];
    [|by rewrite !monthly_summary_outside].
  destruct (monthly_summary_bounds _ _ Hin) as (start & end_ & Hs & He).
  rewrite !(monthly_summary_closed _ _ _ start end_ Hs He).
  unfold Ledger.insert in Hins. case_decide; [done|]. injection Hins as <-.
  cbn [with_view Ledger.view]. rewrite in_window_app.
  set (t := {| Ledger.id := _ |}).
  assert (income_part t = 0 /\ expense_part t = 0 /\ unmatched_part t = 0) as (Hi & He' & Hu).
  { apply (flagged_row_sign _ _ Hn) in Hflag. unfold income_part, expense_part, unmatched_part, t.
    cbn [Ledger.tx_type Ledger.signed_amount Ledger.transfer_group_id].
    destruct Hflag as [[-> Hpos]|[-> Hneg]]; repeat case_decide; try done; lia. }
  rewrite !map_app, !sum_app.
  unfold in_window at 2 4 6 8 10. cbn [List.filter].
  destruct (_ && _); cbn [map]; unfold Py.sum at 2 4 6 8 10; cbn [foldr];
    rewrite ?Hi, ?He', ?Hu, ?Z.add_0_r; done.
Qed.

End LedgerSummaryFacts.

Ltac each_row Ht :=
  repeat (apply elem_of_cons in Ht as [->|Ht]); [..|by apply elem_of_nil in Ht].

Lemma february_directions : directions_as_stored february.
Proof.
  intros t d Ht. each_row Ht; intros [= <-]; vm_compute; reflexivity.
Qed.

Lemma february_dates : dates_canonical (H := plain_runtime) 2026 february.
Proof.
  intros t m Ht Hm _.
  assert (m = 1 \/ m = 2 \/ m = 3 \/ m = 4 \/ m = 5 \/ m = 6 \/ m = 7 \/ m = 8 \/ m = 9
          \/ m = 10 \/ m = 11 \/ m = 12) as Hcases by lia.
  clear Hm.
  each_row Ht; repeat (destruct Hcases as [->|Hcases]); subst; vm_compute; split; intros E;
    first [reflexivity | discriminate E].
Qed.

Lemma february_ids : NoDup (map Tx.id february).
Proof. apply NoDup_ListNoDup. vm_compute. repeat constructor; simpl; intuition discriminate. Qed.

Lemma plain_decimal_to_int z :
  decimal_to_int (Runtime := plain_runtime) (Py.str_of_int z) = Converted z.
Proof. cbn. by rewrite plain_int_str_of_int. Qed.

Lemma summary_order_independent_witness :
  [lunch; salary] ≡ₚ [salary; lunch]
  /\ summary (H := plain_runtime) 2026 2 [lunch; salary]
     = summary (H := plain_runtime) 2026 2 [salary; lunch].
Proof.
  split; [apply perm_swap|].
  apply (summary_order_independent (H := plain_runtime)), perm_swap.
Defined.

Lemma breakdown_adds_up_to_summary_witness :
  let s := {| sum_year := 2026; sum_month := 2; sum_income := 3000000; sum_expense := 21000;
              net_cashflow := 2979000; transaction_count := 4 |} in
  directions_as_stored february
  /\ summary (H := plain_runtime) 2026 2 february = Return s
  /\ exists items,
       category_breakdown (H := plain_runtime) 2026 2 february = Return items
       /\ Py.sum (map breakdown_amount items) = sum_expense s.
Proof.
  intros s. split; [exact february_directions|]. split; [vm_compute; reflexivity|].
  apply (breakdown_adds_up_to_summary (H := plain_runtime) 2026 2 february s
           february_directions).
  vm_compute; reflexivity.
Defined.

Lemma listing_adds_up_to_summary_witness :
  let s := {| sum_year := 2026; sum_month := 2; sum_income := 3000000; sum_expense := 21000;
              net_cashflow := 2979000; transaction_count := 4 |} in
  (forall l, order_by_date_desc l ≡ₚ l)
  /\ directions_as_stored february
  /\ summary (H := plain_runtime) 2026 2 february = Return s
  /\ exists groups,
       transactions_by_category (H := plain_runtime) order_by_date_desc Income 2026 2 "major"
         false february = Return groups
       /\ Py.sum (map group_total_amount groups) = sum_income s.
Proof.
  intros s. split; [exact order_by_date_desc_perm|]. split; [exact february_directions|].
  split; [vm_compute; reflexivity|].
  apply (listing_adds_up_to_summary (H := plain_runtime) order_by_date_desc Income 2026 2
           "major" february s order_by_date_desc_perm february_directions).
  vm_compute; reflexivity.
Defined.

Lemma listing_matches_breakdown_witness :
  let items := [{| breakdown_category := "food"; breakdown_amount := 12000 |};
                {| breakdown_category := "transport>taxi"; breakdown_amount := 9000 |}] in
  category_breakdown (H := plain_runtime) 2026 2 february = Return items
  /\ exists groups,
       expense_transactions (H := plain_runtime) order_by_date_desc 2026 2 "minor" false
         february = Return groups
       /\ map (fun g => (group_category g, group_total_amount g)) groups
          ≡ₚ map (fun item => (breakdown_category item, breakdown_amount item)) items.
Proof.
  intros items. split; [vm_compute; reflexivity|].
  apply (listing_matches_breakdown (H := plain_runtime) order_by_date_desc 2026 2 "minor"
           february items order_by_date_desc_perm); [discriminate|vm_compute; reflexivity].
Defined.

Lemma category_breakdown_sorted_witness :
  let items := [{| breakdown_category := "food"; breakdown_amount := 12000 |};
                {| breakdown_category := "transport>taxi"; breakdown_amount := 9000 |}] in
  category_breakdown (H := plain_runtime) 2026 2 february = Return items
  /\ StronglySorted (fun a b => breakdown_amount b <= breakdown_amount a) items
  /\ NoDup (map breakdown_category items).
Proof.
  intros items. split; [vm_compute; reflexivity|].
  pose proof (category_breakdown_sorted (H := plain_runtime) 2026 2 february items) as Hthm.
  cbv zeta in Hthm. destruct Hthm as (Hs & Hn & _); [vm_compute; reflexivity|].
  exact (conj Hs Hn).
Defined.

Lemma transaction_list_groups_witness :
  exists groups,
    transactions_by_category (H := plain_runtime) order_by_date_desc Expense 2026 2 "major"
      true february = Return groups
    /\ map group_category groups = ["food"; "transport"]%string
    /\ map group_count groups = [2; 1]
    /\ StronglySorted (fun a b => group_total_amount b <= group_total_amount a) groups
    /\ NoDup (map group_category groups).
Proof.
  eexists. split; [vm_compute; reflexivity|]. split; [reflexivity|]. split; [reflexivity|].
  match goal with
  | |- StronglySorted _ ?g /\ _ =>
      pose proof (transaction_list_groups (H := plain_runtime) order_by_date_desc Expense 2026 2
                    "major" true february g order_by_date_desc_perm) as Hthm
  end.
  cbv zeta in Hthm. destruct Hthm as (Hs & Hn & _); [vm_compute; reflexivity|].
  exact (conj Hs Hn).
Defined.

Lemma trend_categories_ranked_witness :
  let r := {| trend_year := 2026; trend_categories := ["housing"; "food"]%string;
              trend_rows := [{| trend_month := 2;
                                trend_values := [("housing", 0); ("food", 12000)]%string |};
                             {| trend_month := 3;
                                trend_values := [("housing", 500000); ("food", 0)]%string |}] |} in
  category_monthly_trend (H := plain_runtime) 2026 2 false "major" february = Return r
  /\ NoDup (trend_categories r)
  /\ Z.of_nat (length (trend_categories r)) <= 2.
Proof.
  intros r. split; [vm_compute; reflexivity|].
  pose proof (trend_categories_ranked (H := plain_runtime) 2026 2 false "major" february r)
    as Hthm.
  cbv zeta in Hthm. destruct Hthm as (_ & Hn & Hlen & _); [vm_compute; reflexivity|].
  split; [exact Hn|]. apply Hlen. lia.
Defined.

Lemma trend_rows_by_month_witness :
  let r := {| trend_year := 2026; trend_categories := ["housing"; "food"]%string;
              trend_rows := [{| trend_month := 2;
                                trend_values := [("housing", 0); ("food", 12000)]%string |};
                             {| trend_month := 3;
                                trend_values := [("housing", 500000); ("food", 0)]%string |}] |} in
  category_monthly_trend (H := plain_runtime) 2026 2 false "major" february = Return r
  /\ sublist (map trend_month (trend_rows r)) months.
Proof.
  intros r. split; [vm_compute; reflexivity|].
  pose proof (trend_rows_by_month (H := plain_runtime) 2026 2 false "major" february r) as Hthm.
  cbv zeta in Hthm. destruct Hthm as (Hsub & _); [vm_compute; reflexivity|].
  exact Hsub.
Defined.

Lemma trend_matches_breakdown_witness :
  let r := {| trend_year := 2026;
              trend_categories := ["housing"; "food"; "transport>taxi"]%string;
              trend_rows :=
                [{| trend_month := 2;
                    trend_values :=
                      [("housing", 0); ("food", 12000); ("transport>taxi", 9000)]%string |};
                 {| trend_month := 3;
                    trend_values :=
                      [("housing", 500000); ("food", 0); ("transport>taxi", 0)]%string |}] |} in
  dates_canonical (H := plain_runtime) 2026 february
  /\ category_monthly_trend (H := plain_runtime) 2026 5 false "minor" february = Return r
  /\ exists items,
       category_breakdown (H := plain_runtime) 2026 2 february = Return items
       /\ forall c v, (c, v) ∈ [("housing", 0); ("food", 12000); ("transport>taxi", 9000)]%string ->
            {| breakdown_category := c; breakdown_amount := v |} ∈ items
            \/ (v = 0 /\ c ∉ map breakdown_category items).
Proof.
  intros r. split; [exact february_dates|]. split; [vm_compute; reflexivity|].
  apply (trend_matches_breakdown (H := plain_runtime) 2026 5 false "minor" february r
           ltac:(discriminate) february_dates ltac:(vm_compute; reflexivity)
           {| trend_month := 2;
              trend_values := [("housing", 0); ("food", 12000); ("transport>taxi", 9000)]%string |}).
  unfold r. cbn [trend_rows]. by left.
Defined.

Lemma update_by_id_result_witness :
  let db' := (update_transaction Expense "a1" rename_lunch february).2 in
  NoDup (map Tx.id february)
  /\ update_transaction Expense "a1" rename_lunch february = (Return (), db')
  /\ exists pre t post t',
       february = pre ++ t :: post /\ db' = pre ++ t' :: post
       /\ Tx.id t = "a1"%string /\ Tx.id t' = "a1"%string
       /\ Tx.description t' = "lunch special"%string
       /\ Tx.import_fingerprint t' = Some (_transaction_fingerprint (existing_model t')).
Proof.
  intros db'. split; [exact february_ids|]. split; [vm_compute; reflexivity|].
  destruct (update_by_id_result Expense "a1" rename_lunch february db' february_ids)
    as (pre & t & post & t' & H1 & H2 & H3 & _ & H5 & _ & _ & _ & _ & H10 & _ & _ & _ & _ & H15);
    [vm_compute; reflexivity|].
  exists pre, t, post, t'. repeat split; [exact H1|exact H2|exact H3|exact H5|exact H10|exact H15].
Defined.

Lemma update_by_match_outcome_witness :
  let updates : gmap string string :=
    {[ "description" := "lunch special"; "merchant" := "lunch special" ]}%string in
  NoDup (map Tx.id february)
  /\ _build_transaction_updates rename_lunch Expense = Return updates
  /\ updates <> ∅
  /\ List.filter (matches_snapshot (H := plain_runtime) Expense (original rename_lunch_by_match))
       february = [lunch]
  /\ exists pre post,
       february = pre ++ lunch :: post
       /\ update_transaction_by_match (H := plain_runtime) Expense rename_lunch_by_match february
          = (Return (), pre ++ apply_columns updates lunch :: post)
       /\ Tx.id (apply_columns updates lunch) = Tx.id lunch
       /\ Tx.import_fingerprint (apply_columns updates lunch) = Tx.import_fingerprint lunch.
Proof.
  intros updates. split; [exact february_ids|].
  assert (_build_transaction_updates rename_lunch Expense = Return updates) as Hb
    by (vm_compute; reflexivity).
  assert (updates <> ∅) as Hne.
  { intros E. apply (f_equal (fun m : gmap string string => m !! "description"%string)) in E.
    vm_compute in E. discriminate E. }
  split; [exact Hb|]. split; [exact Hne|]. split; [vm_compute; reflexivity|].
  pose proof (update_by_match_outcome (H := plain_runtime) Expense rename_lunch_by_match
                february updates february_ids Hb Hne) as Hthm.
  cbv zeta in Hthm.
  destruct Hthm as (_ & Hone & _); [vm_compute; reflexivity|vm_compute; reflexivity|].
  apply Hone. vm_compute; reflexivity.
Defined.

Lemma created_transaction_in_summary_witness :
  let db' := (create_transaction "n1" new_lunch february).2 in
  (forall z, decimal_to_int (Runtime := plain_runtime) (Py.str_of_int z) = Converted z)
  /\ create_transaction "n1" new_lunch february = (Return "n1"%string, db')
  /\ summary (H := plain_runtime) 2026 2 february
     = Return {| sum_year := 2026; sum_month := 2; sum_income := 3000000; sum_expense := 21000;
                 net_cashflow := 2979000; transaction_count := 4 |}
  /\ summary (H := plain_runtime) 2026 2 db'
     = Return {| sum_year := 2026; sum_month := 2; sum_income := 3000000 + 0;
                 sum_expense := 21000 + 12000; net_cashflow := 2979000 + - 12000;
                 transaction_count := 4 + 1 |}.
Proof.
  intros db'. split; [exact plain_decimal_to_int|]. split; [vm_compute; reflexivity|].
  split; [vm_compute; reflexivity|].
  apply (created_transaction_in_summary (H := plain_runtime) "n1" new_lunch february db' 2026 2
           {| sum_year := 2026; sum_month := 2; sum_income := 3000000; sum_expense := 21000;
              net_cashflow := 2979000; transaction_count := 4 |} plain_decimal_to_int);
    vm_compute; reflexivity.
Defined.

Lemma normalized_row_valid_witness :
  exists n,
    Ledger._normalize_row (H := plain_runtime) flagged_line = Return (Some n)
    /\ Ledger.tx_type n = "expense"%string /\ Ledger.signed_amount n = 7990
    /\ Ledger.review_required n = 1
    /\ Ledger.amount n = Z.abs (Ledger.signed_amount n)
    /\ Ledger.transfer_group_id n = None.
Proof.
  eexists. split; [vm_compute; reflexivity|]. split; [reflexivity|]. split; [reflexivity|].
  split; [reflexivity|].
  match goal with
  | |- Ledger.amount ?n = _ /\ _ =>
      destruct (normalized_row_valid (H := plain_runtime) flagged_line n)
        as (_ & _ & Ha & Hg & _); [vm_compute; reflexivity|]
  end.
  exact (conj Ha Hg).
Defined.

Lemma ledger_import_accounting_witness :
  let res := {| Ledger.imported := 5; Ledger.skipped_duplicates := 0;
                Ledger.review_required_count := 1 |} in
  Ledger.import_tsv (H := plain_runtime) SAMPLE empty_service = (Return res, sample_ledger)
  /\ NoDup (map Ledger.id (Ledger.view sample_ledger))
  /\ NoDup (map Ledger.row_hash (Ledger.view sample_ledger))
  /\ Ledger.committed sample_ledger = Ledger.view sample_ledger
  /\ Z.of_nat (length (Ledger.view sample_ledger)) = 0 + 5
  /\ 5 + 0 = kept_lines (H := plain_runtime) SAMPLE.
Proof.
  intros res. split; [vm_compute; reflexivity|].
  destruct (ledger_import_accounting (H := plain_runtime) SAMPLE empty_service sample_ledger res)
    as (H1 & H2 & _ & _ & H5 & H6 & H7 & _);
    [apply NoDup_nil_2|apply NoDup_nil_2|vm_compute; reflexivity|].
  exact (conj H1 (conj H2 (conj H5 (conj H6 H7)))).
Defined.

Lemma ledger_reimport_changes_nothing_witness :
  Ledger.import_tsv (H := plain_runtime) SAMPLE empty_service
  = (Return {| Ledger.imported := 5; Ledger.skipped_duplicates := 0;
               Ledger.review_required_count := 1 |}, sample_ledger)
  /\ Ledger.import_tsv (H := plain_runtime) SAMPLE sample_ledger
     = (Return {| Ledger.imported := 0;
                  Ledger.skipped_duplicates := kept_lines (H := plain_runtime) SAMPLE;
                  Ledger.review_required_count := 0 |}, sample_ledger).
Proof.
  split; [vm_compute; reflexivity|].
  apply (ledger_reimport_changes_nothing (H := plain_runtime) SAMPLE empty_service sample_ledger
           {| Ledger.imported := 5; Ledger.skipped_duplicates := 0;
              Ledger.review_required_count := 1 |}).
  vm_compute; reflexivity.
Defined.

Lemma ledger_summary_defined_witness :
  month_in_calendar 2026 2
  /\ (exists s, monthly_summary 2026 2 sample_ledger = Return s
                /\ 0 <= LedgerSummary.income s /\ 0 <= LedgerSummary.expense s
                /\ 0 <= LedgerSummary.transfer_unmatched s
                /\ LedgerSummary.net_cashflow s
                   = LedgerSummary.income s - LedgerSummary.expense s)
  /\ monthly_summary 9999 12 sample_ledger = Raise ValueError
  /\ monthly_summary 2026 13 sample_ledger = Raise ValueError
  /\ monthly_summary (2 ^ 31) 1 sample_ledger = Raise OverflowError
  /\ monthly_summary 0 (2 ^ 31) sample_ledger = Raise OverflowError.
Proof.
  assert (month_in_calendar 2026 2) as Hin by (unfold month_in_calendar; lia).
  split; [exact Hin|].
  split; [exact (proj1 (ledger_summary_defined 2026 2 sample_ledger) Hin)|].
  split; [|split; [|split]].
  - apply (proj2 (ledger_summary_defined 9999 12 sample_ledger)); [|lia].
    unfold month_in_calendar. lia.
  - apply (proj2 (ledger_summary_defined 2026 13 sample_ledger)); [|lia].
    unfold month_in_calendar. lia.
  - refine (proj2 (proj2 (ledger_summary_defined (2 ^ 31) 1 sample_ledger) _) _);
      [unfold month_in_calendar|]; lia.
  - refine (proj2 (proj2 (ledger_summary_defined 0 (2 ^ 31) sample_ledger) _) _);
      [unfold month_in_calendar|]; lia.
Defined.

Lemma pairing_keeps_income_and_expense_witness :
  let s := {| LedgerSummary.income := 0; LedgerSummary.expense := 1000;
              LedgerSummary.transfer_unmatched := 9000; LedgerSummary.net_cashflow := -1000 |} in
  let svc := service_of [safebox_in; safebox_out; card_payment; lone_transfer] in
  monthly_summary 2026 2 svc = Return s
  /\ monthly_summary 2026 2 (Ledger._pair_internal_transfers (H := plain_runtime) svc)
     = Return {| LedgerSummary.income := 0; LedgerSummary.expense := 1000;
                 LedgerSummary.transfer_unmatched := 7000;
                 LedgerSummary.net_cashflow := -1000 |}
  /\ exists s',
       monthly_summary 2026 2 (Ledger._pair_internal_transfers (H := plain_runtime) svc)
       = Return s'
       /\ LedgerSummary.income s' = LedgerSummary.income s
       /\ LedgerSummary.expense s' = LedgerSummary.expense s
       /\ LedgerSummary.net_cashflow s' = LedgerSummary.net_cashflow s
       /\ LedgerSummary.transfer_unmatched s' <= LedgerSummary.transfer_unmatched s.
Proof.
  intros s svc. split; [vm_compute; reflexivity|]. split; [vm_compute; reflexivity|].
  apply (pairing_keeps_income_and_expense (H := plain_runtime) 2026 2 svc s).
  vm_compute; reflexivity.
Defined.

Lemma flagged_row_outside_summary_witness :
  exists n db',
    Ledger._normalize_row (H := plain_runtime) flagged_line = Return (Some n)
    /\ Ledger.review_required n = 1
    /\ Ledger.insert n [safebox_in] = Some db'
    /\ length db' = 2%nat
    /\ monthly_summary 2026 2 (with_view (service_of [safebox_in]) db')
       = monthly_summary 2026 2 (service_of [safebox_in]).
Proof.
  eexists. eexists. split; [vm_compute; reflexivity|]. split; [reflexivity|].
  split; [vm_compute; reflexivity|]. split; [reflexivity|].
  eapply (flagged_row_outside_summary (H := plain_runtime) flagged_line);
    [vm_compute; reflexivity|reflexivity|vm_compute; reflexivity].
Defined.
